(** * ethereumjs-remote: the transaction pipeline, embedded and verified

    A shallow embedding of [ethereum-remote.js]: the three Joi schemas, the
    public operations [sendTransaction] and [call], the assembly pipeline
    [createSignedRawTransaction], its helper [sign_and_serialize] and
    [sendRawTransaction].

    JavaScript objects live in a store and are passed by reference, so that
    the assignment [params.value = 0] is visible to whoever holds the object.
    Remote procedure calls are logged in a trace.  What the module imports
    from its dependencies (the ABI encoder of web3, the ethereumjs-tx
    transaction object, the JSON-RPC node) is a capability the pipeline is
    parametrised over.

    Asynchrony is kept to what the code depends on.  The executor of a
    promise runs at once, and an exception it raises rejects the promise.  A
    method of [web3.eth] either raises at once, when it cannot format its
    argument, or sends its request, whose callback is called later, once,
    with an error or a result; an exception raised in a callback is raised
    outside every promise, so it settles none.

    Numbers are JavaScript numbers: an integer the node reports reaches the
    module as the nearest double, and [web3.toHex] writes a number from its
    decimal text. *)

From Stdlib Require Import ZArith NArith Lia Ascii String.
From stdpp Require Import gmap strings list.

Set Warnings "-register-all".

(** ** Hexadecimal numerals and byte strings *)

Module Hex.
Local Open Scope N_scope.

(** The sixteen digits, lower case, as [Number.prototype.toString(16)]
    prints them. *)
Definition hex_digit (d : N) : ascii :=
  match d with
  | 0 => "0" | 1 => "1" | 2 => "2" | 3 => "3"
  | 4 => "4" | 5 => "5" | 6 => "6" | 7 => "7"
  | 8 => "8" | 9 => "9" | 10 => "a" | 11 => "b"
  | 12 => "c" | 13 => "d" | 14 => "e" | _ => "f"
  end%char.

(** Reading a digit back; both cases are accepted, as a hex parser does. *)
Definition hex_value (c : ascii) : option N :=
  let n := N_of_ascii c in
  if (48 <=? n) && (n <=? 57) then Some (n - 48)
  else if (97 <=? n) && (n <=? 102) then Some (n - 87)
  else if (65 <=? n) && (n <=? 70) then Some (n - 55)
  else None.

(** Digits of [n] in base [b], most significant first, without leading
    zero; the numeral of zero is the single digit 0. *)
Fixpoint digits_aux (b : N) (fuel : nat) (n : N) (acc : list N) : list N :=
  match fuel with
  | O => acc
  | S f => if n <? b then n :: acc
           else digits_aux b f (n / b) (n mod b :: acc)
  end.

Definition digits (b n : N) : list N :=
  digits_aux b (S (N.to_nat (N.log2 n))) n [].

Definition digits16 (n : N) : list N := digits 16 n.

Definition render (ds : list N) : string :=
  fold_right (fun d s => String (hex_digit d) s) EmptyString ds.

(** [n.toString(16)] for a non-negative integer [n]. *)
Definition toString16 (n : N) : string := render (digits16 n).

(** web3's [fromDecimal] on a BigNumber, which holds its integer exactly:
    ['0x' + n.toString(16)], with the sign in front for a negative one.
    [web3.toHex] is this on a BigNumber (the gas price); a number is made
    a BigNumber first, from its decimal text (see [Number.toHex]). *)
Definition toHex (z : Z) : string :=
  if (z <? 0)%Z then "-0x" +:+ toString16 (Z.to_N (- z))
  else "0x" +:+ toString16 (Z.to_N z).

Fixpoint parse_digits (s : string) : option (list N) :=
  match s with
  | EmptyString => Some []
  | String c r =>
      match hex_value c, parse_digits r with
      | Some d, Some ds => Some (d :: ds)
      | _, _ => None
      end
  end.

Fixpoint pair_up (ds : list N) : list N :=
  match ds with
  | hi :: lo :: r => 16 * hi + lo :: pair_up r
  | _ => []
  end.

Definition padToEven (ds : list N) : list N :=
  if Nat.even (length ds) then ds else 0 :: ds.

Definition stripHexPrefix (s : string) : option string :=
  match s with
  | String "0" (String "x" r) => Some r
  | _ => None
  end.

(** The byte string a [0x] numeral denotes: prefix removed, padded on the
    left to whole bytes, two digits per byte.  A string that is not [0x]
    followed by hex digits is no numeral; the transaction object reads such
    a string as text (see [Tx.toBuffer]). *)
Definition bytes_of_hex (s : string) : option (list N) :=
  match stripHexPrefix s with
  | Some r => pair_up <$> (padToEven <$> parse_digits r)
  | None => None
  end.

(** [buf.toString('hex')]: two digits per byte. *)
Definition hex_of_bytes (bs : list N) : string :=
  render (concat (map (fun b => [b / 16; b mod 16]) bs)).

(** Big-endian value of a digit or byte string in base [b]. *)
Definition value_in (b : N) (ds : list N) : N :=
  fold_left (fun a d => b * a + d) ds 0.

Definition be_value (bs : list N) : N := value_in 256 bs.

(** Minimal-width big-endian form: no leading zero byte, hence the empty
    string for zero. *)
Definition minimal_be (bs : list N) : Prop :=
  match bs with
  | [] => True
  | b :: _ => b <> 0
  end.

Fixpoint stripZeros (bs : list N) : list N :=
  match bs with
  | 0 :: r => stripZeros r
  | _ => bs
  end.

(** Minimal big-endian bytes of a number; none for zero. *)
Definition to_be (n : N) : list N :=
  if n =? 0 then [] else digits 256 n.

(** [Buffer.from(s, 'hex')] as Node reads it: two digits per byte, up to
    the first pair that is not hexadecimal. *)
Fixpoint buffer_from_hex (s : string) : list N :=
  match s with
  | String a (String b r) =>
      match hex_value a, hex_value b with
      | Some hi, Some lo => 16 * hi + lo :: buffer_from_hex r
      | _, _ => []
      end
  | _ => []
  end.

(** [Buffer.from(s)]: the bytes of a text.  A string of the model is the
    sequence of its UTF-8 bytes. *)
Definition utf8 (s : string) : list N :=
  map N_of_ascii (list_ascii_of_string s).

End Hex.

(** ** JavaScript numbers

    An integer [z] written [JNum z] below, or reported by the node, stands
    for the Number value for [z]: the nearest double, which is [z] itself
    up to 2^53 in size. *)

Module Number.
Local Open Scope Z_scope.

(** The nearest double of a non-negative integer: 53 significant bits are
    kept, a tie goes to the even significand. *)
Definition round53 (n : Z) : Z :=
  let e := Z.log2 n - 52 in
  if e <=? 0 then n
  else
    let q := n / 2 ^ e in
    let r := n mod 2 ^ e in
    let half := 2 ^ (e - 1) in
    if (half <? r) || ((r =? half) && Z.odd q)
    then (q + 1) * 2 ^ e
    else q * 2 ^ e.

(** The Number value for [z]; one of 2^1024 or more in size is an
    infinity. *)
Definition nearest (z : Z) : Z := Z.sgn z * round53 (Z.abs z).

Definition isFinite (d : Z) : bool := Z.abs d <? 2 ^ 1024.

(** [Number.isSafeInteger] of the Number value for [z]. *)
Definition isSafeInteger (z : Z) : bool := Z.abs z <=? 2 ^ 53 - 1.

(** [c] is a decimal text of the double [d] when it reads back as [d]. *)
Definition reads_as (d c : Z) : bool := nearest c =? d.

(** The integer that the text [d.toString(10)] denotes, for a double
    [0 <= d]: of the integers that read back as [d], one with the fewest
    significant digits, that is with the most zeros at the end, and among
    these the nearest to [d].  [j] counts the zeros down; with none, the
    text is [d] itself. *)
Fixpoint shortest (j : nat) (d : Z) : Z :=
  match j with
  | O => d
  | S j' =>
      let p := 10 ^ Z.of_nat j in
      let lo := d / p * p in
      let hi := lo + p in
      match reads_as d lo, reads_as d hi with
      | true, true =>
          if d - lo <? hi - d then lo
          else if hi - d <? d - lo then hi
          else if Z.even (lo / p) then lo else hi
      | true, false => lo
      | false, true => hi
      | false, false => shortest j' d
      end
  end.

Definition printed (d : Z) : Z :=
  Z.sgn d * shortest (S (Z.to_nat (Z.log2 (Z.abs d)))) (Z.abs d).

(** [web3.toHex(n)] for the number [n] that [z] stands for: web3 makes a
    BigNumber of [n.toString(10)] and writes it in base 16 after ['0x'];
    of an infinity it writes the name. *)
Definition toHex (z : Z) : string :=
  let d := nearest z in
  if isFinite d then Hex.toHex (printed d)
  else if d <? 0 then "-0xInfinity" else "0xInfinity".

(** [n.toString(16)]: the digits of the double, which base 16 writes in
    full. *)
Definition toString16 (z : Z) : string :=
  let d := nearest z in
  if isFinite d then
    (if d <? 0 then "-" +:+ Hex.toString16 (Z.to_N (- d))
     else Hex.toString16 (Z.to_N d))
  else if d <? 0 then "-Infinity" else "Infinity".

End Number.

(** ** JavaScript values, errors and outcomes *)

(** The values that occur in a parameter object.  [JNum z] is the Number
    value for the integer [z]; an object is a finite map from property
    names, in which a property is present with a value or absent. *)
Inductive jsval :=
| JNum (z : Z)
| JStr (s : string)
| JArr (l : list jsval)
| JObj (o : gmap string jsval)
| JWeb3 (provider : string).

(** The error kinds of the pipeline, by where they are raised.
    [ValidationError] is the Joi error;
    [InterfaceLookupError] is the exception of
    [new SolidityFunction('', undefined, '')], raised when [_.find] found no
    descriptor; [EncodingError] is raised by [toPayload]; [RemoteError] is the
    [err] a web3 callback receives, kept as it is; [SigningError] is raised by
    the transaction object; [TypeError] is a property access on a value that
    has no such property; [InvalidAddress] is raised by a method of
    [web3.eth] that is given an address it cannot format. *)
Inductive error :=
| ValidationError
| InterfaceLookupError
| EncodingError (msg : string)
| RemoteError (msg : string)
| SigningError (msg : string)
| TypeError
| InvalidAddress.

Inductive result (A : Type) :=
| Ok (a : A)
| Err (e : error).
Arguments Ok {A} a.
Arguments Err {A} e.

(** What a method of [web3.eth] does when it is called with a callback.
    [Raised e]: it raised [e] at once, formatting its arguments, and sent
    nothing.  [Answered r]: it sent the request, and the callback received
    the error or the result [r]. *)
Inductive reply (A : Type) :=
| Raised (e : error)
| Answered (r : result A).
Arguments Raised {A} e.
Arguments Answered {A} r.

(** What becomes of a call that returns a promise.
    [Thrown]: the function raised before it returned a promise.
    [Resolved], [Rejected]: the promise was settled.
    [Unsettled e]: exception [e] was raised inside a node callback, after the
    promise executor had returned; neither [resolve] nor [reject] was called
    and none will be. *)
Inductive outcome (A : Type) :=
| Thrown (e : error)
| Resolved (a : A)
| Rejected (e : error)
| Unsettled (e : error).
Arguments Thrown {A} e.
Arguments Resolved {A} a.
Arguments Rejected {A} e.
Arguments Unsettled {A} e.

(** ** The store of objects and the trace of remote calls *)

(** A reference is an index into the store. *)
Abbreviation loc := nat.

Inductive rpc :=
| GetTransactionCount (provider from : string)
| GetGasPrice (provider : string)
| EstimateGas (provider to data : string)
| SendRawTransaction (provider raw : string)
| EthCall (provider to data : string).

Record state := mkState {
  heap : list (gmap string jsval);
  trace : list rpc
}.

Definition M (A : Type) : Type := state -> A * state.

#[export] Instance M_ret : MRet M := fun A a st => (a, st).
#[export] Instance M_bind : MBind M :=
  fun A B f m st => let '(a, st') := m st in f a st'.

(** Reading the object a reference points to. *)
Definition load (l : loc) : M (option (gmap string jsval)) :=
  fun st => (heap st !! l, st).

(** Assigning to the object in place. *)
Definition store (l : loc) (o : gmap string jsval) : M unit :=
  fun st => (tt, mkState (<[l := o]> (heap st)) (trace st)).

(** A fresh object. *)
Definition alloc (o : gmap string jsval) : M loc :=
  fun st => (length (heap st), mkState (heap st ++ [o]) (trace st)).

(** One round trip to the node. *)
Definition emit (r : rpc) : M unit :=
  fun st => (tt, mkState (heap st) (trace st ++ [r])).

(** ** Joi schemas *)

Inductive jtype := TString | TArray | TInteger | TAny.

Record rule := mkRule { ty : jtype; required : bool }.

Definition Joi_string_required := mkRule TString true.
Definition Joi_array_required := mkRule TArray true.
Definition Joi_any_required := mkRule TAny true.
Definition Joi_number_integer := mkRule TInteger false.

Definition schema_sendTransaction : list (string * rule) :=
  [ ("from", Joi_string_required);
    ("privateKey", Joi_string_required);
    ("contractAddress", Joi_string_required);
    ("abi", Joi_array_required);
    ("functionName", Joi_string_required);
    ("functionArguments", Joi_array_required);
    ("provider", Joi_string_required);
    ("value", Joi_number_integer);
    ("gasLimit", Joi_number_integer) ].

Definition schema_call : list (string * rule) :=
  [ ("contractAddress", Joi_string_required);
    ("abi", Joi_array_required);
    ("functionName", Joi_string_required);
    ("functionArguments", Joi_array_required);
    ("provider", Joi_string_required) ].

Definition schema_createSignedRawTransaction : list (string * rule) :=
  [ ("from", Joi_string_required);
    ("privateKey", Joi_string_required);
    ("contractAddress", Joi_string_required);
    ("abi", Joi_array_required);
    ("functionName", Joi_string_required);
    ("functionArguments", Joi_array_required);
    ("web3", Joi_any_required);
    ("value", Joi_number_integer);
    ("gasLimit", Joi_number_integer) ].

(** [Joi.validate] converts by default: under a key that asks for a number
    or for an array it takes a text that it can read as one.  Which texts
    these are is Joi's: the text of a number that is a safe integer, the
    JSON text of an array. *)
Class JoiConvert := {
  integer_text : string -> bool;
  array_text : string -> bool
}.

(** The type tests of Joi.  A string must be a string, and not the empty
    one.  An array is an array, or text that converts to one.  An integer is
    a number that is a safe integer, or text that converts to one. *)
Definition conforms `{JoiConvert} (t : jtype) (v : jsval) : bool :=
  match t, v with
  | TString, JStr s => negb (String.eqb s "")
  | TArray, JArr _ => true
  | TArray, JStr s => array_text s
  | TInteger, JNum z => Number.isSafeInteger z
  | TInteger, JStr s => integer_text s
  | TAny, _ => true
  | _, _ => false
  end.

(** A key of the schema is in order when its value has the type asked for, or
    when it is absent and optional. *)
Definition key_ok `{JoiConvert} (o : gmap string jsval) (kr : string * rule) : bool :=
  match o !! kr.1 with
  | Some v => conforms (ty kr.2) v
  | None => negb (required kr.2)
  end.

(** Joi allows no key the schema does not list. *)
Definition keys_allowed (sc : list (string * rule)) (o : gmap string jsval)
  : bool :=
  bool_decide (dom o ⊆@{gset string} list_to_set sc.*1).

(** [Joi.validate(params, schema).error]: an error unless every key of the
    schema is in order and every key of the object is allowed.  The module
    goes on with [params] itself, not with the converted copy Joi returns. *)
Definition Joi_validate `{JoiConvert} (o : gmap string jsval) (sc : list (string * rule))
  : option error :=
  if forallb (key_ok o) sc && keys_allowed sc o then None
  else Some ValidationError.

(** ** Capabilities the module imports *)

(** The object literal handed to [new EthereumTx(...)]: every field is a
    string. *)
Record rawTx := mkRawTx {
  tx_to : string;
  tx_data : string;
  tx_value : string;
  tx_from : string;
  tx_nonce : string;
  tx_gasLimit : string;
  tx_gasPrice : string
}.

(** web3's ABI encoder: [new SolidityFunction('', d, '').toPayload(args).data]
    for a descriptor [d] and the value [args] of [functionArguments]; it
    raises on arguments that do not fit. *)
Class AbiEncoder := {
  toPayload : jsval -> jsval -> result string
}.

(** [web3.toHex] on a value that is not a number; of these, validation lets
    only text reach it. *)
Class Web3Utils := {
  toHex_other : jsval -> result string
}.

(** ethereumjs-tx and Node's [Buffer]: the constructor of the transaction
    object, the key buffer read from hex text, signing, serialization.  The
    constructor and [sign] raise on what they do not accept. *)
Class Codec := {
  tx : Type;
  EthereumTx : rawTx -> result tx;
  Buffer_from_hex : string -> list N;
  tx_sign : tx -> list N -> result tx;
  tx_serialize : tx -> list N
}.

(** [web3.eth] over the JSON-RPC node behind a provider URL.  The three
    methods that take an address format it before they send anything, and
    raise on one they cannot format; the other two send their request as it
    is.  A request that is sent hands an error or a result to its callback.
    The nonce and the estimate arrive as numbers, the gas price as a
    BigNumber: the integers here are what the node reported. *)
Class Node := {
  eth_getTransactionCount : string -> string -> reply Z;
  eth_getGasPrice : string -> result Z;
  eth_estimateGas : string -> string -> string -> reply Z;
  eth_sendRawTransaction : string -> string -> result string;
  eth_call : string -> string -> string -> reply string
}.

(** ** Reading the fields of a validated object *)

Definition get_str (o : gmap string jsval) (k : string) : option string :=
  match o !! k with Some (JStr s) => Some s | _ => None end.

Definition hasOwnProperty (o : gmap string jsval) (k : string) : bool :=
  match o !! k with Some _ => true | None => false end.

(** The parameters of [createSignedRawTransaction] once [value] has its
    default.  The keys validated as strings are strings; [abi],
    [functionArguments], [value] and [gasLimit] are the values of the
    object as they are, an array or a number or the text validation let
    pass; [gasLimit] is [None] when [typeof params.gasLimit] is
    ['undefined']. *)
Record params := mkParams {
  from : string;
  privateKey : string;
  contractAddress : string;
  abi : jsval;
  functionName : string;
  functionArguments : jsval;
  web3 : jsval;
  value : jsval;
  gasLimit : option jsval
}.

Definition read_params (o : gmap string jsval) : option params :=
  f ← get_str o "from";
  k ← get_str o "privateKey";
  c ← get_str o "contractAddress";
  a ← o !! "abi";
  n ← get_str o "functionName";
  args ← o !! "functionArguments";
  w ← o !! "web3";
  v ← o !! "value";
  Some (mkParams f k c a n args w v (o !! "gasLimit")).

(** The parameters of [call]. *)
Record call_params := mkCallParams {
  call_contractAddress : string;
  call_abi : jsval;
  call_functionName : string;
  call_functionArguments : jsval;
  call_provider : string
}.

Definition read_call_params (o : gmap string jsval) : option call_params :=
  c ← get_str o "contractAddress";
  a ← o !! "abi";
  n ← get_str o "functionName";
  args ← o !! "functionArguments";
  p ← get_str o "provider";
  Some (mkCallParams c a n args p).

(** ** The pipeline *)

Section Pipeline.
Context {JC : JoiConvert} {AE : AbiEncoder} {WU : Web3Utils} {CD : Codec}
  {ND : Node}.

(** The predicate of [_.find(abi, {name: functionName})]: an object whose
    [name] property is that very string. *)
Definition has_name (fn : string) (d : jsval) : bool :=
  match d with
  | JObj o =>
      match o !! "name" with
      | Some (JStr s) => String.eqb s fn
      | _ => false
      end
  | _ => false
  end.

(** [_.find] on an array: the first element the predicate holds of, if
    any. *)
Definition find_descriptor (abi : list jsval) (fn : string)
  : option jsval :=
  List.find (has_name fn) abi.

(** [_.find(abi, {name: fn})] on what validation lets stand under [abi]:
    an array, or text, of which [_.find] goes through the characters, none
    of them an object with a name. *)
Definition find_in (abi : jsval) (fn : string) : option jsval :=
  match abi with
  | JArr l => find_descriptor l fn
  | _ => None
  end.

(** [new SolidityFunction('', _.find(abi, {name: fn}), '')
      .toPayload(args).data] *)
Definition payload (abi : jsval) (fn : string) (args : jsval)
  : result string :=
  match find_in abi fn with
  | None => Err InterfaceLookupError
  | Some d => toPayload d args
  end.

(** [web3.toHex(v)] for a value of the parameter object or a number the
    node reported. *)
Definition web3_toHex (v : jsval) : result string :=
  match v with
  | JNum z => Ok (Number.toHex z)
  | _ => toHex_other v
  end.

(** The [rawTx] literal of [sign_and_serialize]: [value] and [gasLimit]
    through [web3.toHex] as they came, the nonce as the number and the gas
    price as the BigNumber web3 handed over.  An exception of [web3.toHex]
    is the [Err]. *)
Definition rawTx_of (p : params) (nonce : Z) (payloadData : string)
    (gasPrice : Z) (gasLimit : jsval) : result rawTx :=
  match web3_toHex (value p) with
  | Err e => Err e
  | Ok v =>
      match web3_toHex gasLimit with
      | Err e => Err e
      | Ok gl =>
          Ok {| tx_to := contractAddress p;
                tx_data := payloadData;
                tx_value := v;
                tx_from := from p;
                tx_nonce := Number.toHex nonce;
                tx_gasLimit := gl;
                tx_gasPrice := Hex.toHex gasPrice |}
      end
  end.

(** [sign_and_serialize]: the literal, the transaction object, the key
    buffer, the signature, the serialized bytes.  An exception of
    [web3.toHex], of the constructor or of [sign] is the [Err]. *)
Definition sign_and_serialize (p : params) (nonce : Z)
    (payloadData : string) (gasPrice : Z) (gasLimit : jsval)
  : result (list N) :=
  match rawTx_of p nonce payloadData gasPrice gasLimit with
  | Err e => Err e
  | Ok rawTx =>
      match EthereumTx rawTx with
      | Err e => Err e
      | Ok t =>
          let privateKeyBuffer := Buffer_from_hex (privateKey p) in
          match tx_sign t privateKeyBuffer with
          | Err e => Err e
          | Ok signed => Ok (tx_serialize signed)
          end
      end
  end.

(** The two places where [sign_and_serialize] is called are node
    callbacks: its result is resolved, and an exception it raises is
    raised in the callback, where nothing catches it. *)
Definition resolve_serialized (r : result (list N)) : outcome string :=
  match r with
  | Ok serializedTx => Resolved ("0x" +:+ Hex.hex_of_bytes serializedTx)
  | Err e => Unsettled e
  end.

(** The body of the promise that [createSignedRawTransaction] returns:
    payload, nonce, gas price, gas limit, signature.  What is raised up to
    the call of [getTransactionCount], that call included, is raised in the
    promise executor and rejects the promise.  The estimate is asked for in
    the callback of the gas price: what [estimateGas] raises there is raised
    in a callback. *)
Definition createSignedRawTransaction_promise (p : params)
  : M (outcome string) :=
  match payload (abi p) (functionName p) (functionArguments p) with
  | Err e => mret (Rejected e)
  | Ok payloadData =>
    match web3 p with
    | JWeb3 provider =>
      match eth_getTransactionCount provider (from p) with
      | Raised e => mret (Rejected e)
      | Answered r =>
        emit (GetTransactionCount provider (from p));;
        match r with
        | Err err => mret (Rejected err)
        | Ok nonce =>
          emit (GetGasPrice provider);;
          match eth_getGasPrice provider with
          | Err err => mret (Rejected err)
          | Ok gasPrice =>
            match gasLimit p with
            | Some g =>
                mret (resolve_serialized
                        (sign_and_serialize p nonce payloadData gasPrice g))
            | None =>
                match eth_estimateGas provider (contractAddress p)
                        payloadData with
                | Raised e => mret (Unsettled e)
                | Answered r =>
                  emit (EstimateGas provider (contractAddress p)
                          payloadData);;
                  match r with
                  | Err err => mret (Rejected err)
                  | Ok res =>
                      mret (resolve_serialized
                              (sign_and_serialize p nonce payloadData
                                 gasPrice (JNum res)))
                  end
                end
            end
          end
        end
      end
    | _ => mret (Rejected TypeError)
    end
  end.

(** [createSignedRawTransaction]: validation, whose error is thrown; the
    default of [value], assigned on the object of the caller; the promise.
    On a validated object the fields always read. *)
Definition createSignedRawTransaction (l : loc) : M (outcome string) :=
  obj ← load l;
  match obj with
  | None => mret (Thrown TypeError)
  | Some o =>
    match Joi_validate o schema_createSignedRawTransaction with
    | Some e => mret (Thrown e)
    | None =>
      o ← (if hasOwnProperty o "value" then mret o
           else store l (<["value" := JNum 0]> o);;
                mret (<["value" := JNum 0]> o));
      match read_params o with
      | None => mret (Rejected TypeError)
      | Some p => createSignedRawTransaction_promise p
      end
    end
  end.

(** [sendRawTransaction]: the promise around the broadcast. *)
Definition sendRawTransaction (rawTransaction : string) (web3 : jsval)
  : M (outcome string) :=
  match web3 with
  | JWeb3 provider =>
      emit (SendRawTransaction provider rawTransaction);;
      match eth_sendRawTransaction provider rawTransaction with
      | Ok hash => mret (Resolved hash)
      | Err err => mret (Rejected err)
      end
  | _ => mret (Rejected TypeError)
  end.

(** [_.assign(_.omit(params, ['provider']), {web3: web3})]: a new object. *)
Definition forwarded (o : gmap string jsval) (web3 : jsval)
  : gmap string jsval :=
  <["web3" := web3]> (delete "provider" o).

(** [sendTransaction]: validation, whose error is thrown; then, inside
    the promise, a Web3 instance for the provider, the assembly on the
    forwarded copy, and the broadcast of what the assembly resolves to.
    What the inner call throws is thrown in the executor and rejects the
    promise, as does whatever rejects the chain. *)
Definition sendTransaction (l : loc) : M (outcome string) :=
  obj ← load l;
  match obj with
  | None => mret (Thrown TypeError)
  | Some o =>
    match Joi_validate o schema_sendTransaction with
    | Some e => mret (Thrown e)
    | None =>
      match get_str o "provider" with
      | None => mret (Rejected TypeError)
      | Some provider =>
        let web3 := JWeb3 provider in
        l' ← alloc (forwarded o web3);
        r ← createSignedRawTransaction l';
        match r with
        | Thrown e => mret (Rejected e)
        | Rejected e => mret (Rejected e)
        | Unsettled e => mret (Unsettled e)
        | Resolved rawTransaction => sendRawTransaction rawTransaction web3
        end
      end
    end
  end.

(** [call]: validation, whose error is thrown; then, inside the promise,
    the payload and the message call.  What [web3.eth.call] raises is
    raised in the executor and rejects the promise. *)
Definition call (l : loc) : M (outcome string) :=
  obj ← load l;
  match obj with
  | None => mret (Thrown TypeError)
  | Some o =>
    match Joi_validate o schema_call with
    | Some e => mret (Thrown e)
    | None =>
      match read_call_params o with
      | None => mret (Rejected TypeError)
      | Some p =>
        match payload (call_abi p) (call_functionName p)
                (call_functionArguments p) with
        | Err e => mret (Rejected e)
        | Ok payloadData =>
          match eth_call (call_provider p) (call_contractAddress p)
                  payloadData with
          | Raised e => mret (Rejected e)
          | Answered r =>
            emit (EthCall (call_provider p) (call_contractAddress p)
                    payloadData);;
            match r with
            | Ok res => mret (Resolved res)
            | Err err => mret (Rejected err)
            end
          end
        end
      end
    end
  end.

End Pipeline.

(** ** The transaction codec *)

Module RLP.
Import Hex.
Local Open Scope N_scope.

(** Modelled from the spec: the length header of the chain's RLP-style
    encoding, which the module takes from ethereumjs-tx.  A length below 56
    is added to the offset; a longer one is written out big-endian after a
    byte that tells how many bytes it takes. *)
Definition encode_length (len offset : N) : list N :=
  if len <? 56 then [offset + len]
  else let lb := to_be len in
       offset + 55 + N.of_nat (length lb) :: lb.

(** Modelled from the spec: the encoding of a byte string in the codec of
    ethereumjs-tx.  A single byte below 128 stands for itself. *)
Definition encode_bytes (bs : list N) : list N :=
  match bs with
  | [b] => if b <? 128 then [b] else encode_length 1 128 ++ bs
  | _ => encode_length (N.of_nat (length bs)) 128 ++ bs
  end.

(** Modelled from the spec: the encoding of a list of byte strings in the
    codec of ethereumjs-tx. *)
Definition encode_list (items : list (list N)) : list N :=
  let body := concat (map encode_bytes items) in
  encode_length (N.of_nat (length body)) 192 ++ body.

(** Reading a length header whose first byte is [p]: the length and what
    follows the header. *)
Definition decode_length (offset p : N) (rest : list N)
  : option (N * list N) :=
  if p <? offset + 56 then Some (p - offset, rest)
  else let ll := N.to_nat (p - offset - 55) in
       if (length rest <? ll)%nat then None
       else Some (be_value (take ll rest), drop ll rest).

(** Reading one byte string off the input. *)
Definition decode_item (input : list N) : option (list N * list N) :=
  match input with
  | [] => None
  | p :: rest =>
      if p <? 128 then Some ([p], rest)
      else if p <? 192 then
        match decode_length 128 p rest with
        | Some (len, rest') =>
            let n := N.to_nat len in
            if (length rest' <? n)%nat then None
            else Some (take n rest', drop n rest')
        | None => None
        end
      else None
  end.

(** Reading byte strings until the input is used up; every item takes at
    least one byte, so the length of the input is fuel enough. *)
Fixpoint decode_items (fuel : nat) (input : list N)
  : option (list (list N)) :=
  match input with
  | [] => Some []
  | _ =>
      match fuel with
      | O => None
      | S f =>
          match decode_item input with
          | Some (item, rest) => cons item <$> decode_items f rest
          | None => None
          end
      end
  end.

(** Modelled from the spec: the decoder of the codec of ethereumjs-tx, for
    a list of byte strings. *)
Definition decode_list (input : list N) : option (list (list N)) :=
  match input with
  | [] => None
  | p :: rest =>
      if p <? 192 then None
      else
        match decode_length 192 p rest with
        | Some (len, body) =>
            if N.of_nat (length body) =? len
            then decode_items (length body) body
            else None
        | None => None
        end
  end.

End RLP.

(** The elliptic-curve signature of the hashed pre-image under a key: [v],
    [r] and [s], or an exception for a key the curve library refuses. *)
Class Secp256k1 := {
  ecsign : list N -> list N -> result (list N * list N * list N)
}.

Module Tx.
Import Hex.

(** The fields of a transaction object, each a byte string. *)
Record fields := mkFields {
  nonce : list N;
  gasPrice : list N;
  gasLimit : list N;
  to : list N;
  value : list N;
  data : list N;
  v : list N;
  r : list N;
  s : list N
}.

(** The reader behind every field of the transaction object: hex text is
    read as the bytes it denotes, any other text as its own bytes. *)
Definition toBuffer (field : string) : list N :=
  match bytes_of_hex field with
  | Some bs => bs
  | None => utf8 field
  end.

(** A numeric field loses its leading zero bytes. *)
Definition numeric (field : string) : list N :=
  stripZeros (toBuffer field).

(** Modelled from the spec: [new EthereumTx(rawTx)] of ethereumjs-tx.
    Every field is read from its text; a numeric field loses its leading
    zero bytes; the signature is empty; the key [from] of the literal is
    not a field of the transaction. *)
Definition read (raw : rawTx) : fields :=
  mkFields (numeric (tx_nonce raw)) (numeric (tx_gasPrice raw))
    (numeric (tx_gasLimit raw)) (toBuffer (tx_to raw))
    (numeric (tx_value raw)) (toBuffer (tx_data raw)) [] [] [].

Definition create (raw : rawTx) : result fields := Ok (read raw).

(** Modelled from the spec: the canonical pre-image of ethereumjs-tx, the
    transaction fields with empty signature placeholders. *)
Definition preimage (t : fields) : list N :=
  RLP.encode_list
    [nonce t; gasPrice t; gasLimit t; to t; value t; data t; []; []; []].

(** Modelled from the spec: [tx.sign(privateKey)] of ethereumjs-tx, which
    attaches the signature of the pre-image. *)
Definition sign `{Secp256k1} (t : fields) (key : list N) : result fields :=
  match ecsign (preimage t) key with
  | Ok (sv, sr, ss) =>
      Ok (mkFields (nonce t) (gasPrice t) (gasLimit t) (to t) (value t)
            (data t) sv sr ss)
  | Err e => Err e
  end.

(** Modelled from the spec: [tx.serialize()] of ethereumjs-tx, the full
    signed structure as bytes. *)
Definition serialize (t : fields) : list N :=
  RLP.encode_list
    [nonce t; gasPrice t; gasLimit t; to t; value t; data t;
     v t; r t; s t].

(** Modelled from the spec: decoding a serialized transaction back into
    its fields. *)
Definition decode (bytes : list N) : option fields :=
  match RLP.decode_list bytes with
  | Some [n; gp; gl; t; v; d; sv; sr; ss] =>
      Some (mkFields n gp gl t v d sv sr ss)
  | _ => None
  end.

End Tx.

#[export] Instance ethereumjs_tx `{Secp256k1} : Codec := {|
  tx := Tx.fields;
  EthereumTx := Tx.create;
  Buffer_from_hex := Hex.buffer_from_hex;
  tx_sign := Tx.sign;
  tx_serialize := Tx.serialize
|}.

(** ** A scripted environment

    The setting of the test suite with the node, the encoder, the curve
    library and the conversions of Joi and web3 replaced by scripted ones: a
    contract with [ping()] and [double(uint256)], a fresh account, fixed
    answers of the node. *)

Module Scripted.
Import Hex.

Definition descriptor (name : string) (inputs : list string) : jsval :=
  JObj (<["name" := JStr name]>
        (<["type" := JStr "function"]>
         {["inputs" := JArr (JStr <$> inputs)]})).

Definition parkour_abi : list jsval :=
  [ descriptor "ping" []; descriptor "double" ["uint256"] ].

(** Two descriptors that share the name [double]. *)
Definition overloaded_abi : list jsval :=
  [ descriptor "ping" [];
    descriptor "double" ["uint256"];
    descriptor "double" ["uint256"; "uint256"] ].

(** The value of a text of decimal digits, with a minus sign or without. *)
Fixpoint decimal_digits (s : string) (acc : Z) : option Z :=
  match s with
  | EmptyString => Some acc
  | String c r =>
      let n := N_of_ascii c in
      if ((48 <=? n) && (n <=? 57))%N
      then decimal_digits r (10 * acc + Z.of_N (n - 48))
      else None
  end.

Definition decimal (s : string) : option Z :=
  match s with
  | EmptyString => None
  | String "-" EmptyString => None
  | String "-" r => Z.opp <$> decimal_digits r 0
  | _ => decimal_digits s 0
  end.

(** The scripted conversion of Joi: a decimal numeral of a safe integer is
    read as that integer, the text [[]] as the empty array. *)
#[export] Instance conversion : JoiConvert := {|
  integer_text s :=
    match decimal s with
    | Some z => Number.isSafeInteger z
    | None => false
    end;
  array_text s := String.eqb s "[]"
|}.

(** The scripted [web3.toHex] on text: a decimal numeral is written in base
    16, text that begins with [0x] is returned as it is, any other text is
    written as the bytes of its characters. *)
#[export] Instance utils : Web3Utils := {|
  toHex_other v :=
    match v with
    | JStr s =>
        match decimal s with
        | Some z => Ok (toHex z)
        | None =>
            match stripHexPrefix s with
            | Some _ => Ok s
            | None => Ok ("0x" +:+ hex_of_bytes (utf8 s))
            end
        end
    | _ => Err TypeError
    end
|}.

Definition pad64 (s : string) : string :=
  string_of_list_ascii
    (repeat "0"%char (64 - String.length s)) +:+ s.

(** The scripted encoder: a fixed selector per signature, then every
    argument as a word of 64 digits; it raises on a mismatch of arity or
    type. *)
Definition encode_args (args : list jsval) : option string :=
  foldr (λ a acc,
           match a, acc with
           | JNum z, Some s =>
               if (z <? 0)%Z then None
               else Some (pad64 (toString16 (Z.to_N z)) +:+ s)
           | _, _ => None
           end) (Some "") args.

Definition selector (name : string) (arity : nat) : string :=
  if String.eqb name "ping" then "5c36b186"
  else if String.eqb name "double" then
    (if Nat.eqb arity 1 then "eee97206" else "1b1a3a36")
  else "00000000".

#[export] Instance encoder : AbiEncoder := {|
  toPayload d functionArguments :=
    match d, functionArguments with
    | JObj o, JArr args =>
        match o !! "name", o !! "inputs" with
        | Some (JStr name), Some (JArr inputs) =>
            if Nat.eqb (length inputs) (length args) then
              match encode_args args with
              | Some words =>
                  Ok ("0x" +:+ selector name (length inputs) +:+ words)
              | None => Err (EncodingError "invalid argument")
              end
            else Err (EncodingError "Invalid number of arguments")
        | _, _ => Err TypeError
        end
    | _, _ => Err TypeError
    end
|}.

(** The scripted curve library: it refuses a key that is not 32 bytes
    long, as secp256k1 does, and otherwise returns a fixed signature. *)
#[export] Instance curve : Secp256k1 := {|
  ecsign preimage key :=
    if Nat.eqb (length key) 32
    then Ok ([27%N], repeat 17%N 32, repeat 34%N 32)
    else Err (SigningError "private key length is invalid")
|}.

Definition pongInHex : string :=
  "0x" +:+ pad64 "20" +:+ pad64 "4"
       +:+ "706f6e67" +:+ string_of_list_ascii (repeat "0"%char 56).

Definition txHash : string := "0x" +:+ pad64 "ab".

(** The addresses the scripted web3 formats: forty hex digits, after [0x]
    or without. *)
Definition isAddress (s : string) : bool :=
  let body := default s (stripHexPrefix s) in
  Nat.eqb (String.length body) 40 &&
  forallb (λ c, bool_decide (is_Some (hex_value c)))
    (list_ascii_of_string body).

(** The scripted node behind the scripted web3: a fresh account, 20 gwei,
    an estimate of 30000; a method given what is no address raises. *)
#[export] Instance node : Node := {|
  eth_getTransactionCount provider from :=
    if isAddress from then Answered (Ok 0%Z) else Raised InvalidAddress;
  eth_getGasPrice provider := Ok 20000000000%Z;
  eth_estimateGas provider to data :=
    if isAddress to then Answered (Ok 30000%Z) else Raised InvalidAddress;
  eth_sendRawTransaction provider raw := Ok txHash;
  eth_call provider to data :=
    if isAddress to then Answered (Ok pongInHex) else Raised InvalidAddress
|}.

Definition provider : string := "https://ropsten.infura.io/".
Definition account : string := "0x43aaE535BE7239c576FA3D152E14b1BC03fF4818".
Definition key : string :=
  "4c0883a69102937d6231471b5dbb6204fe5129617082792ae468d01a3f362318".

Definition params_base : gmap string jsval :=
  <["abi" := JArr parkour_abi]>
  (<["contractAddress" :=
       JStr "0x13ab619da719796aa7a97bf046a51528ac11bd0f"]>
   {["provider" := JStr provider]}).

(** The parameters of the two tests. *)
Definition params_ping : gmap string jsval :=
  <["functionName" := JStr "ping"]>
  (<["functionArguments" := JArr []]> params_base).

Definition params_double (n : Z) : gmap string jsval :=
  <["functionName" := JStr "double"]>
  (<["functionArguments" := JArr [JNum n]]>
   (<["from" := JStr account]>
    (<["privateKey" := JStr key]> params_base))).

(** The same for a direct call of [createSignedRawTransaction]. *)
Definition params_create (n : Z) : gmap string jsval :=
  <["web3" := JWeb3 provider]> (delete "provider" (params_double n)).

(** A private key of two bytes in the place of the account's. *)
Definition short_key (o : gmap string jsval) : gmap string jsval :=
  <["privateKey" := JStr "abcd"]> o.

(** The store of a caller that holds one object, before any request. *)
Definition store_of (o : gmap string jsval) : state := mkState [o] [].

(** The fields of an object that reads well. *)
Definition fields_of (o : gmap string jsval) : params :=
  default (mkParams "" "" "" (JArr []) "" (JArr []) (JStr "") (JNum 0) None)
    (read_params o).

End Scripted.

(** ** The first revision of the module

    The revision that exports [callContractFunction]: one schema, the
    assembly with positional arguments and no validation of its own, always
    an estimate of the gas, and a raw transaction whose numerals are put
    together by hand. *)

Module Legacy.

(** The decimal text that ['0x' + n] appends for a BigNumber [n] below
    10^21 in size. *)
Definition toString10 (z : Z) : string :=
  if (z <? 0)%Z then "-" +:+ Hex.render (Hex.digits 10 (Z.to_N (- z)))
  else Hex.render (Hex.digits 10 (Z.to_N z)).

Definition schema : list (string * rule) :=
  [ ("from", Joi_string_required);
    ("privateKey", Joi_string_required);
    ("contractAddress", Joi_string_required);
    ("abi", Joi_array_required);
    ("functionName", Joi_string_required);
    ("functionArguments", Joi_array_required);
    ("provider", Joi_string_required) ].

(** The [rawTx] literal of this revision: value ['0x0'], the nonce as
    ['0x' + res.toString(16)], the gas limit through [web3.toHex], the gas
    price as ['0x' + gasPrice]. *)
Definition rawTx_of (from contractAddress payloadData : string)
    (nonce gasPrice res : Z) : rawTx :=
  {| tx_to := contractAddress;
     tx_data := payloadData;
     tx_value := "0x0";
     tx_from := from;
     tx_nonce := "0x" +:+ Number.toString16 nonce;
     tx_gasLimit := Number.toHex res;
     tx_gasPrice := "0x" +:+ toString10 gasPrice |}.

(** The parameters of [callContractFunction]. *)
Record legacy_params := mkLegacyParams {
  legacy_from : string;
  legacy_privateKey : string;
  legacy_contractAddress : string;
  legacy_abi : jsval;
  legacy_functionName : string;
  legacy_functionArguments : jsval;
  legacy_provider : string
}.

Definition read_legacy_params (o : gmap string jsval)
  : option legacy_params :=
  f ← get_str o "from";
  k ← get_str o "privateKey";
  c ← get_str o "contractAddress";
  a ← o !! "abi";
  n ← get_str o "functionName";
  args ← o !! "functionArguments";
  p ← get_str o "provider";
  Some (mkLegacyParams f k c a n args p).

Section LegacyPipeline.
Context {JC : JoiConvert} {AE : AbiEncoder} {CD : Codec} {ND : Node}.

(** Signing and serializing, written out in the callback of the estimate. *)
Definition sign_serialized (raw : rawTx) (privateKey : string)
  : outcome string :=
  match EthereumTx raw with
  | Err e => Unsettled e
  | Ok t =>
      match tx_sign t (Buffer_from_hex privateKey) with
      | Err e => Unsettled e
      | Ok signed =>
          Resolved ("0x" +:+ Hex.hex_of_bytes (tx_serialize signed))
      end
  end.

(** [createSignedRawTransaction(from, privateKey, contractAddress, abi,
    functionName, functionArguments, web3)]. *)
Definition createSignedRawTransaction (from privateKey contractAddress : string)
    (abi : jsval) (functionName : string)
    (functionArguments : jsval) (web3 : jsval) : M (outcome string) :=
  match payload abi functionName functionArguments with
  | Err e => mret (Rejected e)
  | Ok payloadData =>
    match web3 with
    | JWeb3 provider =>
      match eth_getTransactionCount provider from with
      | Raised e => mret (Rejected e)
      | Answered r =>
        emit (GetTransactionCount provider from);;
        match r with
        | Err err => mret (Rejected err)
        | Ok nonce =>
          emit (GetGasPrice provider);;
          match eth_getGasPrice provider with
          | Err err => mret (Rejected err)
          | Ok gasPrice =>
            match eth_estimateGas provider contractAddress payloadData with
            | Raised e => mret (Unsettled e)
            | Answered r =>
              emit (EstimateGas provider contractAddress payloadData);;
              match r with
              | Err err => mret (Rejected err)
              | Ok res =>
                  mret (sign_serialized
                          (rawTx_of from contractAddress payloadData nonce
                             gasPrice res)
                          privateKey)
              end
            end
          end
        end
      end
    | _ => mret (Rejected TypeError)
    end
  end.

(** [callContractFunction(params)]. *)
Definition callContractFunction (l : loc) : M (outcome string) :=
  obj ← load l;
  match obj with
  | None => mret (Thrown TypeError)
  | Some o =>
    match Joi_validate o schema with
    | Some e => mret (Thrown e)
    | None =>
      match read_legacy_params o with
      | None => mret (Rejected TypeError)
      | Some p =>
        let web3 := JWeb3 (legacy_provider p) in
        r ← createSignedRawTransaction (legacy_from p) (legacy_privateKey p)
              (legacy_contractAddress p) (legacy_abi p)
              (legacy_functionName p) (legacy_functionArguments p) web3;
        match r with
        | Thrown e => mret (Rejected e)
        | Rejected e => mret (Rejected e)
        | Unsettled e => mret (Unsettled e)
        | Resolved rawTransaction => sendRawTransaction rawTransaction web3
        end
      end
    end
  end.

End LegacyPipeline.

End Legacy.

(** ** Notions the further statements use *)

(** The requests of one [sendTransaction], in their order: nonce, gas price,
    the estimate unless a gas limit was supplied, the broadcast.  A run that
    fails makes the first few of them. *)
Definition request_plan (reads : list rpc) : Prop :=
  ∃ pr from to d raw,
    reads `prefix_of` [GetTransactionCount pr from; GetGasPrice pr;
                       EstimateGas pr to d; SendRawTransaction pr raw] ∨
    reads `prefix_of` [GetTransactionCount pr from; GetGasPrice pr;
                       SendRawTransaction pr raw].


(** ** Notions the statements use *)

(** A required key of the schema is absent. *)
Definition missing_required (sc : list (string * rule))
    (o : gmap string jsval) : Prop :=
  ∃ k r, (k, r) ∈ sc ∧ required r = true ∧ o !! k = None.

(** The type a value has, against the type a key is documented with: a
    string, an array, an integer. *)
Definition of_type (t : jtype) (v : jsval) : bool :=
  match t, v with
  | TString, JStr _ => true
  | TArray, JArr _ => true
  | TInteger, JNum _ => true
  | TAny, _ => true
  | _, _ => false
  end.

(** A key of the schema is present with a value of another type. *)
Definition wrong_shape (sc : list (string * rule))
    (o : gmap string jsval) : Prop :=
  ∃ k r v, (k, r) ∈ sc ∧ o !! k = Some v ∧ of_type (ty r) v = false.

(** A key of the schema is present with a value that Joi does not take:
    neither of the type asked for, within its bounds, nor text that
    converts to it. *)
Definition refused `{JoiConvert} (sc : list (string * rule))
    (o : gmap string jsval) : Prop :=
  ∃ k r v, (k, r) ∈ sc ∧ o !! k = Some v ∧ conforms (ty r) v = false.

(** The operation fails with [e] when the caller receives [e]: as an
    exception of the call or as the rejection of its promise. *)
Definition fails_with {A} (r : outcome A) (e : error) : Prop :=
  r = Thrown e ∨ r = Rejected e.

Definition is_EstimateGas (r : rpc) : bool :=
  match r with EstimateGas _ _ _ => true | _ => false end.

(** The object with [value] defaulted, as the assignment [params.value = 0]
    leaves it. *)
Definition with_default_value (o : gmap string jsval) : gmap string jsval :=
  if hasOwnProperty o "value" then o else <["value" := JNum 0]> o.

(** The minimal big-endian encoding of a number: its bytes without a
    leading zero byte, none at all for zero. *)
Definition minimal_encoding (z : Z) (bs : list N) : Prop :=
  Hex.minimal_be bs ∧ Hex.be_value bs = Z.to_N z ∧ (z = 0%Z → bs = []).

(** The integers a safe number can be, from zero up. *)
Definition safe_natural (z : Z) : Prop := (0 ≤ z ≤ 2 ^ 53 - 1)%Z.

(** ** Hexadecimal numerals *)

Module HexFacts.
Import Hex.
Local Open Scope N_scope.

Lemma value_in_snoc b ds d :
  value_in b (ds ++ [d]) = b * value_in b ds + d.
Proof. unfold value_in. by rewrite fold_left_app. Qed.

Lemma hex_value_digit d : d < 16 → hex_value (hex_digit d) = Some d.
Proof.
  intros Hd.
  assert (d ∈ (N.of_nat <$> seq 0 16)) as Hin.
  { apply list_elem_of_fmap. exists (N.to_nat d). split; [lia|].
    apply elem_of_seq. lia. }
  simpl in Hin.
  repeat (apply elem_of_cons in Hin as [->|Hin]; [reflexivity|]).
  by apply elem_of_nil in Hin.
Qed.

Lemma parse_render ds :
  Forall (λ d, d < 16) ds → parse_digits (render ds) = Some ds.
Proof.
  induction 1 as [|d ds Hd _ IH]; [done|]. simpl.
  by rewrite (hex_value_digit d Hd), IH.
Qed.

(** The digits of a numeral: below the base, of the right value, and
    without leading zero. *)
Lemma digits_aux_spec b fuel :
  1 < b →
  ∀ n acc, n < b ^ N.of_nat fuel → (0 < fuel)%nat →
  ∃ ds, digits_aux b fuel n acc = ds ++ acc ∧
        Forall (λ d, d < b) ds ∧
        value_in b ds = n ∧
        (length ds ≤ fuel)%nat ∧
        (n = 0 → ds = [0]) ∧
        (0 < n → ∃ d r, ds = d :: r ∧ d ≠ 0).
Proof.
  intros Hb. induction fuel as [|f IH]; intros n acc Hn Hf; [lia|]. simpl.
  destruct (n <? b) eqn:Hlt.
  - apply N.ltb_lt in Hlt. exists [n]. split; [done|].
    split; [by repeat constructor|]. split; [unfold value_in; simpl; lia|].
    split; [simpl; lia|].
    split; [by intros ->|]. intros Hpos. exists n, []. split; [done|lia].
  - apply N.ltb_ge in Hlt.
    assert (0 < f)%nat as Hf'.
    { destruct f; [|lia]. simpl in Hn. lia. }
    assert (n / b < b ^ N.of_nat f) as Hq.
    { apply N.Div0.div_lt_upper_bound.
      replace (N.of_nat (S f)) with (N.succ (N.of_nat f)) in Hn by lia.
      by rewrite N.pow_succ_r' in Hn. }
    destruct (IH (n / b) (n mod b :: acc) Hq Hf')
      as (ds & -> & Hall & Hval & Hlen & _ & Hhd).
    exists (ds ++ [n mod b]). split; [by rewrite <- app_assoc|].
    split.
    { apply Forall_app. split; [done|]. repeat constructor.
      apply N.mod_lt. lia. }
    split.
    { rewrite value_in_snoc, Hval. symmetry. apply N.div_mod. lia. }
    split; [rewrite length_app; simpl; lia|].
    split; [lia|]. intros _.
    destruct Hhd as (d & r & -> & Hd).
    { apply N.div_str_pos. lia. }
    by exists d, (r ++ [n mod b]).
Qed.

Lemma digits_spec b n :
  1 < b →
  Forall (λ d, d < b) (digits b n) ∧
  value_in b (digits b n) = n ∧
  (n = 0 → digits b n = [0]) ∧
  (0 < n → ∃ d r, digits b n = d :: r ∧ d ≠ 0).
Proof.
  intros Hb. unfold digits.
  destruct (digits_aux_spec b (S (N.to_nat (N.log2 n))) Hb n [])
    as (ds & -> & H1 & H2 & _ & H3); [|lia|by rewrite app_nil_r].
  replace (N.of_nat (S (N.to_nat (N.log2 n)))) with (N.succ (N.log2 n))
    by lia.
  destruct (decide (n = 0)) as [->|Hne].
  { assert (b ^ N.succ (N.log2 0) ≠ 0) by (apply N.pow_nonzero; lia).
    lia. }
  eapply N.lt_le_trans; [apply N.log2_spec; lia|].
  apply N.pow_le_mono_l. lia.
Qed.

Lemma digits16_spec n :
  Forall (λ d, d < 16) (digits16 n) ∧
  value_in 16 (digits16 n) = n ∧
  (n = 0 → digits16 n = [0]) ∧
  (0 < n → ∃ d r, digits16 n = d :: r ∧ d ≠ 0).
Proof. apply digits_spec. lia. Qed.

Lemma pair_up_value : ∀ k ds a,
  length ds = (2 * k)%nat →
  fold_left (λ a d, 256 * a + d) (pair_up ds) a
  = fold_left (λ a d, 16 * a + d) ds a.
Proof.
  induction k as [|k IH]; intros ds a Hlen.
  - by destruct ds.
  - destruct ds as [|hi [|lo r]]; simpl in Hlen; try lia. simpl.
    rewrite IH by lia. f_equal. lia.
Qed.

Lemma padToEven_even ds : ∃ k, length (padToEven ds) = (2 * k)%nat.
Proof.
  unfold padToEven. destruct (Nat.even (length ds)) eqn:E.
  - apply Nat.even_spec in E as [k ->]. by exists k.
  - assert (Nat.odd (length ds) = true) as Ho.
    { by rewrite <- Nat.negb_even, E. }
    apply Nat.odd_spec in Ho as [k Hk]. exists (S k). simpl. lia.
Qed.

Lemma padToEven_value ds : value_in 16 (padToEven ds) = value_in 16 ds.
Proof. unfold padToEven. by destruct (Nat.even (length ds)). Qed.

Lemma bytes_of_digits_value ds :
  be_value (pair_up (padToEven ds)) = value_in 16 ds.
Proof.
  destruct (padToEven_even ds) as [k Hk].
  unfold be_value, value_in at 1. rewrite (pair_up_value k) by done.
  apply padToEven_value.
Qed.

Lemma bytes_of_digits_minimal d r :
  d ≠ 0 → minimal_be (pair_up (padToEven (d :: r))).
Proof.
  intros Hd. unfold padToEven.
  destruct (Nat.even (length (d :: r))) eqn:E.
  - destruct r as [|lo r]; [done|]. simpl. lia.
  - simpl. lia.
Qed.

Lemma bytes_of_hex_render ds :
  Forall (λ d, d < 16) ds →
  bytes_of_hex ("0x" +:+ render ds) = Some (pair_up (padToEven ds)).
Proof.
  intros Hall. unfold bytes_of_hex.
  change (stripHexPrefix ("0x" +:+ render ds)) with (Some (render ds)).
  cbv beta iota. by rewrite parse_render.
Qed.

(** The byte string a numeral of [toHex] denotes. *)
Lemma bytes_of_toHex z :
  (0 ≤ z)%Z →
  ∃ bs, bytes_of_hex (toHex z) = Some bs ∧
        be_value bs = Z.to_N z ∧
        (z ≠ 0%Z → minimal_be bs ∧ bs ≠ []) ∧
        (z = 0%Z → bs = [0]).
Proof.
  intros Hz. unfold toHex.
  assert ((z <? 0)%Z = false) as -> by lia.
  unfold toString16.
  destruct (digits16_spec (Z.to_N z)) as (Hall & Hval & Hzero & Hpos).
  rewrite (bytes_of_hex_render _ Hall). eexists. split; [done|].
  split; [by rewrite bytes_of_digits_value|]. split.
  - intros Hne. destruct Hpos as (d & r & E & Hd); [lia|]. rewrite E.
    split; [by apply bytes_of_digits_minimal|].
    unfold padToEven. destruct (Nat.even _) eqn:Hev; [|done].
    destruct r; [discriminate Hev|done].
  - intros ->. rewrite Hzero by done. done.
Qed.

Lemma stripZeros_minimal bs : minimal_be (stripZeros bs).
Proof.
  induction bs as [|b bs IH]; [done|]. simpl.
  destruct b; [done|]. simpl. lia.
Qed.

Lemma stripZeros_value bs : be_value (stripZeros bs) = be_value bs.
Proof.
  induction bs as [|b bs IH]; [done|]. simpl.
  destruct b; [|done]. rewrite IH. done.
Qed.

End HexFacts.

(** ** The codec: encoding and decoding *)

Module RLPFacts.
Import Hex HexFacts RLP.
Local Open Scope N_scope.

Lemma value_in_lower_bound b ds :
  1 < b →
  (∃ d r, ds = d :: r ∧ d ≠ 0) →
  b ^ (N.of_nat (length ds) - 1) ≤ value_in b ds.
Proof.
  intros Hb. induction ds as [|x ds IH] using rev_ind.
  { intros (d & r & E & _). done. }
  intros (d & r & E & Hd). rewrite value_in_snoc, length_app. simpl.
  destruct ds as [|y ds'].
  - simpl in E. injection E as <- <-.
    change (value_in b []) with 0.
    change (N.of_nat (0 + 1) - 1) with 0. rewrite N.pow_0_r. lia.
  - simpl in E. injection E as -> _.
    assert (b ^ (N.of_nat (length (d :: ds')) - 1) ≤ value_in b (d :: ds'))
      as Hle by (apply IH; eauto).
    replace (N.of_nat (length (d :: ds') + 1) - 1)
      with (N.succ (N.of_nat (length (d :: ds')) - 1)) by (simpl; lia).
    rewrite N.pow_succ_r'. nia.
Qed.

Lemma to_be_value n : be_value (to_be n) = n.
Proof.
  unfold to_be. destruct (n =? 0) eqn:E.
  - apply N.eqb_eq in E. by subst.
  - apply (digits_spec 256 n). lia.
Qed.

Lemma to_be_length n :
  0 < n → n < 2 ^ 64 → (1 ≤ length (to_be n) ≤ 8)%nat.
Proof.
  intros Hpos Hn. unfold to_be.
  assert ((n =? 0) = false) as -> by (apply N.eqb_neq; lia).
  destruct (digits_spec 256 n) as (_ & Hval & _ & Hhd); [lia|].
  specialize (Hhd Hpos).
  pose proof (value_in_lower_bound 256 (digits 256 n) ltac:(lia) Hhd) as Hlb.
  rewrite Hval in Hlb. destruct Hhd as (d & r & E & _). rewrite E in *.
  simpl in *. split; [lia|].
  destruct (decide (length r ≤ 7)%nat) as [|Hbig]; [lia|].
  assert (256 ^ 8 ≤ 256 ^ (N.of_nat (S (length r)) - 1)) as Hpow.
  { apply N.pow_le_mono_r; lia. }
  change (256 ^ 8) with (2 ^ 64) in Hpow. lia.
Qed.

(** A length header is read back, whatever follows it. *)
Lemma decode_length_encode len offset rest :
  len < 2 ^ 64 →
  ∃ p lb, encode_length len offset = p :: lb ∧
          offset ≤ p < offset + 64 ∧
          (length lb ≤ 8)%nat ∧
          decode_length offset p (lb ++ rest) = Some (len, rest).
Proof.
  intros Hlen. unfold encode_length, decode_length.
  destruct (len <? 56) eqn:Hshort.
  - apply N.ltb_lt in Hshort. exists (offset + len), [].
    split; [done|]. split; [lia|]. split; [simpl; lia|].
    assert ((offset + len <? offset + 56) = true) as ->
      by (apply N.ltb_lt; lia).
    simpl. f_equal. f_equal. lia.
  - apply N.ltb_ge in Hshort.
    destruct (to_be_length len) as [Hl1 Hl8]; [lia|done|].
    eexists _, _. split; [done|]. split; [lia|]. split; [done|].
    assert ((offset + 55 + N.of_nat (length (to_be len)) <? offset + 56)
            = false) as -> by (apply N.ltb_ge; lia).
    replace (N.to_nat (offset + 55 + N.of_nat (length (to_be len))
                       - offset - 55))
      with (length (to_be len)) by lia.
    assert ((length (to_be len ++ rest) <? length (to_be len))%nat = false)
      as ->.
    { apply Nat.ltb_ge. rewrite length_app. lia. }
    rewrite take_app_length, drop_app_length. by rewrite to_be_value.
Qed.

Lemma encode_bytes_length bs :
  N.of_nat (length bs) < 2 ^ 64 →
  (1 ≤ length (encode_bytes bs) ≤ length bs + 9)%nat ∧
  (length bs ≤ length (encode_bytes bs))%nat.
Proof.
  intros Hlen.
  assert (1 ≤ length (encode_length (N.of_nat (length bs)) 128 ++ bs)
          ≤ length bs + 9 ∧
          length bs
          ≤ length (encode_length (N.of_nat (length bs)) 128 ++ bs))%nat
    as Hgen.
  { destruct (decode_length_encode _ 128 [] Hlen)
      as (p & lb & -> & _ & Hlb & _).
    rewrite length_app. simpl. lia. }
  unfold encode_bytes. destruct bs as [|b [|b' bs]]; try done.
  destruct (b <? 128); [simpl; lia|done].
Qed.

Lemma decode_item_encode bs rest :
  N.of_nat (length bs) < 2 ^ 64 →
  decode_item (encode_bytes bs ++ rest) = Some (bs, rest).
Proof.
  intros Hlen.
  assert (decode_item
            ((encode_length (N.of_nat (length bs)) 128 ++ bs) ++ rest)
          = Some (bs, rest)) as Hgen.
  { destruct (decode_length_encode _ 128 (bs ++ rest) Hlen)
      as (p & lb & -> & Hp & _ & Hdec).
    unfold decode_item. simpl. rewrite <- app_assoc, Hdec.
    assert ((p <? 128) = false) as -> by (apply N.ltb_ge; lia).
    assert ((p <? 192) = true) as -> by (apply N.ltb_lt; lia).
    rewrite Nat2N.id.
    assert ((length (bs ++ rest) <? length bs)%nat = false) as ->.
    { apply Nat.ltb_ge. rewrite length_app. lia. }
    by rewrite take_app_length, drop_app_length. }
  unfold encode_bytes. destruct bs as [|b [|b' bs]]; try done.
  destruct (b <? 128) eqn:Hb; [|done].
  unfold decode_item. simpl. by rewrite Hb.
Qed.

Lemma decode_items_encode items :
  Forall (λ bs, N.of_nat (length bs) < 2 ^ 64) items →
  ∀ fuel, (length (concat (map encode_bytes items)) ≤ fuel)%nat →
  decode_items fuel (concat (map encode_bytes items)) = Some items.
Proof.
  induction 1 as [|bs items Hbs _ IH]; intros fuel Hfuel.
  - by destruct fuel.
  - simpl in *. rewrite length_app in Hfuel.
    destruct (encode_bytes_length bs Hbs) as [[Hpos _] _].
    destruct fuel as [|fuel]; [lia|].
    destruct (encode_bytes bs ++ concat (map encode_bytes items))
      as [|x rest] eqn:E.
    { apply (f_equal length) in E. rewrite length_app in E. simpl in E.
      lia. }
    rewrite <- E. simpl. rewrite decode_item_encode by done.
    rewrite IH by lia. destruct (encode_bytes bs ++ _); done.
Qed.

Lemma encode_list_body_length items n :
  Forall (λ bs, N.of_nat (length bs) < 2 ^ 64) items →
  (sum_list_with length items + 9 * length items ≤ n)%nat →
  (length (concat (map encode_bytes items)) ≤ n)%nat.
Proof.
  intros Hall. revert n.
  induction Hall as [|bs items Hbs _ IH]; intros n Hn; simpl in *; [lia|].
  rewrite length_app.
  destruct (encode_bytes_length bs Hbs) as [[_ Hle] _].
  specialize (IH (n - (length bs + 9))%nat). lia.
Qed.

(** Decoding undoes encoding, for a list whose encoded body stays below
    2^64 bytes. *)
Lemma decode_list_encode items :
  Forall (λ bs, N.of_nat (length bs) < 2 ^ 64) items →
  N.of_nat (sum_list_with length items + 9 * length items) < 2 ^ 64 →
  decode_list (encode_list items) = Some items.
Proof.
  intros Hall Hsum. unfold encode_list.
  set (body := concat (map encode_bytes items)).
  assert (N.of_nat (length body) < 2 ^ 64) as Hbody.
  { pose proof (encode_list_body_length items _ Hall (Nat.le_refl _)).
    fold body in H. lia. }
  destruct (decode_length_encode _ 192 body Hbody)
    as (p & lb & -> & Hp & _ & Hdec).
  unfold decode_list. simpl.
  assert ((p <? 192) = false) as -> by (apply N.ltb_ge; lia).
  rewrite Hdec, N.eqb_refl. by apply decode_items_encode.
Qed.

End RLPFacts.

(** ** JavaScript numbers *)

Module NumberFacts.
Import Number.
Local Open Scope Z_scope.

Lemma sgn_mul_abs z : Z.sgn z * Z.abs z = z.
Proof. destruct z; simpl; lia. Qed.

(** Up to 2^53 a number is the integer it was made from; from there on it
    does not come back below. *)
Lemma round53_exact n : 0 ≤ n < 2 ^ 53 → round53 n = n.
Proof.
  intros [H0 Hn]. unfold round53.
  assert (Z.log2 n - 52 ≤ 0) as He.
  { destruct (decide (n = 0)) as [->|Hne]; [done|].
    assert (Z.log2 n < 53); [|lia]. apply Z.log2_lt_pow2; lia. }
  by rewrite (proj2 (Z.leb_le _ _) He).
Qed.

Lemma round53_large n : 2 ^ 53 ≤ n → 2 ^ 53 ≤ round53 n.
Proof.
  intros Hn. unfold round53.
  assert (53 ≤ Z.log2 n) as Hlog by (apply Z.log2_le_pow2; lia).
  set (e := Z.log2 n - 52).
  assert (0 < e) as He by lia.
  rewrite (proj2 (Z.leb_gt _ _) He).
  assert (2 ^ 52 ≤ n / 2 ^ e) as Hq.
  { apply Z.div_le_lower_bound; [lia|].
    rewrite <- Z.pow_add_r by lia.
    replace (e + 52) with (Z.log2 n) by lia.
    apply Z.log2_spec. lia. }
  assert (2 ≤ 2 ^ e) as Hp.
  { change 2 with (2 ^ 1) at 1. apply Z.pow_le_mono_r; lia. }
  change (2 ^ 53) with (2 ^ 52 * 2).
  destruct (_ || _); nia.
Qed.

Lemma nearest_exact z : - 2 ^ 53 < z < 2 ^ 53 → nearest z = z.
Proof.
  intros Hz. unfold nearest. rewrite round53_exact by lia.
  apply sgn_mul_abs.
Qed.

Lemma nearest_nonneg c : 0 ≤ c → 0 ≤ nearest c.
Proof.
  intros Hc. unfold nearest. rewrite Z.abs_eq by done.
  destruct (decide (c < 2 ^ 53)) as [Hlt|Hge].
  - rewrite round53_exact by lia. nia.
  - pose proof (round53_large c ltac:(lia)). nia.
Qed.

(** What reads back as a number below 2^53 is that number. *)
Lemma reads_as_exact d c :
  0 ≤ d < 2 ^ 53 → 0 ≤ c → reads_as d c = true → c = d.
Proof.
  intros Hd Hc Hr%Z.eqb_eq.
  destruct (decide (c < 2 ^ 53)) as [Hlt|Hge].
  - rewrite nearest_exact in Hr by lia. done.
  - exfalso. unfold nearest in Hr. rewrite Z.abs_eq in Hr by done.
    pose proof (round53_large c ltac:(lia)) as Hbig.
    assert (Z.sgn c = 1) as Hs by (apply Z.sgn_pos; lia).
    rewrite Hs in Hr. lia.
Qed.

Lemma shortest_exact j d : 0 ≤ d < 2 ^ 53 → shortest j d = d.
Proof.
  intros Hd. induction j as [|j IH]; [done|]. cbn [shortest].
  set (p := 10 ^ Z.of_nat (S j)).
  assert (0 < p) as Hp by (apply Z.pow_pos_nonneg; lia).
  assert (0 ≤ d / p * p) as Hlo.
  { apply Z.mul_nonneg_nonneg; [|lia]. apply Z.div_pos; lia. }
  destruct (reads_as d (d / p * p)) eqn:Elo,
           (reads_as d (d / p * p + p)) eqn:Ehi.
  - apply reads_as_exact in Elo, Ehi; lia.
  - by apply reads_as_exact in Elo.
  - apply reads_as_exact in Ehi; [done|done|lia].
  - done.
Qed.

Lemma printed_exact d : - 2 ^ 53 < d < 2 ^ 53 → printed d = d.
Proof.
  intros Hd. unfold printed. rewrite shortest_exact by lia.
  apply sgn_mul_abs.
Qed.

(** [web3.toHex] on a number that is a safe integer writes that integer. *)
Lemma toHex_safe z :
  - (2 ^ 53 - 1) ≤ z ≤ 2 ^ 53 - 1 → toHex z = Hex.toHex z.
Proof.
  intros Hz. unfold toHex. rewrite nearest_exact by lia.
  assert (isFinite z = true) as ->.
  { unfold isFinite. apply Z.ltb_lt.
    assert (2 ^ 53 < 2 ^ 1024) by (apply Z.pow_lt_mono_r; lia). lia. }
  by rewrite printed_exact by lia.
Qed.

End NumberFacts.
(** * Properties *)

(** ** Schema validation *)

Ltac in_schema := unfold schema_sendTransaction, schema_call,
  schema_createSignedRawTransaction; simpl; repeat constructor.

Section Validation.
Context {JC : JoiConvert}.

Lemma Joi_validate_None o sc :
  Joi_validate o sc = None ↔
  (∀ kr, kr ∈ sc → key_ok o kr = true) ∧
  (∀ k, is_Some (o !! k) → k ∈ sc.*1).
Proof.
  unfold Joi_validate, keys_allowed.
  destruct (forallb (key_ok o) sc) eqn:Hk; simpl.
  - rewrite forallb_forall in Hk. case_bool_decide as Hd.
    + split; [intros _|done]. split.
      * intros kr Hin. by apply Hk, list_elem_of_In.
      * intros k Hs%elem_of_dom. apply Hd in Hs. set_solver.
    + split; [done|]. intros [_ Hu]. exfalso. apply Hd.
      intros k Hin%elem_of_dom. apply Hu in Hin. set_solver.
  - split; [done|]. intros [H _].
    assert (forallb (key_ok o) sc = true); [|congruence].
    apply forallb_forall. intros kr Hin. by apply H, list_elem_of_In.
Qed.

Lemma Joi_validate_error o sc e :
  Joi_validate o sc = Some e → e = ValidationError.
Proof. unfold Joi_validate. case_match; naive_solver. Qed.

Lemma Joi_validate_key_not_ok o sc kr :
  kr ∈ sc → key_ok o kr = false → Joi_validate o sc = Some ValidationError.
Proof.
  intros Hin Hbad. destruct (Joi_validate o sc) as [e|] eqn:Hv.
  - by rewrite (Joi_validate_error _ _ _ Hv).
  - apply Joi_validate_None in Hv as [Hk _]. rewrite (Hk kr Hin) in Hbad. done.
Qed.

Lemma Joi_validate_rejects o sc :
  missing_required sc o ∨ refused sc o →
  Joi_validate o sc = Some ValidationError.
Proof.
  intros [(k & r & Hin & Hreq & Hnone)|(k & r & v & Hin & Hsome & Hbad)];
    apply (Joi_validate_key_not_ok o sc (k, r) Hin); unfold key_ok; simpl.
  - by rewrite Hnone, Hreq.
  - by rewrite Hsome.
Qed.

(** What validation guarantees about each kind of key. *)

Lemma key_ok_string o k :
  key_ok o (k, Joi_string_required) = true → ∃ s, o !! k = Some (JStr s).
Proof.
  unfold key_ok; simpl. destruct (o !! k) as [[]|]; simpl; naive_solver.
Qed.

Lemma key_ok_array o k :
  key_ok o (k, Joi_array_required) = true →
  ∃ v, o !! k = Some v ∧ conforms TArray v = true.
Proof.
  unfold key_ok; simpl. destruct (o !! k); simpl; naive_solver.
Qed.

Lemma key_ok_any o k :
  key_ok o (k, Joi_any_required) = true → ∃ v, o !! k = Some v.
Proof.
  unfold key_ok; simpl. destruct (o !! k); simpl; naive_solver.
Qed.

Lemma key_ok_integer o k :
  key_ok o (k, Joi_number_integer) = true →
  o !! k = None ∨ ∃ v, o !! k = Some v ∧ conforms TInteger v = true.
Proof.
  unfold key_ok; simpl. destruct (o !! k); simpl; naive_solver.
Qed.

(** A number that passed as an integer is a safe one. *)
Lemma conforms_integer_number z :
  conforms TInteger (JNum z) = true → (- (2 ^ 53 - 1) ≤ z ≤ 2 ^ 53 - 1)%Z.
Proof.
  simpl. unfold Number.isSafeInteger. intros Hs%Z.leb_le. lia.
Qed.

(** A validated object of [createSignedRawTransaction] that has a [value]
    can be read field by field. *)
Lemma read_params_valid o :
  Joi_validate o schema_createSignedRawTransaction = None →
  is_Some (o !! "value") →
  ∃ p, read_params o = Some p ∧
       o !! "from" = Some (JStr (from p)) ∧
       o !! "privateKey" = Some (JStr (privateKey p)) ∧
       o !! "contractAddress" = Some (JStr (contractAddress p)) ∧
       o !! "abi" = Some (abi p) ∧
       o !! "functionName" = Some (JStr (functionName p)) ∧
       o !! "functionArguments" = Some (functionArguments p) ∧
       o !! "web3" = Some (web3 p) ∧
       o !! "value" = Some (value p) ∧
       gasLimit p = o !! "gasLimit".
Proof.
  intros [Hk _]%Joi_validate_None [v Hv].
  destruct (key_ok_string o "from") as [f Hf]; [apply Hk; in_schema|].
  destruct (key_ok_string o "privateKey") as [pk Hpk]; [apply Hk; in_schema|].
  destruct (key_ok_string o "contractAddress") as [c Hc];
    [apply Hk; in_schema|].
  destruct (key_ok_array o "abi") as (a & Ha & _); [apply Hk; in_schema|].
  destruct (key_ok_string o "functionName") as [n Hn]; [apply Hk; in_schema|].
  destruct (key_ok_array o "functionArguments") as (args & Hargs & _);
    [apply Hk; in_schema|].
  destruct (key_ok_any o "web3") as [w Hw]; [apply Hk; in_schema|].
  exists (mkParams f pk c a n args w v (o !! "gasLimit")).
  unfold read_params, get_str.
  rewrite Hf, Hpk, Hc, Ha, Hn, Hargs, Hw, Hv. simpl. done.
Qed.

Lemma read_call_params_valid o :
  Joi_validate o schema_call = None →
  ∃ p, read_call_params o = Some p ∧
       o !! "contractAddress" = Some (JStr (call_contractAddress p)) ∧
       o !! "abi" = Some (call_abi p) ∧
       o !! "functionName" = Some (JStr (call_functionName p)) ∧
       o !! "functionArguments" = Some (call_functionArguments p) ∧
       o !! "provider" = Some (JStr (call_provider p)).
Proof.
  intros [Hk _]%Joi_validate_None.
  destruct (key_ok_string o "contractAddress") as [c Hc];
    [apply Hk; in_schema|].
  destruct (key_ok_array o "abi") as (a & Ha & _); [apply Hk; in_schema|].
  destruct (key_ok_string o "functionName") as [n Hn]; [apply Hk; in_schema|].
  destruct (key_ok_array o "functionArguments") as (args & Hargs & _);
    [apply Hk; in_schema|].
  destruct (key_ok_string o "provider") as [pr Hpr]; [apply Hk; in_schema|].
  exists (mkCallParams c a n args pr).
  unfold read_call_params, get_str.
  rewrite Hc, Ha, Hn, Hargs, Hpr. simpl. done.
Qed.

Lemma with_default_value_has o : is_Some (with_default_value o !! "value").
Proof.
  unfold with_default_value, hasOwnProperty.
  destruct (o !! "value") eqn:E; [by rewrite E|].
  by rewrite lookup_insert_eq.
Qed.

Lemma with_default_value_other o k :
  k ≠ "value" → with_default_value o !! k = o !! k.
Proof.
  intros. unfold with_default_value. destruct (hasOwnProperty _ _); [done|].
  by rewrite lookup_insert_ne.
Qed.

(** Validation looks at [value] only to check its type: the default passes
    wherever the object without it does, with the same verdict. *)
Lemma Joi_validate_default o sc :
  ("value", Joi_number_integer) ∈ sc →
  (∀ r, ("value", r) ∈ sc → r = Joi_number_integer) →
  o !! "value" = None →
  Joi_validate (<["value" := JNum 0]> o) sc = Joi_validate o sc.
Proof.
  intros Hin Honly Hv.
  assert (∀ kr, kr ∈ sc → key_ok (<["value" := JNum 0]> o) kr = key_ok o kr)
    as Hsame.
  { intros [k r] Hkr. unfold key_ok; simpl.
    destruct (decide (k = "value")) as [->|Hne].
    - rewrite lookup_insert_eq, Hv, (Honly r Hkr). done.
    - by rewrite lookup_insert_ne. }
  destruct (Joi_validate o sc) as [e|] eqn:Ho.
  - rewrite (Joi_validate_error _ _ _ Ho).
    destruct (Joi_validate (<["value" := JNum 0]> o) sc) as [e'|] eqn:Ho'.
    { by rewrite (Joi_validate_error _ _ _ Ho'). }
    exfalso. apply Joi_validate_None in Ho' as [Hk Hu].
    assert (Joi_validate o sc = None); [|congruence].
    apply Joi_validate_None. split.
    + intros kr Hkr. rewrite <- Hsame; auto.
    + intros k [v Hs]. apply Hu. destruct (decide (k = "value")) as [->|Hne].
      * congruence.
      * rewrite lookup_insert_ne; eauto.
  - apply Joi_validate_None in Ho as [Hk Hu]. apply Joi_validate_None. split.
    + intros kr Hkr. rewrite Hsame; auto.
    + intros k [v Hs]. destruct (decide (k = "value")) as [->|Hne].
      * apply list_elem_of_fmap. by exists ("value", Joi_number_integer).
      * apply Hu. rewrite lookup_insert_ne in Hs; eauto.
Qed.

(** The schema of [createSignedRawTransaction] is that of [sendTransaction]
    with [web3] in the place of [provider]. *)
Lemma schema_forwarded kr :
  kr ∈ schema_createSignedRawTransaction →
  kr = ("web3", Joi_any_required) ∨
  (kr ∈ schema_sendTransaction ∧ kr.1 ≠ "provider" ∧ kr.1 ≠ "web3").
Proof.
  revert kr. apply Forall_forall.
  unfold schema_createSignedRawTransaction, schema_sendTransaction.
  repeat (apply Forall_cons_2;
          [(by left) || (right; split; [set_solver|done])|]).
  apply Forall_nil_2.
Qed.

Lemma schema_value_rule r :
  ("value", r) ∈ schema_createSignedRawTransaction → r = Joi_number_integer.
Proof.
  intros Hin.
  assert (Forall (λ kr, kr.1 = "value" → kr.2 = Joi_number_integer)
            schema_createSignedRawTransaction) as Hall.
  { unfold schema_createSignedRawTransaction.
    repeat (apply Forall_cons_2; [done|]). apply Forall_nil_2. }
  rewrite Forall_forall in Hall. by apply (Hall _ Hin).
Qed.

Lemma schema_keys_forwarded k :
  k ∈ schema_sendTransaction.*1 → k ≠ "provider" →
  k ∈ schema_createSignedRawTransaction.*1.
Proof.
  revert k.
  apply (Forall_forall
           (λ k, k ≠ "provider" → k ∈ schema_createSignedRawTransaction.*1)).
  unfold schema_sendTransaction, schema_createSignedRawTransaction. simpl.
  repeat (apply Forall_cons_2; [intros Hne; try done; repeat constructor|]).
  apply Forall_nil_2.
Qed.

(** What a successful reading says about the object. *)
Lemma get_str_Some o k s : get_str o k = Some s ↔ o !! k = Some (JStr s).
Proof.
  unfold get_str. destruct (o !! k) as [[]|]; split; congruence.
Qed.

Lemma read_params_inv o p :
  read_params o = Some p →
  o !! "from" = Some (JStr (from p)) ∧
  o !! "privateKey" = Some (JStr (privateKey p)) ∧
  o !! "contractAddress" = Some (JStr (contractAddress p)) ∧
  o !! "abi" = Some (abi p) ∧
  o !! "functionName" = Some (JStr (functionName p)) ∧
  o !! "functionArguments" = Some (functionArguments p) ∧
  o !! "web3" = Some (web3 p) ∧
  o !! "value" = Some (value p) ∧
  gasLimit p = o !! "gasLimit".
Proof.
  unfold read_params. intros Hr.
  destruct (get_str o "from") as [f|] eqn:Hf; [|done].
  destruct (get_str o "privateKey") as [pk|] eqn:Hpk; [|done].
  destruct (get_str o "contractAddress") as [c|] eqn:Hc; [|done].
  destruct (o !! "abi") as [a|] eqn:Ha; [|done].
  destruct (get_str o "functionName") as [n|] eqn:Hn; [|done].
  destruct (o !! "functionArguments") as [args|] eqn:Hargs; [|done].
  destruct (o !! "web3") as [w|] eqn:Hw; [|done].
  destruct (o !! "value") as [v|] eqn:Hv; [|done].
  simpl in Hr. injection Hr as <-. simpl.
  apply get_str_Some in Hf, Hpk, Hc, Hn. done.
Qed.

End Validation.

(** ** The pipeline *)

Section PipelineFacts.
Context {JC : JoiConvert} {AE : AbiEncoder} {WU : Web3Utils} {CD : Codec}
  {ND : Node}.

Ltac run :=
  unfold sendTransaction, call, createSignedRawTransaction,
    sendRawTransaction, load, store, alloc, emit;
  unfold mbind, M_bind, mret, M_ret; simpl.

Ltac run_promise :=
  unfold createSignedRawTransaction_promise, emit;
  unfold mbind, M_bind, mret, M_ret; simpl.

(** [_.find] finds nothing exactly when no element has the name. *)
Lemma find_descriptor_None abi fn :
  find_descriptor abi fn = None ↔ ∀ d, d ∈ abi → has_name fn d = false.
Proof.
  unfold find_descriptor. induction abi as [|d abi IH]; simpl.
  - split; [|done]. intros _ d Hd. by apply elem_of_nil in Hd.
  - destruct (has_name fn d) eqn:E.
    + split; [done|]. intros Hall. rewrite Hall in E; [done|]. left.
    + rewrite IH. split.
      * intros Hall d' [->|Hin]%elem_of_cons; auto.
      * intros Hall d' Hin. apply Hall. by right.
Qed.

Lemma payload_unknown abi fn args :
  (∀ d, d ∈ abi → has_name fn d = false) →
  payload (JArr abi) fn args = Err InterfaceLookupError.
Proof.
  intros Hnone%find_descriptor_None. unfold payload. simpl.
  by rewrite Hnone.
Qed.

(** The promise body leaves the store alone and only adds to the trace. *)
Lemma promise_heap p st :
  heap (createSignedRawTransaction_promise p st).2 = heap st.
Proof.
  run_promise. repeat (case_match; simpl; try done).
Qed.

Lemma promise_unknown p st ds :
  abi p = JArr ds →
  (∀ d, d ∈ ds → has_name (functionName p) d = false) →
  createSignedRawTransaction_promise p st = (Rejected InterfaceLookupError, st).
Proof.
  intros Ha Hnone. run_promise.
  by rewrite Ha, (payload_unknown _ _ _ Hnone).
Qed.

(** The run of [createSignedRawTransaction] on a validated object. *)
Lemma createSignedRawTransaction_valid st l o :
  heap st !! l = Some o →
  Joi_validate o schema_createSignedRawTransaction = None →
  ∃ p, read_params (with_default_value o) = Some p ∧
       createSignedRawTransaction l st =
       createSignedRawTransaction_promise p
         (if hasOwnProperty o "value" then st
          else mkState (<[l := <["value" := JNum 0]> o]> (heap st))
                 (trace st)).
Proof.
  intros Hl Hv.
  assert (Joi_validate (with_default_value o)
            schema_createSignedRawTransaction = None) as Hv'.
  { unfold with_default_value, hasOwnProperty.
    destruct (o !! "value") eqn:E; [done|].
    rewrite Joi_validate_default;
      [done|in_schema|apply schema_value_rule|done]. }
  destruct (read_params_valid _ Hv' (with_default_value_has o))
    as (p & Hp & _).
  exists p. split; [done|].
  run. rewrite Hl, Hv. unfold with_default_value in Hp.
  destruct (hasOwnProperty o "value"); simpl; by rewrite Hp.
Qed.

Lemma createSignedRawTransaction_invalid st l o e :
  heap st !! l = Some o →
  Joi_validate o schema_createSignedRawTransaction = Some e →
  createSignedRawTransaction l st = (Thrown e, st).
Proof. intros Hl Hv. run. by rewrite Hl, Hv. Qed.

(** The object [sendTransaction] forwards passes the second validation. *)
Lemma forwarded_valid o w :
  Joi_validate o schema_sendTransaction = None →
  Joi_validate (forwarded o w) schema_createSignedRawTransaction = None.
Proof.
  intros [Hk Hu]%Joi_validate_None. apply Joi_validate_None. split.
  - intros [k r] Hin. unfold key_ok, forwarded; simpl.
    destruct (schema_forwarded _ Hin) as [E|(Hs & Hp & Hw)]; simpl in *.
    + injection E as -> ->. by rewrite lookup_insert_eq.
    + rewrite lookup_insert_ne, lookup_delete_ne by done.
      apply (Hk _ Hs).
  - intros k [v Hs]. unfold forwarded in Hs.
    destruct (decide (k = "web3")) as [->|Hne]; [in_schema|].
    rewrite lookup_insert_ne in Hs by done.
    destruct (decide (k = "provider")) as [->|Hne'].
    { by rewrite lookup_delete_eq in Hs. }
    rewrite lookup_delete_ne in Hs by done.
    apply schema_keys_forwarded; eauto.
Qed.

(** *** Validation (C5) *)

(** C5, as the code has it.  Whenever the parameter object of
    [sendTransaction] or of [call] misses a required key of its schema, or
    holds under a key of the schema a value that Joi does not take (neither
    of the type asked for nor text that converts to it), the operation
    raises the validation error at once: the state it leaves is the state it
    found, so there was no request to the node and no later stage ran. *)
Theorem validation_failure_is_local st l o :
  heap st !! l = Some o →
  (missing_required schema_sendTransaction o ∨
   refused schema_sendTransaction o →
   sendTransaction l st = (Thrown ValidationError, st)) ∧
  (missing_required schema_call o ∨ refused schema_call o →
   call l st = (Thrown ValidationError, st)).
Proof.
  intros Hl. split; intros Hbad%Joi_validate_rejects; run;
    by rewrite Hl, Hbad.
Qed.

(** *** Interface lookup (C3, C8) *)

(** C3.  When no element of [abi] has the name [functionName], a validated
    [call] and a validated run of the assembly pipeline (on its own or
    inside [sendTransaction]) end with the promise rejected by the lookup
    error, and the trace of requests is what it was. *)
Theorem unknown_function_fails_before_network st l o ds fn :
  heap st !! l = Some o →
  o !! "abi" = Some (JArr ds) →
  o !! "functionName" = Some (JStr fn) →
  (∀ d, d ∈ ds → has_name fn d = false) →
  (Joi_validate o schema_call = None →
   call l st = (Rejected InterfaceLookupError, st)) ∧
  (Joi_validate o schema_createSignedRawTransaction = None →
   ∃ st', createSignedRawTransaction l st
          = (Rejected InterfaceLookupError, st') ∧
          trace st' = trace st) ∧
  (Joi_validate o schema_sendTransaction = None →
   ∃ st', sendTransaction l st = (Rejected InterfaceLookupError, st') ∧
          trace st' = trace st).
Proof.
  intros Hl Habi Hfn Hnone. split; [|split].
  - intros Hv. destruct (read_call_params_valid _ Hv)
      as (p & Hp & _ & Ha & Hn & _).
    run. rewrite Hl, Hv, Hp. simpl.
    assert (call_abi p = JArr ds) as -> by congruence.
    assert (call_functionName p = fn) as -> by congruence.
    by rewrite (payload_unknown _ _ _ Hnone).
  - intros Hv.
    destruct (createSignedRawTransaction_valid _ _ _ Hl Hv)
      as (p & Hp & ->).
    apply read_params_inv in Hp as (_ & _ & _ & Ha & Hn & _).
    rewrite with_default_value_other in Ha, Hn by done.
    rewrite (promise_unknown _ _ ds).
    + eexists. split; [done|]. by destruct (hasOwnProperty o "value").
    + congruence.
    + assert (functionName p = fn) as -> by congruence. done.
  - intros Hv.
    destruct (key_ok_string o "provider") as [pr Hpr].
    { apply Joi_validate_None in Hv as [Hk _]. apply Hk. in_schema. }
    pose proof (forwarded_valid o (JWeb3 pr) Hv) as Hv'.
    set (st1 := mkState (heap st ++ [forwarded o (JWeb3 pr)]) (trace st)).
    assert (heap st1 !! length (heap st)
            = Some (forwarded o (JWeb3 pr))) as Hl1.
    { simpl. by rewrite lookup_app_r, Nat.sub_diag by lia. }
    destruct (createSignedRawTransaction_valid _ _ _ Hl1 Hv')
      as (p & Hp & Hrun).
    apply read_params_inv in Hp as (_ & _ & _ & Ha & Hn & _).
    rewrite with_default_value_other in Ha, Hn by done.
    unfold forwarded in Ha, Hn.
    rewrite lookup_insert_ne, lookup_delete_ne in Ha, Hn by done.
    rewrite (promise_unknown _ _ ds) in Hrun; [|congruence|].
    2:{ assert (functionName p = fn) as -> by congruence. done. }
    unfold sendTransaction, load, alloc.
    unfold mbind, M_bind, mret, M_ret; simpl.
    rewrite Hl, Hv. unfold get_str. rewrite Hpr. simpl.
    fold st1. rewrite Hrun.
    eexists. split; [done|]. by destruct (hasOwnProperty _ "value").
Qed.

Lemma has_name_spec fn d :
  has_name fn d = true ↔ ∃ o, d = JObj o ∧ o !! "name" = Some (JStr fn).
Proof.
  unfold has_name. split.
  - destruct d as [| | |o|]; try done.
    destruct (o !! "name") as [[| s | | |]|] eqn:E; try done.
    intros ->%String.eqb_eq. eauto.
  - intros (o & -> & ->). apply String.eqb_refl.
Qed.

(** [_.find] returns the first element that has the name. *)
Lemma find_descriptor_first ds fn d :
  find_descriptor ds fn = Some d ↔
  ∃ pre post, ds = pre ++ d :: post ∧ has_name fn d = true ∧
              ∀ d', d' ∈ pre → has_name fn d' = false.
Proof.
  unfold find_descriptor. induction ds as [|x ds IH]; simpl.
  - split; [done|]. intros (pre & post & E & _). by destruct pre.
  - destruct (has_name fn x) eqn:Hx.
    + split.
      * intros [= ->]. exists [], ds. split; [done|]. split; [done|].
        intros d' Hd'. by apply elem_of_nil in Hd'.
      * intros ([|y pre] & post & E & Hd & Hpre); simplify_eq/=; [done|].
        rewrite Hpre in Hx; [done|left].
    + rewrite IH. split.
      * intros (pre & post & -> & Hd & Hpre). exists (x :: pre), post.
        split; [done|]. split; [done|].
        intros d' [->|Hin]%elem_of_cons; auto.
      * intros ([|y pre] & post & E & Hd & Hpre); simplify_eq/=.
        { congruence. }
        exists pre, post. split; [done|]. split; [done|].
        intros d' Hin. apply Hpre. by right.
Qed.

(** C8.  A descriptor is chosen by its [name] being the very string
    [functionName].  When two or more elements of [abi] have that name,
    the lookup does not fail: it yields the first of them in array order,
    and the payload is the encoding made from that descriptor. *)
Theorem lookup_takes_first_match ds fn :
  2 ≤ length (filter (λ d, has_name fn d = true) ds) →
  ∃ pre d post,
    ds = pre ++ d :: post ∧
    (∀ d', d' ∈ pre → has_name fn d' = false) ∧
    (∃ o, d = JObj o ∧ o !! "name" = Some (JStr fn)) ∧
    (∃ d2, d2 ∈ post ∧ has_name fn d2 = true) ∧
    find_descriptor ds fn = Some d ∧
    ∀ args, payload (JArr ds) fn args = toPayload d args.
Proof.
  intros Hlen.
  destruct (find_descriptor ds fn) as [d|] eqn:Hfind.
  - pose proof Hfind as (pre & post & -> & Hd & Hpre)%find_descriptor_first.
    exists pre, d, post. split; [done|]. split; [done|].
    split; [by apply has_name_spec|]. split.
    + rewrite filter_app, filter_cons_True in Hlen by done.
      assert (filter (λ d, has_name fn d = true) pre = []) as Hnil.
      { clear -Hpre. induction pre as [|x pre IH]; [done|].
        rewrite filter_cons_False.
        - apply IH. intros d' Hin. apply Hpre. by right.
        - rewrite Hpre; [done|left]. }
      rewrite Hnil in Hlen. simpl in Hlen.
      destruct (filter _ post) as [|d2 rest] eqn:Hpost; simpl in Hlen;
        [lia|].
      assert (d2 ∈ filter (λ d, has_name fn d = true) post) as Hin.
      { rewrite Hpost. left. }
      apply list_elem_of_filter in Hin as [? ?]. eauto.
    + split; [done|]. intros args. unfold payload. simpl.
      by rewrite Hfind.
  - exfalso. rewrite find_descriptor_None in Hfind.
    destruct (filter _ ds) as [|d rest] eqn:Hf; simpl in Hlen; [lia|].
    assert (d ∈ filter (λ d, has_name fn d = true) ds) as Hin.
    { rewrite Hf. left. }
    apply list_elem_of_filter in Hin as [Hd Hin].
    rewrite (Hfind d Hin) in Hd. done.
Qed.

(** *** What the promise resolves with *)

Lemma rawTx_of_inv p n d g gl raw :
  rawTx_of p n d g gl = Ok raw →
  web3_toHex (value p) = Ok (tx_value raw) ∧
  web3_toHex gl = Ok (tx_gasLimit raw) ∧
  tx_nonce raw = Number.toHex n ∧
  tx_gasPrice raw = Hex.toHex g ∧
  tx_to raw = contractAddress p ∧
  tx_data raw = d ∧
  tx_from raw = from p.
Proof.
  unfold rawTx_of.
  destruct (web3_toHex (value p)) as [v|]; [|done].
  destruct (web3_toHex gl) as [t|]; [|done].
  by intros [= <-].
Qed.

(** With numbers for [value] and [gasLimit] the literal is always made. *)
Lemma rawTx_of_numbers p n d g v gl :
  value p = JNum v →
  rawTx_of p n d g (JNum gl)
  = Ok {| tx_to := contractAddress p; tx_data := d;
          tx_value := Number.toHex v; tx_from := from p;
          tx_nonce := Number.toHex n; tx_gasLimit := Number.toHex gl;
          tx_gasPrice := Hex.toHex g |}.
Proof. intros Hv. unfold rawTx_of. by rewrite Hv. Qed.

(** [sign_and_serialize] on a literal that was made: the transaction
    object of the literal, signed with the key buffer, serialized. *)
Lemma resolve_serialized_raw p n d g gl raw :
  rawTx_of p n d g gl = Ok raw →
  resolve_serialized (sign_and_serialize p n d g gl)
  = match EthereumTx raw with
    | Err e => Unsettled e
    | Ok t =>
        match tx_sign t (Buffer_from_hex (privateKey p)) with
        | Err e => Unsettled e
        | Ok signed =>
            Resolved ("0x" +:+ Hex.hex_of_bytes (tx_serialize signed))
        end
    end.
Proof.
  intros Hraw. unfold sign_and_serialize. rewrite Hraw.
  destruct (EthereumTx raw); [|done]. simpl. by destruct (tx_sign _ _).
Qed.

Lemma sign_and_serialize_inv p n d g gl serializedTx :
  sign_and_serialize p n d g gl = Ok serializedTx →
  ∃ raw t signed,
    rawTx_of p n d g gl = Ok raw ∧
    EthereumTx raw = Ok t ∧
    tx_sign t (Buffer_from_hex (privateKey p)) = Ok signed ∧
    serializedTx = tx_serialize signed.
Proof.
  unfold sign_and_serialize.
  destruct (rawTx_of p n d g gl) as [raw|]; [|done].
  destruct (EthereumTx raw) as [t|] eqn:Ht; [|done]. simpl.
  destruct (tx_sign t _) as [signed|] eqn:Hs; [|done].
  intros [= <-]. by exists raw, t, signed.
Qed.

(** A promise body that resolved went through every stage. *)
Lemma promise_resolved_inv p st text :
  (createSignedRawTransaction_promise p st).1 = Resolved text →
  ∃ pr d n g gl serializedTx,
    web3 p = JWeb3 pr ∧
    payload (abi p) (functionName p) (functionArguments p) = Ok d ∧
    eth_getTransactionCount pr (from p) = Answered (Ok n) ∧
    eth_getGasPrice pr = Ok g ∧
    (gasLimit p = Some gl ∨
     (gasLimit p = None ∧
      ∃ res, eth_estimateGas pr (contractAddress p) d = Answered (Ok res) ∧
             gl = JNum res)) ∧
    sign_and_serialize p n d g gl = Ok serializedTx ∧
    text = "0x" +:+ Hex.hex_of_bytes serializedTx.
Proof.
  run_promise.
  destruct (payload _ _ _) as [d|?]; simpl; [|done].
  destruct (web3 p) as [| | | |pr]; simpl; try done.
  destruct (eth_getTransactionCount _ _) as [?|[n|?]] eqn:Hn; simpl;
    try done.
  destruct (eth_getGasPrice _) as [g|?] eqn:Hg; simpl; [|done].
  destruct (gasLimit p) as [gl|] eqn:Hgl; simpl.
  - destruct (sign_and_serialize p n d g gl) as [b|] eqn:Hs; simpl;
      [|done]. intros [= <-]. exists pr, d, n, g, gl, b. auto 10.
  - destruct (eth_estimateGas _ _ _) as [?|[res|?]] eqn:Hest; simpl;
      try done.
    destruct (sign_and_serialize p n d g (JNum res)) as [b|] eqn:Hs; simpl;
      [|done]. intros [= <-]. exists pr, d, n, g, (JNum res), b.
    repeat (split; [done|]). split; [|done]. right. split; [done|].
    by exists res.
Qed.

(** *** Resolving the gas limit (C2) *)

(** The requests of the promise body are a prefix of nonce, gas price,
    estimate, and the estimate is requested only without a gas limit. *)
Lemma promise_trace p st :
  ∃ reads, trace (createSignedRawTransaction_promise p st).2
           = trace st ++ reads ∧
           length reads ≤ 3 ∧
           (is_Some (gasLimit p) →
            length reads ≤ 2 ∧
            Forall (λ r, is_EstimateGas r = false) reads).
Proof.
  run_promise.
  destruct (payload _ _ _); simpl.
  2:{ exists []. rewrite app_nil_r. repeat split; simpl; auto; lia. }
  destruct (web3 p); simpl;
    try (exists []; rewrite app_nil_r; repeat split; simpl; auto; lia).
  destruct (eth_getTransactionCount _ _) as [?|[?|?]]; simpl.
  { exists []. rewrite app_nil_r. repeat split; simpl; auto; lia. }
  2:{ eexists [_]. repeat split; simpl; auto; lia. }
  destruct (eth_getGasPrice _); simpl.
  2:{ rewrite <- app_assoc. eexists [_; _]. repeat split; simpl; auto; lia. }
  destruct (gasLimit p) as [g|]; simpl.
  { rewrite <- app_assoc. eexists [_; _]. repeat split; simpl; auto; lia. }
  destruct (eth_estimateGas _ _ _) as [?|[?|?]]; simpl;
    rewrite <- ?app_assoc;
    [eexists [_; _]|eexists [_; _; _]|eexists [_; _; _]];
    (split; [done|]); (split; [simpl; lia|]); by intros [? ?].
Qed.

(** C2.  On a validated object.  With [gasLimit] supplied the pipeline
    makes at most two requests, none of them an estimate.  When the supplied
    value is an integer from zero up and the nonce and the gas price arrive,
    these are the two requests; the gas limit of the literal handed to the
    transaction object is the hex numeral of that very integer; and the
    outcome is what comes of that transaction object: the serialized bytes
    when it is made and signed.  With [gasLimit] absent, and a contract
    address that web3 takes, a third request estimates the gas for the
    contract address and the payload; an error of the node rejects the
    promise; an estimate becomes the gas limit of the literal in the same
    way, written as [web3.toHex] writes a number, which for a safe integer
    is its hex numeral. *)
Theorem gasLimit_resolution st l o :
  heap st !! l = Some o →
  Joi_validate o schema_createSignedRawTransaction = None →
  ∃ p, read_params (with_default_value o) = Some p ∧
    (is_Some (o !! "gasLimit") →
     ∃ reads,
       trace (createSignedRawTransaction l st).2 = trace st ++ reads ∧
       length reads ≤ 2 ∧
       Forall (λ r, is_EstimateGas r = false) reads) ∧
    (∀ g provider payloadData nonce gasPrice raw,
       o !! "gasLimit" = Some (JNum g) →
       (0 ≤ g)%Z →
       payload (abi p) (functionName p) (functionArguments p)
         = Ok payloadData →
       web3 p = JWeb3 provider →
       eth_getTransactionCount provider (from p) = Answered (Ok nonce) →
       eth_getGasPrice provider = Ok gasPrice →
       rawTx_of p nonce payloadData gasPrice (JNum g) = Ok raw →
       trace (createSignedRawTransaction l st).2
       = trace st ++ [GetTransactionCount provider (from p);
                      GetGasPrice provider] ∧
       tx_gasLimit raw = Hex.toHex g ∧
       (∃ bs, Hex.bytes_of_hex (tx_gasLimit raw) = Some bs ∧
              Hex.be_value bs = Z.to_N g) ∧
       (createSignedRawTransaction l st).1
       = match EthereumTx raw with
         | Err e => Unsettled e
         | Ok t =>
             match tx_sign t (Buffer_from_hex (privateKey p)) with
             | Err e => Unsettled e
             | Ok signed =>
                 Resolved ("0x" +:+ Hex.hex_of_bytes (tx_serialize signed))
             end
         end) ∧
    (o !! "gasLimit" = None →
     ∀ provider payloadData nonce gasPrice r,
       payload (abi p) (functionName p) (functionArguments p)
         = Ok payloadData →
       web3 p = JWeb3 provider →
       eth_getTransactionCount provider (from p) = Answered (Ok nonce) →
       eth_getGasPrice provider = Ok gasPrice →
       eth_estimateGas provider (contractAddress p) payloadData
         = Answered r →
       trace (createSignedRawTransaction l st).2
       = trace st ++ [GetTransactionCount provider (from p);
                      GetGasPrice provider;
                      EstimateGas provider (contractAddress p)
                        payloadData] ∧
       match r with
       | Err err => (createSignedRawTransaction l st).1 = Rejected err
       | Ok res =>
           ∀ raw,
             rawTx_of p nonce payloadData gasPrice (JNum res) = Ok raw →
             tx_gasLimit raw = Number.toHex res ∧
             (safe_natural res →
              tx_gasLimit raw = Hex.toHex res ∧
              ∃ bs, Hex.bytes_of_hex (tx_gasLimit raw) = Some bs ∧
                    Hex.be_value bs = Z.to_N res) ∧
             (createSignedRawTransaction l st).1
             = match EthereumTx raw with
               | Err e => Unsettled e
               | Ok t =>
                   match tx_sign t (Buffer_from_hex (privateKey p)) with
                   | Err e => Unsettled e
                   | Ok signed =>
                       Resolved ("0x" +:+ Hex.hex_of_bytes
                                            (tx_serialize signed))
                   end
               end
       end).
Proof.
  intros Hl Hv.
  destruct (createSignedRawTransaction_valid _ _ _ Hl Hv) as (p & Hp & ->).
  exists p. split; [done|].
  pose proof (read_params_inv _ _ Hp) as (_ & _ & _ & _ & _ & _ & _ & _ & Hg).
  rewrite with_default_value_other in Hg by done.
  set (st1 := if hasOwnProperty o "value" then st else _).
  assert (trace st1 = trace st) as Htr.
  { unfold st1. by destruct (hasOwnProperty o "value"). }
  split; [|split].
  - intros Hsome. rewrite <- Hg in Hsome.
    destruct (promise_trace p st1) as (reads & Hreads & _ & Hsup).
    destruct (Hsup Hsome) as [Hlen Hno].
    exists reads. by rewrite Hreads, Htr.
  - intros g provider payloadData nonce gasPrice raw Hgl Hpos Hpay Hw Hn Hgp
      Hraw.
    assert (gasLimit p = Some (JNum g)) as Hpg by congruence.
    assert (- (2 ^ 53 - 1) ≤ g ≤ 2 ^ 53 - 1)%Z as Hsafe.
    { apply conforms_integer_number.
      apply Joi_validate_None in Hv as [Hk _].
      specialize (Hk ("gasLimit", Joi_number_integer) ltac:(in_schema)).
      unfold key_ok in Hk. simpl in Hk. by rewrite Hgl in Hk. }
    pose proof (rawTx_of_inv _ _ _ _ _ _ Hraw) as (_ & Hgltext & _).
    simpl in Hgltext. injection Hgltext as Hgltext.
    rewrite NumberFacts.toHex_safe in Hgltext by done.
    split; [|split; [done|split]].
    + run_promise. rewrite Hpay, Hw. simpl. rewrite Hn. simpl.
      rewrite Hgp. simpl. rewrite Hpg. simpl.
      by rewrite Htr, <- app_assoc.
    + rewrite <- Hgltext.
      destruct (HexFacts.bytes_of_toHex g Hpos) as (bs & Hbs & Hval & _).
      by exists bs.
    + run_promise. rewrite Hpay, Hw. simpl. rewrite Hn. simpl.
      rewrite Hgp. simpl. rewrite Hpg. simpl.
      by apply resolve_serialized_raw.
  - intros Hgl provider payloadData nonce gasPrice r Hpay Hw Hn Hgp Hest.
    assert (gasLimit p = None) as Hpg by congruence.
    run_promise. rewrite Hpay, Hw. simpl. rewrite Hn. simpl.
    rewrite Hgp. simpl. rewrite Hpg. simpl. rewrite Hest.
    destruct r as [res|err]; simpl; rewrite Htr, <- ?app_assoc; simpl.
    + split; [done|]. intros raw Hraw.
      pose proof (rawTx_of_inv _ _ _ _ _ _ Hraw) as (_ & Hgltext & _).
      simpl in Hgltext. injection Hgltext as Hgltext.
      split; [done|]. split.
      * intros [Hpos Hle].
        rewrite NumberFacts.toHex_safe in Hgltext by lia.
        split; [done|]. rewrite <- Hgltext.
        destruct (HexFacts.bytes_of_toHex res Hpos) as (bs & Hbs & Hval & _).
        by exists bs.
      * by apply resolve_serialized_raw.
    + done.
Qed.

(** *** The default of [value] (C7) *)

(** C7.  A run of the assembly pipeline on an object without [value] ends
    as the run on the same object with [value] set to 0 does: same outcome,
    same requests, and, once validation has passed, the same store.  The
    value of the literal it hands to the transaction object is ['0x0'], the
    numeral of zero; and whatever the run resolves with is the serialized
    form of the transaction object made of such a literal and signed. *)
Theorem value_defaults_to_zero st l o :
  heap st !! l = Some o →
  o !! "value" = None →
  let o0 := <["value" := JNum 0]> o in
  let st0 := mkState (<[l := o0]> (heap st)) (trace st) in
  (createSignedRawTransaction l st).1
    = (createSignedRawTransaction l st0).1 ∧
  trace (createSignedRawTransaction l st).2
    = trace (createSignedRawTransaction l st0).2 ∧
  (Joi_validate o schema_createSignedRawTransaction = None →
   createSignedRawTransaction l st = createSignedRawTransaction l st0 ∧
   ∃ p, read_params o0 = Some p ∧ value p = JNum 0 ∧
        (∀ nonce payloadData gasPrice gasLimit raw,
           rawTx_of p nonce payloadData gasPrice gasLimit = Ok raw →
           tx_value raw = "0x0" ∧
           ∃ bs, Hex.bytes_of_hex (tx_value raw) = Some bs ∧
                 Hex.be_value bs = 0%N) ∧
        ∀ text,
          (createSignedRawTransaction l st).1 = Resolved text →
          ∃ nonce payloadData gasPrice gasLimit raw t signed,
            rawTx_of p nonce payloadData gasPrice gasLimit = Ok raw ∧
            tx_value raw = "0x0" ∧
            EthereumTx raw = Ok t ∧
            tx_sign t (Buffer_from_hex (privateKey p)) = Ok signed ∧
            text = "0x" +:+ Hex.hex_of_bytes (tx_serialize signed)).
Proof.
  intros Hl Hnone o0 st0.
  assert (heap st0 !! l = Some o0) as Hl0.
  { simpl. apply list_lookup_insert_eq. by eapply lookup_lt_Some. }
  assert (Joi_validate o0 schema_createSignedRawTransaction
          = Joi_validate o schema_createSignedRawTransaction) as Hsame.
  { apply Joi_validate_default;
      [in_schema|apply schema_value_rule|done]. }
  assert (hasOwnProperty o "value" = false) as Hno.
  { unfold hasOwnProperty. by rewrite Hnone. }
  assert (hasOwnProperty o0 "value" = true) as Hyes.
  { unfold hasOwnProperty, o0. by rewrite lookup_insert_eq. }
  destruct (Joi_validate o schema_createSignedRawTransaction) as [e|]
    eqn:Hv.
  - rewrite (createSignedRawTransaction_invalid _ _ _ _ Hl Hv).
    rewrite (createSignedRawTransaction_invalid _ _ _ _ Hl0 Hsame).
    done.
  - destruct (createSignedRawTransaction_valid _ _ _ Hl Hv)
      as (p & Hp & Hrun).
    destruct (createSignedRawTransaction_valid _ _ _ Hl0 Hsame)
      as (p0 & Hp0 & Hrun0).
    unfold with_default_value in Hp, Hp0. rewrite Hno in Hp, Hrun.
    rewrite Hyes in Hp0, Hrun0. fold o0 in Hp, Hrun.
    assert (p0 = p) as -> by congruence.
    assert (createSignedRawTransaction l st
            = createSignedRawTransaction l st0) as Heq.
    { rewrite Hrun, Hrun0. done. }
    rewrite Heq. split; [done|]. split; [done|]. intros _.
    split; [done|]. exists p. split; [done|].
    pose proof (read_params_inv _ _ Hp)
      as (_ & _ & _ & _ & _ & _ & _ & Hval & _).
    unfold o0 in Hval. rewrite lookup_insert_eq in Hval.
    assert (value p = JNum 0) as Hz by congruence.
    assert (∀ nonce payloadData gasPrice gasLimit raw,
              rawTx_of p nonce payloadData gasPrice gasLimit = Ok raw →
              tx_value raw = "0x0") as Hzero.
    { intros nonce payloadData gasPrice gasLimit raw Hraw.
      apply rawTx_of_inv in Hraw as (Hvt & _). rewrite Hz in Hvt.
      simpl in Hvt. by injection Hvt as <-. }
    split; [done|]. split.
    { intros nonce payloadData gasPrice gasLimit raw Hraw.
      rewrite (Hzero _ _ _ _ _ Hraw). split; [done|]. by exists [0%N]. }
    intros text Hres. rewrite <- Heq, Hrun in Hres.
    apply promise_resolved_inv in Hres
      as (pr & d & n & g & gl & b & _ & _ & _ & _ & _ & Hs & ->).
    apply sign_and_serialize_inv in Hs as (raw & t & signed & Hraw & Ht & Hsig
                                           & ->).
    exists n, d, g, gl, raw, t, signed.
    split; [done|]. split; [by eapply Hzero|]. done.
Qed.

(** *** What happens to the caller's object (C9) *)

Lemma sendRawTransaction_heap raw w st :
  heap (sendRawTransaction raw w st).2 = heap st.
Proof. run. repeat (case_match; simpl; try done). Qed.

Lemma createSignedRawTransaction_heap st l :
  heap (createSignedRawTransaction l st).2
  = match heap st !! l with
    | Some o =>
        match Joi_validate o schema_createSignedRawTransaction with
        | None => <[l := with_default_value o]> (heap st)
        | Some _ => heap st
        end
    | None => heap st
    end.
Proof.
  destruct (heap st !! l) as [o|] eqn:Hl.
  - destruct (Joi_validate o schema_createSignedRawTransaction) as [e|]
      eqn:Hv.
    + by rewrite (createSignedRawTransaction_invalid _ _ _ _ Hl Hv).
    + destruct (createSignedRawTransaction_valid _ _ _ Hl Hv)
        as (p & _ & ->).
      rewrite promise_heap. unfold with_default_value.
      destruct (hasOwnProperty o "value"); simpl; [|done].
      symmetry. by apply list_insert_id.
  - run. by rewrite Hl.
Qed.

(** C9, as the code has it.  [sendTransaction] leaves every object of the
    caller's store as it was: it works on a copy.
    [createSignedRawTransaction] leaves every other object as it was; the
    object it is given is unchanged when it has a [value] or fails
    validation, and receives the property [value] set to 0 otherwise. *)
Theorem params_object_frame st l :
  (∀ l', l' < length (heap st) →
     heap (sendTransaction l st).2 !! l' = heap st !! l') ∧
  (∀ l', l' ≠ l →
     heap (createSignedRawTransaction l st).2 !! l' = heap st !! l') ∧
  (∀ o, heap st !! l = Some o →
     heap (createSignedRawTransaction l st).2 !! l
     = Some (match Joi_validate o schema_createSignedRawTransaction with
             | None => if hasOwnProperty o "value" then o
                       else <["value" := JNum 0]> o
             | Some _ => o
             end)).
Proof.
  split; [|split].
  - intros l' Hlt.
    unfold sendTransaction, load, alloc.
    unfold mbind, M_bind, mret, M_ret; simpl.
    destruct (heap st !! l) as [o|]; [|done].
    destruct (Joi_validate o schema_sendTransaction); [done|].
    destruct (get_str o "provider") as [pr|]; [|done]. simpl.
    set (st1 := mkState _ _).
    destruct (createSignedRawTransaction (length (heap st)) st1)
      as [r st2] eqn:Hrun.
    assert (heap st2 !! l' = heap st !! l') as Hframe.
    { change st2 with (r, st2).2. rewrite <- Hrun.
      rewrite createSignedRawTransaction_heap.
      assert (heap st1 !! l' = heap st !! l') as Hst1.
      { unfold st1; simpl. by rewrite lookup_app_l. }
      repeat case_match; try done;
        rewrite list_lookup_insert_ne by lia; done. }
    destruct r as [e|raw|e|e]; cbv beta iota; try done.
    etrans; [|exact Hframe]. f_equal.
    apply (sendRawTransaction_heap raw (JWeb3 pr) st2).
  - intros l' Hne. rewrite createSignedRawTransaction_heap.
    repeat case_match; try done. by rewrite list_lookup_insert_ne.
  - intros o Hl. rewrite createSignedRawTransaction_heap, Hl.
    destruct (Joi_validate o schema_createSignedRawTransaction); [done|].
    rewrite list_lookup_insert_eq by (by eapply lookup_lt_Some). done.
Qed.

(** *** Failures (C6, C10) *)

(** The run of [sendTransaction] on a validated object: the promise body
    of the assembly on the forwarded copy, then the broadcast. *)
Lemma sendTransaction_valid st l o :
  heap st !! l = Some o →
  Joi_validate o schema_sendTransaction = None →
  ∃ pr p,
    o !! "provider" = Some (JStr pr) ∧
    read_params (with_default_value (forwarded o (JWeb3 pr))) = Some p ∧
    web3 p = JWeb3 pr ∧
    sendTransaction l st =
    let '(r, st2) :=
      createSignedRawTransaction_promise p
        (mkState
           (heap st ++ [with_default_value (forwarded o (JWeb3 pr))])
           (trace st)) in
    match r with
    | Thrown e | Rejected e => (Rejected e, st2)
    | Unsettled e => (Unsettled e, st2)
    | Resolved raw => sendRawTransaction raw (JWeb3 pr) st2
    end.
Proof.
  intros Hl Hv.
  destruct (key_ok_string o "provider") as [pr Hpr].
  { apply Joi_validate_None in Hv as [Hk _]. apply Hk. in_schema. }
  pose proof (forwarded_valid o (JWeb3 pr) Hv) as Hv'.
  set (fo := forwarded o (JWeb3 pr)) in *.
  set (st1 := mkState (heap st ++ [fo]) (trace st)).
  assert (heap st1 !! length (heap st) = Some fo) as Hl1.
  { simpl. by rewrite lookup_app_r, Nat.sub_diag by lia. }
  destruct (createSignedRawTransaction_valid _ _ _ Hl1 Hv')
    as (p & Hp & Hrun).
  exists pr, p. split; [done|]. split; [done|]. split.
  { apply read_params_inv in Hp as (_ & _ & _ & _ & _ & _ & Hw & _).
    rewrite with_default_value_other in Hw by done.
    unfold fo, forwarded in Hw. rewrite lookup_insert_eq in Hw.
    congruence. }
  unfold sendTransaction, load, alloc.
  unfold mbind, M_bind, mret, M_ret; simpl.
  rewrite Hl, Hv. unfold get_str. rewrite Hpr. simpl.
  fold fo. fold st1. rewrite Hrun.
  assert ((if hasOwnProperty fo "value" then st1
           else mkState (<[length (heap st) := <["value" := JNum 0]> fo]>
                           (heap st1)) (trace st1))
          = mkState (heap st ++ [with_default_value fo]) (trace st)) as ->.
  { unfold with_default_value. destruct (hasOwnProperty fo "value");
      [done|]. simpl.
    rewrite insert_app_r_alt, Nat.sub_diag by lia. done. }
  clear Hrun.
  destruct (createSignedRawTransaction_promise p _) as [[e|raw|e|e] st2];
    done.
Qed.

(** The exception of the signing step ends the promise body unsettled. *)
Lemma promise_signing_failure p st provider payloadData nonce gasPrice gl e :
  payload (abi p) (functionName p) (functionArguments p) = Ok payloadData →
  web3 p = JWeb3 provider →
  eth_getTransactionCount provider (from p) = Answered (Ok nonce) →
  eth_getGasPrice provider = Ok gasPrice →
  gasLimit p = Some gl ∨
  (gasLimit p = None ∧
   ∃ res, eth_estimateGas provider (contractAddress p) payloadData
          = Answered (Ok res) ∧
          gl = JNum res) →
  sign_and_serialize p nonce payloadData gasPrice gl = Err e →
  (createSignedRawTransaction_promise p st).1 = Unsettled e.
Proof.
  intros Hpay Hw Hn Hgp Hgl Hsign. run_promise.
  rewrite Hpay, Hw. simpl. rewrite Hn. simpl. rewrite Hgp. simpl.
  destruct Hgl as [->|[-> (res & Hest & ->)]]; simpl.
  - by rewrite Hsign.
  - rewrite Hest. simpl. by rewrite Hsign.
Qed.

(** C10, on the code.  When the nonce, the gas price and the gas limit
    (supplied, or else the estimate the node answered) are there and the
    signing step raises [e], no serialized transaction is produced, but
    [createSignedRawTransaction] does not fail with [e] either: the
    exception was raised in a node callback and the promise stays
    unsettled, so the caller receives no error at all. *)
Theorem signing_failure_in_assembly st l o p provider payloadData nonce
    gasPrice gl e :
  heap st !! l = Some o →
  Joi_validate o schema_createSignedRawTransaction = None →
  read_params (with_default_value o) = Some p →
  payload (abi p) (functionName p) (functionArguments p) = Ok payloadData →
  web3 p = JWeb3 provider →
  eth_getTransactionCount provider (from p) = Answered (Ok nonce) →
  eth_getGasPrice provider = Ok gasPrice →
  gasLimit p = Some gl ∨
  (gasLimit p = None ∧
   ∃ res, eth_estimateGas provider (contractAddress p) payloadData
          = Answered (Ok res) ∧
          gl = JNum res) →
  sign_and_serialize p nonce payloadData gasPrice gl = Err e →
  (createSignedRawTransaction l st).1 = Unsettled e ∧
  ∀ e', ¬ fails_with (createSignedRawTransaction l st).1 e'.
Proof.
  intros Hl Hv Hp Hpay Hw Hn Hgp Hgl Hsign.
  destruct (createSignedRawTransaction_valid _ _ _ Hl Hv)
    as (p' & Hp' & ->).
  assert (p' = p) as -> by congruence.
  rewrite (promise_signing_failure _ _ _ _ _ _ _ _ Hpay Hw Hn Hgp Hgl
             Hsign).
  split; [done|]. by intros e' [?|?].
Qed.

(** C6, on the code.  The same failure of the signing stage seen from
    [sendTransaction]: its promise stays unsettled too, so the operation
    does not fail with the originating error, nor with any. *)
Theorem signing_failure_in_sendTransaction st l o pr p payloadData nonce
    gasPrice gl e :
  heap st !! l = Some o →
  Joi_validate o schema_sendTransaction = None →
  o !! "provider" = Some (JStr pr) →
  read_params (with_default_value (forwarded o (JWeb3 pr))) = Some p →
  payload (abi p) (functionName p) (functionArguments p) = Ok payloadData →
  eth_getTransactionCount pr (from p) = Answered (Ok nonce) →
  eth_getGasPrice pr = Ok gasPrice →
  gasLimit p = Some gl ∨
  (gasLimit p = None ∧
   ∃ res, eth_estimateGas pr (contractAddress p) payloadData
          = Answered (Ok res) ∧
          gl = JNum res) →
  sign_and_serialize p nonce payloadData gasPrice gl = Err e →
  (sendTransaction l st).1 = Unsettled e ∧
  ∀ e', ¬ fails_with (sendTransaction l st).1 e'.
Proof.
  intros Hl Hv Hpr Hp Hpay Hn Hgp Hgl Hsign.
  destruct (sendTransaction_valid _ _ _ Hl Hv)
    as (pr' & p' & Hpr' & Hp' & Hw & ->).
  assert (pr' = pr) as -> by congruence.
  assert (p' = p) as -> by congruence.
  pose proof (promise_signing_failure p
                (mkState
                   (heap st
                    ++ [with_default_value (forwarded o (JWeb3 pr))])
                   (trace st))
                _ _ _ _ _ _ Hpay Hw Hn Hgp Hgl Hsign) as Hfail.
  destruct (createSignedRawTransaction_promise p _) as [r st2].
  simpl in Hfail. subst r. split; [done|]. by intros e' [?|?].
Qed.

(** What does hold of failures: an error the node answers to a request,
    the broadcast included, rejects the promise of [sendTransaction] with
    that very error, and the failed request is the last one made. *)
Lemma sendTransaction_remote_failure st l o pr p payloadData err :
  heap st !! l = Some o →
  Joi_validate o schema_sendTransaction = None →
  o !! "provider" = Some (JStr pr) →
  read_params (with_default_value (forwarded o (JWeb3 pr))) = Some p →
  payload (abi p) (functionName p) (functionArguments p) = Ok payloadData →
  (eth_getTransactionCount pr (from p) = Answered (Err err) →
   (sendTransaction l st).1 = Rejected err ∧
   trace (sendTransaction l st).2
   = trace st ++ [GetTransactionCount pr (from p)]) ∧
  (∀ nonce,
     eth_getTransactionCount pr (from p) = Answered (Ok nonce) →
     eth_getGasPrice pr = Err err →
     (sendTransaction l st).1 = Rejected err ∧
     trace (sendTransaction l st).2
     = trace st ++ [GetTransactionCount pr (from p); GetGasPrice pr]) ∧
  (∀ nonce gasPrice,
     eth_getTransactionCount pr (from p) = Answered (Ok nonce) →
     eth_getGasPrice pr = Ok gasPrice →
     gasLimit p = None →
     eth_estimateGas pr (contractAddress p) payloadData
       = Answered (Err err) →
     (sendTransaction l st).1 = Rejected err ∧
     trace (sendTransaction l st).2
     = trace st ++ [GetTransactionCount pr (from p); GetGasPrice pr;
                    EstimateGas pr (contractAddress p) payloadData]) ∧
  (∀ nonce gasPrice gl serializedTx,
     eth_getTransactionCount pr (from p) = Answered (Ok nonce) →
     eth_getGasPrice pr = Ok gasPrice →
     gasLimit p = Some gl →
     sign_and_serialize p nonce payloadData gasPrice gl = Ok serializedTx →
     eth_sendRawTransaction pr ("0x" +:+ Hex.hex_of_bytes serializedTx)
       = Err err →
     (sendTransaction l st).1 = Rejected err ∧
     trace (sendTransaction l st).2
     = trace st ++ [GetTransactionCount pr (from p); GetGasPrice pr;
                    SendRawTransaction pr
                      ("0x" +:+ Hex.hex_of_bytes serializedTx)]).
Proof.
  intros Hl Hv Hpr Hp Hpay.
  destruct (sendTransaction_valid _ _ _ Hl Hv)
    as (pr' & p' & Hpr' & Hp' & Hw & ->).
  assert (pr' = pr) as -> by congruence.
  assert (p' = p) as -> by congruence.
  run_promise. rewrite Hpay, Hw. simpl.
  split; [|split; [|split]].
  - intros ->. done.
  - intros nonce -> ->. simpl. by rewrite <- app_assoc.
  - intros nonce gasPrice -> -> -> ->. simpl. by rewrite <- !app_assoc.
  - intros nonce gasPrice gl serializedTx -> -> -> -> Hsend. simpl.
    unfold sendRawTransaction, emit. unfold mbind, M_bind, mret, M_ret.
    simpl. rewrite Hsend. simpl. by rewrite <- !app_assoc.
Qed.

End PipelineFacts.

(** ** The signed transaction (C4, C1) *)

Section CodecFacts.
Context {WU : Web3Utils} {SC : Secp256k1}.
Import Hex HexFacts RLPFacts.

(** What the reader makes of a numeral of [toHex]. *)
Lemma toBuffer_toHex z :
  (0 ≤ z)%Z → bytes_of_hex (toHex z) = Some (Tx.toBuffer (toHex z)).
Proof.
  intros Hz. destruct (bytes_of_toHex z Hz) as (bs & Hbs & _).
  unfold Tx.toBuffer. by rewrite Hbs.
Qed.

(** A numeric field of the transaction object: the minimal big-endian
    bytes of the number, none for zero, at most 32 of them below 2^256. *)
Lemma numeric_toHex z :
  (0 ≤ z)%Z →
  minimal_encoding z (Tx.numeric (toHex z)) ∧
  ((z < 2 ^ 256)%Z → (length (Tx.numeric (toHex z)) ≤ 32)%nat).
Proof.
  intros Hz.
  destruct (bytes_of_toHex z Hz) as (bs & Hbs & Hval & _ & Hzero).
  unfold Tx.numeric, Tx.toBuffer. rewrite Hbs.
  pose proof (stripZeros_minimal bs) as Hmin.
  pose proof (stripZeros_value bs) as Hv. rewrite Hval in Hv.
  split; [split; [done|split; [done|]]|].
  - intros ->. by rewrite Hzero.
  - intros Hlt.
    destruct (stripZeros bs) as [|b r] eqn:E; [simpl; lia|].
    pose proof (value_in_lower_bound 256 (b :: r) ltac:(lia)
                  ltac:(by exists b, r)) as Hlb.
    fold (be_value (b :: r)) in Hlb. rewrite Hv in Hlb.
    destruct (decide (length (b :: r) ≤ 32)%nat) as [|Hbig]; [done|].
    exfalso.
    assert (256 ^ 32 ≤ 256 ^ (N.of_nat (length (b :: r)) - 1))%N as Hpow.
    { apply N.pow_le_mono_r; lia. }
    change (256 ^ 32)%N with (Z.to_N (2 ^ 256)) in Hpow. lia.
Qed.

(** The same for a number that went through [web3.toHex]. *)
Lemma numeric_Number_toHex z :
  safe_natural z →
  minimal_encoding z (Tx.numeric (Number.toHex z)) ∧
  (length (Tx.numeric (Number.toHex z)) ≤ 32)%nat.
Proof.
  intros [Hz Hle]. rewrite NumberFacts.toHex_safe by lia.
  destruct (numeric_toHex z Hz) as [Henc Hlen]. split; [done|].
  apply Hlen.
  assert (2 ^ 53 < 2 ^ 256)%Z by (apply Z.pow_lt_mono_r; lia). lia.
Qed.

Lemma encode_bytes_covers bs : (length bs ≤ length (RLP.encode_bytes bs))%nat.
Proof.
  unfold RLP.encode_bytes.
  destruct bs as [|b [|b' bs]]; try (rewrite length_app; lia).
  destruct (b <? 128)%N; [done|]. rewrite length_app. lia.
Qed.

Lemma encode_list_covers items :
  (sum_list_with length items ≤ length (RLP.encode_list items))%nat.
Proof.
  unfold RLP.encode_list. rewrite length_app.
  assert (sum_list_with length items
          ≤ length (concat (map RLP.encode_bytes items)))%nat; [|lia].
  induction items as [|bs items IH]; [done|]. simpl.
  rewrite length_app. pose proof (encode_bytes_covers bs). lia.
Qed.

(** A serialized transaction of less than 2^32 bytes decodes to the
    transaction it was made of. *)
Lemma decode_serialize t :
  (N.of_nat (length (Tx.serialize t)) < 2 ^ 32)%N →
  Tx.decode (Tx.serialize t) = Some t.
Proof.
  intros Hlen. unfold Tx.decode, Tx.serialize in *.
  pose proof (encode_list_covers
                [Tx.nonce t; Tx.gasPrice t; Tx.gasLimit t; Tx.to t;
                 Tx.value t; Tx.data t; Tx.v t; Tx.r t; Tx.s t]) as Hcov.
  simpl in Hcov.
  assert (2 ^ 32 + 100 < 2 ^ 64)%N as Hbig by done.
  rewrite decode_list_encode.
  - by destruct t.
  - repeat (apply Forall_cons_2; [lia|]). apply Forall_nil_2.
  - simpl. lia.
Qed.

(** What [sign_and_serialize] returns with this transaction object: the
    serialized form of the fields read from the literal, with the signature
    of the curve library. *)
Lemma sign_and_serialize_fields p nonce payloadData gasPrice gasLimit
    serializedTx :
  sign_and_serialize p nonce payloadData gasPrice gasLimit
    = Ok serializedTx →
  ∃ raw sv sr ss,
    rawTx_of p nonce payloadData gasPrice gasLimit = Ok raw ∧
    ecsign (Tx.preimage (Tx.read raw)) (buffer_from_hex (privateKey p))
      = Ok (sv, sr, ss) ∧
    serializedTx
    = Tx.serialize
        (Tx.mkFields (Tx.nonce (Tx.read raw)) (Tx.gasPrice (Tx.read raw))
           (Tx.gasLimit (Tx.read raw)) (Tx.to (Tx.read raw))
           (Tx.value (Tx.read raw)) (Tx.data (Tx.read raw)) sv sr ss).
Proof.
  intros (raw & t & signed & Hraw & Ht & Hs & ->)%sign_and_serialize_inv.
  simpl in Ht, Hs. unfold Tx.create in Ht. injection Ht as <-.
  unfold Tx.sign in Hs.
  destruct (ecsign _ _) as [[[sv sr] ss]|] eqn:Hsig; [|done].
  injection Hs as <-. by exists raw, sv, sr, ss.
Qed.

(** C4.  For a transaction whose value, nonce and gas limit are numbers
    that are safe integers from zero up, whose gas price lies in
    [0, 2^256), whose address and payload are hex text, and which the curve
    library signs: the transaction object, and with it the signing
    pre-image, is the same for any parameters that agree on to, value,
    nonce, gas price, gas limit and data; [sign_and_serialize] returns the
    serialized bytes; and decoding them yields the bytes of to and data and
    the numbers value, nonce, gas limit and gas price. *)
Theorem serialized_transaction_round_trip p v nonce payloadData gasPrice
    g tb db :
  value p = JNum v →
  safe_natural v →
  safe_natural nonce →
  (0 ≤ gasPrice < 2 ^ 256)%Z →
  safe_natural g →
  bytes_of_hex (contractAddress p) = Some tb →
  (length tb ≤ 32)%nat →
  bytes_of_hex payloadData = Some db →
  (N.of_nat (length db) < 2 ^ 32)%N →
  ∃ raw t,
    rawTx_of p nonce payloadData gasPrice (JNum g) = Ok raw ∧
    EthereumTx raw = Ok t ∧
    (∀ p', contractAddress p' = contractAddress p →
           value p' = value p →
           ∃ raw' t',
             rawTx_of p' nonce payloadData gasPrice (JNum g) = Ok raw' ∧
             EthereumTx raw' = Ok t' ∧
             Tx.preimage t' = Tx.preimage t) ∧
    ∀ sv sr ss,
      ecsign (Tx.preimage t) (Buffer_from_hex (privateKey p))
        = Ok (sv, sr, ss) →
      (length sv ≤ 32)%nat → (length sr ≤ 32)%nat → (length ss ≤ 32)%nat →
      ∃ serializedTx dt,
        sign_and_serialize p nonce payloadData gasPrice (JNum g)
          = Ok serializedTx ∧
        Tx.decode serializedTx = Some dt ∧
        Tx.to dt = tb ∧
        Tx.data dt = db ∧
        be_value (Tx.value dt) = Z.to_N v ∧
        be_value (Tx.nonce dt) = Z.to_N nonce ∧
        be_value (Tx.gasLimit dt) = Z.to_N g ∧
        be_value (Tx.gasPrice dt) = Z.to_N gasPrice.
Proof.
  intros Hval Hv Hn Hgp Hgl Hto Htl Hdata Hdl.
  destruct (numeric_Number_toHex _ Hv) as ((_ & Vbv & _) & Lbv).
  destruct (numeric_Number_toHex _ Hn) as ((_ & Vbn & _) & Lbn).
  destruct (numeric_toHex gasPrice (proj1 Hgp)) as ((_ & Vbgp & _) & Lbgp).
  specialize (Lbgp (proj2 Hgp)).
  destruct (numeric_Number_toHex _ Hgl) as ((_ & Vbgl & _) & Lbgl).
  set (bv := Tx.numeric (Number.toHex v)) in *.
  set (bn := Tx.numeric (Number.toHex nonce)) in *.
  set (bgp := Tx.numeric (toHex gasPrice)) in *.
  set (bgl := Tx.numeric (Number.toHex g)) in *.
  assert (∀ p', contractAddress p' = contractAddress p →
                value p' = value p →
                ∃ raw', rawTx_of p' nonce payloadData gasPrice (JNum g)
                        = Ok raw' ∧
                        Tx.read raw'
                        = Tx.mkFields bn bgp bgl tb bv db [] [] []) as Hread.
  { intros p' Hc Hval'. eexists. split.
    - apply rawTx_of_numbers. by rewrite Hval'.
    - unfold Tx.read. simpl. unfold Tx.toBuffer at 1 2.
      by rewrite Hc, Hto, Hdata. }
  destruct (Hread p eq_refl eq_refl) as (raw & Hraw & Hfields).
  exists raw, (Tx.mkFields bn bgp bgl tb bv db [] [] []).
  split; [done|]. split; [simpl; unfold Tx.create; by rewrite Hfields|].
  split.
  { intros p' Hc Hval'. destruct (Hread p' Hc Hval') as (raw' & Hraw' & Hf').
    exists raw', (Tx.mkFields bn bgp bgl tb bv db [] [] []).
    split; [done|]. split; [simpl; unfold Tx.create; by rewrite Hf'|done]. }
  intros sv sr ss Hsig Lsv Lsr Lss.
  unfold sign_and_serialize. rewrite Hraw. simpl. unfold Tx.create.
  rewrite Hfields. unfold Tx.sign. simpl in Hsig. rewrite Hsig.
  eexists _, _. split; [done|].
  unfold Tx.decode, Tx.serialize. simpl.
  rewrite decode_list_encode.
  - repeat split; done.
  - assert (2 ^ 32 < 2 ^ 64)%N by done.
    repeat (apply Forall_cons_2; [lia|]). apply Forall_nil_2.
  - simpl.
    assert (2 ^ 32 + 500 < 2 ^ 64)%N by done. lia.
Qed.

(** C1.  In the transaction object made of a literal of the pipeline,
    each of value, nonce, gas limit and gas price is stored without a
    leading zero byte.  For a number that is a safe integer from zero up
    (for the gas price, any integer from zero up) the bytes stored are the
    minimal big-endian encoding of that number: they denote it, and there
    are none when it is zero.  These stored fields are the ones that are
    encoded: the serialized transaction decodes to them. *)
Theorem numeric_fields_are_minimal p nonce payloadData gasPrice gasLimit
    raw :
  rawTx_of p nonce payloadData gasPrice gasLimit = Ok raw →
  ∃ t,
    EthereumTx raw = Ok t ∧
    (minimal_be (Tx.value t) ∧ minimal_be (Tx.nonce t) ∧
     minimal_be (Tx.gasLimit t) ∧ minimal_be (Tx.gasPrice t)) ∧
    (∀ v, value p = JNum v → safe_natural v →
          minimal_encoding v (Tx.value t)) ∧
    (safe_natural nonce → minimal_encoding nonce (Tx.nonce t)) ∧
    (∀ g, gasLimit = JNum g → safe_natural g →
          minimal_encoding g (Tx.gasLimit t)) ∧
    ((0 ≤ gasPrice)%Z → minimal_encoding gasPrice (Tx.gasPrice t)) ∧
    ∀ serializedTx,
      sign_and_serialize p nonce payloadData gasPrice gasLimit
        = Ok serializedTx →
      (N.of_nat (length serializedTx) < 2 ^ 32)%N →
      ∃ dt, Tx.decode serializedTx = Some dt ∧
            Tx.value dt = Tx.value t ∧
            Tx.nonce dt = Tx.nonce t ∧
            Tx.gasLimit dt = Tx.gasLimit t ∧
            Tx.gasPrice dt = Tx.gasPrice t.
Proof.
  intros Hraw. exists (Tx.read raw). split; [done|].
  pose proof (rawTx_of_inv _ _ _ _ _ _ Hraw)
    as (Hv & Hgl & Hn & Hgp & _).
  split.
  { unfold Tx.read, Tx.numeric. simpl.
    repeat split; apply stripZeros_minimal. }
  split.
  { intros v Hval Hsafe. rewrite Hval in Hv. simpl in Hv.
    injection Hv as Hv. unfold Tx.read. simpl. rewrite <- Hv.
    by apply numeric_Number_toHex. }
  split.
  { intros Hsafe. unfold Tx.read. simpl. rewrite Hn.
    by apply numeric_Number_toHex. }
  split.
  { intros g -> Hsafe. simpl in Hgl. injection Hgl as Hgl.
    unfold Tx.read. simpl. rewrite <- Hgl.
    by apply numeric_Number_toHex. }
  split.
  { intros Hpos. unfold Tx.read. simpl. rewrite Hgp.
    by apply numeric_toHex. }
  intros serializedTx Hs Hlen.
  apply sign_and_serialize_fields in Hs
    as (raw' & sv & sr & ss & Hraw' & _ & ->).
  assert (raw' = raw) as -> by congruence.
  rewrite decode_serialize by done. eexists. split; [done|]. done.
Qed.

End CodecFacts.
(** ** Further properties of the pipeline *)

Section PipelineMore.
Context {JC : JoiConvert} {AE : AbiEncoder} {WU : Web3Utils} {CD : Codec}
  {ND : Node}.

Ltac exec :=
  unfold sendTransaction, call, createSignedRawTransaction,
    sendRawTransaction, createSignedRawTransaction_promise,
    load, store, alloc, emit;
  unfold mbind, M_bind, mret, M_ret; simpl.

(** X2.  Whatever it is given, [call] writes nothing to the store, leaves
    no promise unsettled, and makes at most one request, a message call;
    without a request it fails, and with one its outcome is the answer of
    the node to that request, result or error, as it came. *)
Theorem call_makes_one_message_call st l :
  heap (call l st).2 = heap st ∧
  (∀ e, (call l st).1 ≠ Unsettled e) ∧
  ((trace (call l st).2 = trace st ∧ ∃ e, fails_with (call l st).1 e) ∨
   (∃ pr to d r,
      eth_call pr to d = Answered r ∧
      trace (call l st).2 = trace st ++ [EthCall pr to d] ∧
      (call l st).1 = match r with
                      | Ok res => Resolved res
                      | Err err => Rejected err
                      end)).
Proof.
  exec. destruct (heap st !! l) as [o|]; simpl.
  2:{ split; [done|]. split; [done|]. left. split; [done|].
      exists TypeError. by left. }
  destruct (Joi_validate o schema_call) as [e|]; simpl.
  { split; [done|]. split; [done|]. left. split; [done|]. exists e. by left. }
  destruct (read_call_params o) as [p|]; simpl.
  2:{ split; [done|]. split; [done|]. left. split; [done|].
      exists TypeError. by right. }
  destruct (payload _ _ _) as [d|e]; simpl.
  2:{ split; [done|]. split; [done|]. left. split; [done|]. exists e.
      by right. }
  destruct (eth_call _ _ _) as [e|r] eqn:Hcall; simpl.
  { split; [done|]. split; [done|]. left. split; [done|]. exists e.
    by right. }
  split; [by destruct r|]. split; [by destruct r|].
  right. exists (call_provider p), (call_contractAddress p), d, r.
  split; [done|]. by destruct r.
Qed.

(** X3.  On a validated object whose function is found and whose arguments
    encode, [call] hands the contract address and the payload of the object
    to [web3.eth.call] at the provider of the object.  When web3 raises on
    the address, the promise is rejected with that exception and no request
    was made.  When web3 sends the request, it is the one request, and
    [call] hands back what the node answers without decoding it.  The store
    is as it was. *)
Theorem call_returns_node_answer st l o c a n args pr d :
  heap st !! l = Some o →
  Joi_validate o schema_call = None →
  o !! "contractAddress" = Some (JStr c) →
  o !! "abi" = Some a →
  o !! "functionName" = Some (JStr n) →
  o !! "functionArguments" = Some args →
  o !! "provider" = Some (JStr pr) →
  payload a n args = Ok d →
  call l st
  = match eth_call pr c d with
    | Raised e => (Rejected e, st)
    | Answered r =>
        (match r with
         | Ok res => Resolved res
         | Err err => Rejected err
         end,
         mkState (heap st) (trace st ++ [EthCall pr c d]))
    end.
Proof.
  intros Hl Hv Hc Ha Hn Hargs Hpr Hpay.
  destruct (read_call_params_valid _ Hv)
    as (p & Hp & Hc' & Ha' & Hn' & Hargs' & Hpr').
  assert (call_contractAddress p = c) as Ec by congruence.
  assert (call_abi p = a) as Ea by congruence.
  assert (call_functionName p = n) as En by congruence.
  assert (call_functionArguments p = args) as Eargs by congruence.
  assert (call_provider p = pr) as Epr by congruence.
  exec. rewrite Hl, Hv, Hp. simpl. rewrite Ea, En, Eargs, Hpay. simpl.
  rewrite Ec, Epr. by destruct (eth_call pr c d) as [?|[?|?]].
Qed.

Lemma promise_payload_error p st e :
  payload (abi p) (functionName p) (functionArguments p) = Err e →
  createSignedRawTransaction_promise p st = (Rejected e, st).
Proof.
  intros Hpay. unfold createSignedRawTransaction_promise. by rewrite Hpay.
Qed.

(** X4.  When the descriptor is found but [toPayload] raises on the
    arguments, [call] and the assembly, on its own or inside
    [sendTransaction], reject with that exception and make no request. *)
Theorem encoding_error_fails_before_network st l o ds fn args d e :
  heap st !! l = Some o →
  o !! "abi" = Some (JArr ds) →
  o !! "functionName" = Some (JStr fn) →
  o !! "functionArguments" = Some args →
  find_descriptor ds fn = Some d →
  toPayload d args = Err e →
  (Joi_validate o schema_call = None →
   call l st = (Rejected e, st)) ∧
  (Joi_validate o schema_createSignedRawTransaction = None →
   ∃ st', createSignedRawTransaction l st = (Rejected e, st') ∧
          trace st' = trace st) ∧
  (Joi_validate o schema_sendTransaction = None →
   ∃ st', sendTransaction l st = (Rejected e, st') ∧
          trace st' = trace st).
Proof.
  intros Hl Habi Hfn Hargs Hfind Henc.
  assert (payload (JArr ds) fn args = Err e) as Hpay.
  { unfold payload. simpl. by rewrite Hfind. }
  split; [|split].
  - intros Hv. destruct (read_call_params_valid _ Hv)
      as (p & Hp & _ & Ha & Hn & Hargs' & _).
    exec. rewrite Hl, Hv, Hp. simpl.
    assert (call_abi p = JArr ds) as -> by congruence.
    assert (call_functionName p = fn) as -> by congruence.
    assert (call_functionArguments p = args) as -> by congruence.
    by rewrite Hpay.
  - intros Hv.
    destruct (createSignedRawTransaction_valid _ _ _ Hl Hv)
      as (p & Hp & ->).
    apply read_params_inv in Hp as (_ & _ & _ & Ha & Hn & Hargs' & _).
    rewrite with_default_value_other in Ha, Hn, Hargs' by done.
    rewrite (promise_payload_error _ _ e).
    + eexists. split; [done|]. by destruct (hasOwnProperty o "value").
    + assert (abi p = JArr ds) as -> by congruence.
      assert (functionName p = fn) as -> by congruence.
      assert (functionArguments p = args) as -> by congruence. done.
  - intros Hv.
    destruct (sendTransaction_valid _ _ _ Hl Hv)
      as (pr & p & Hpr & Hp & Hw & ->).
    apply read_params_inv in Hp as (_ & _ & _ & Ha & Hn & Hargs' & _).
    rewrite with_default_value_other in Ha, Hn, Hargs' by done.
    unfold forwarded in Ha, Hn, Hargs'.
    rewrite lookup_insert_ne, lookup_delete_ne in Ha, Hn, Hargs' by done.
    rewrite (promise_payload_error _ _ e).
    + eexists. split; done.
    + assert (abi p = JArr ds) as -> by congruence.
      assert (functionName p = fn) as -> by congruence.
      assert (functionArguments p = args) as -> by congruence. done.
Qed.

(** The requests of the promise body: the first few of nonce, gas price,
    estimate, all at the provider of the Web3 instance; when it resolves,
    they are the two or the three. *)
Lemma promise_requests p st :
  ∃ reads,
    trace (createSignedRawTransaction_promise p st).2 = trace st ++ reads ∧
    ((reads = [] ∧
      ∀ raw, (createSignedRawTransaction_promise p st).1 ≠ Resolved raw) ∨
     ∃ pr d,
       web3 p = JWeb3 pr ∧
       ((reads `prefix_of` [GetTransactionCount pr (from p); GetGasPrice pr;
                            EstimateGas pr (contractAddress p) d] ∧
         ∀ raw, (createSignedRawTransaction_promise p st).1 ≠ Resolved raw) ∨
        reads = [GetTransactionCount pr (from p); GetGasPrice pr] ∨
        reads = [GetTransactionCount pr (from p); GetGasPrice pr;
                 EstimateGas pr (contractAddress p) d])).
Proof.
  unfold createSignedRawTransaction_promise, emit.
  unfold mbind, M_bind, mret, M_ret; simpl.
  destruct (payload _ _ _) as [d|e]; simpl.
  2:{ exists []. rewrite app_nil_r. split; [done|]. by left. }
  destruct (web3 p) as [| | | |pr] eqn:Hw; simpl;
    try (exists []; rewrite app_nil_r; split; [done|]; by left).
  destruct (eth_getTransactionCount _ _) as [?|[?|?]]; simpl.
  { exists []. rewrite app_nil_r. split; [done|]. by left. }
  2:{ eexists [_]. split; [done|]. right. exists pr, d. split; [done|].
      left. split; [|done]. by eexists [_; _]. }
  destruct (eth_getGasPrice _); simpl.
  2:{ rewrite <- app_assoc. eexists [_; _]. split; [done|]. right.
      exists pr, d. split; [done|]. left. split; [|done]. by eexists [_]. }
  destruct (gasLimit p); simpl.
  { rewrite <- app_assoc. eexists [_; _]. split; [done|]. right.
    exists pr, d. split; [done|]. right. by left. }
  destruct (eth_estimateGas _ _ _) as [?|[?|?]]; simpl;
    rewrite <- ?app_assoc.
  - eexists [_; _]. split; [done|]. right. exists pr, d. split; [done|].
    left. split; [|done]. by eexists [_].
  - eexists [_; _; _]. split; [done|]. right. exists pr, d.
    split; [done|]. right. by right.
  - eexists [_; _; _]. split; [done|]. right. exists pr, d.
    split; [done|]. left. split; [|done]. by exists [].
Qed.

Lemma request_plan_prefix reads pr f t d :
  reads `prefix_of` [GetTransactionCount pr f; GetGasPrice pr;
                     EstimateGas pr t d] →
  request_plan reads.
Proof.
  intros [k Hk]. exists pr, f, t, d, "". left.
  exists (k ++ [SendRawTransaction pr ""]). by rewrite app_assoc, <- Hk.
Qed.

(** X5.  Whatever it is given, [sendTransaction] makes its requests in one
    order and each at most once: nonce, gas price, the estimate if any, the
    broadcast; a failing run stops after the first few.  When it resolves,
    the broadcast was the last request and the hash is what the node
    answered to it. *)
Theorem sendTransaction_requests st l :
  ∃ reads,
    trace (sendTransaction l st).2 = trace st ++ reads ∧
    request_plan reads ∧
    ∀ hash, (sendTransaction l st).1 = Resolved hash →
            ∃ pr raw, last reads = Some (SendRawTransaction pr raw) ∧
                      eth_sendRawTransaction pr raw = Ok hash.
Proof.
  assert (request_plan []) as Hnil.
  { apply (request_plan_prefix [] "" "" "" ""). by eexists. }
  destruct (heap st !! l) as [o|] eqn:Hl.
  2:{ exists []. exec. rewrite Hl. simpl. rewrite app_nil_r. done. }
  destruct (Joi_validate o schema_sendTransaction) as [e|] eqn:Hv.
  { exists []. exec. rewrite Hl, Hv. simpl. rewrite app_nil_r. done. }
  destruct (sendTransaction_valid _ _ _ Hl Hv)
    as (pr & p & Hpr & Hp & Hw & ->).
  set (st1 := mkState _ _).
  destruct (promise_requests p st1) as (reads & Htr & Hshape).
  destruct (createSignedRawTransaction_promise p st1) as [r st2].
  simpl in Htr, Hshape.
  assert (request_plan reads ∨
          ∃ d, reads = [GetTransactionCount pr (from p); GetGasPrice pr] ∨
               reads = [GetTransactionCount pr (from p); GetGasPrice pr;
                        EstimateGas pr (contractAddress p) d]) as Hplan.
  { destruct Hshape as [[-> _]|(pr' & d & Hw' & Hshape)]; [by left|].
    assert (pr' = pr) as -> by congruence.
    destruct Hshape as [[Hpre _]|Hres]; [|right; by exists d].
    left. by eapply request_plan_prefix. }
  assert (request_plan reads) as Hreads.
  { destruct Hplan as [?|(d & [->| ->])]; [done| |];
      apply (request_plan_prefix _ pr (from p) (contractAddress p) d);
      [by eexists [_]|by eexists []]. }
  destruct r as [e|raw|e|e]; simpl.
  1,3,4: by exists reads.
  assert (∃ d, reads = [GetTransactionCount pr (from p); GetGasPrice pr] ∨
               reads = [GetTransactionCount pr (from p); GetGasPrice pr;
                        EstimateGas pr (contractAddress p) d])
    as (d & Hres).
  { destruct Hshape as [[_ Hnot]|(pr' & d & Hw' & Hshape)].
    { by destruct (Hnot raw). }
    assert (pr' = pr) as -> by congruence.
    destruct Hshape as [[_ Hnot]|Hres]; [by destruct (Hnot raw)|].
    by exists d. }
  exists (reads ++ [SendRawTransaction pr raw]).
  unfold sendRawTransaction, emit. unfold mbind, M_bind, mret, M_ret.
  simpl. split.
  { destruct (eth_sendRawTransaction pr raw); simpl;
      by rewrite Htr, <- app_assoc. }
  split.
  { exists pr, (from p), (contractAddress p), d, raw.
    destruct Hres as [->| ->]; [right|left]; by exists []. }
  intros hash Hhash. exists pr, raw. rewrite last_snoc. split; [done|].
  destruct (eth_sendRawTransaction pr raw); simpl in Hhash; congruence.
Qed.

(** X1.  The whole of [sendTransaction] when every stage succeeds: on a
    validated object, with the payload, the nonce, the gas price, the gas
    limit (supplied, or else estimated) and the signature there, it resolves
    with the hash the node answers to the broadcast of ['0x'] followed by
    the serialized bytes in hex; the requests are nonce, gas price, the
    estimate if no limit was supplied, and the broadcast; the object of the
    caller is as it was. *)
Theorem sendTransaction_success st l o pr p d n g gl serializedTx hash :
  heap st !! l = Some o →
  Joi_validate o schema_sendTransaction = None →
  o !! "provider" = Some (JStr pr) →
  read_params (with_default_value (forwarded o (JWeb3 pr))) = Some p →
  payload (abi p) (functionName p) (functionArguments p) = Ok d →
  eth_getTransactionCount pr (from p) = Answered (Ok n) →
  eth_getGasPrice pr = Ok g →
  gasLimit p = Some gl ∨
  (gasLimit p = None ∧
   ∃ res, eth_estimateGas pr (contractAddress p) d = Answered (Ok res) ∧
          gl = JNum res) →
  sign_and_serialize p n d g gl = Ok serializedTx →
  eth_sendRawTransaction pr ("0x" +:+ Hex.hex_of_bytes serializedTx)
    = Ok hash →
  (sendTransaction l st).1 = Resolved hash ∧
  trace (sendTransaction l st).2
  = trace st
    ++ [GetTransactionCount pr (from p); GetGasPrice pr]
    ++ match gasLimit p with
       | Some _ => []
       | None => [EstimateGas pr (contractAddress p) d]
       end
    ++ [SendRawTransaction pr ("0x" +:+ Hex.hex_of_bytes serializedTx)] ∧
  heap (sendTransaction l st).2 !! l = Some o.
Proof.
  intros Hl Hv Hpr Hp Hpay Hn Hg Hgl Hsign Hsend.
  destruct (sendTransaction_valid _ _ _ Hl Hv)
    as (pr' & p' & Hpr' & Hp' & Hw & ->).
  assert (pr' = pr) as -> by congruence.
  assert (p' = p) as -> by congruence.
  assert (l < length (heap st))%nat as Hlt by (by eapply lookup_lt_Some).
  unfold createSignedRawTransaction_promise, sendRawTransaction, emit.
  unfold mbind, M_bind, mret, M_ret; simpl.
  rewrite Hpay, Hw. simpl. rewrite Hn. simpl. rewrite Hg. simpl.
  destruct Hgl as [Hgl|[Hgl (res & Hest & ->)]]; rewrite Hgl; simpl.
  - rewrite Hsign. simpl. rewrite Hsend. simpl.
    rewrite <- !app_assoc. by rewrite lookup_app_l.
  - rewrite Hest. simpl. rewrite Hsign. simpl. rewrite Hsend. simpl.
    rewrite <- !app_assoc. by rewrite lookup_app_l.
Qed.

(** X6.  The object [sendTransaction] forwards always passes the validation
    of [createSignedRawTransaction]: it is the object of the caller with
    [web3] added and [provider] left out, every other key as it was.  Had
    [provider] stayed, that validation would refuse the object. *)
Theorem forwarded_copy_passes_validation o w :
  Joi_validate o schema_sendTransaction = None →
  Joi_validate (forwarded o w) schema_createSignedRawTransaction = None ∧
  Joi_validate (<["web3" := w]> o) schema_createSignedRawTransaction
  = Some ValidationError ∧
  forwarded o w !! "web3" = Some w ∧
  forwarded o w !! "provider" = None ∧
  ∀ k, k ≠ "web3" → k ≠ "provider" → forwarded o w !! k = o !! k.
Proof.
  intros Hv. split; [by apply forwarded_valid|]. split.
  { destruct (Joi_validate (<["web3" := w]> o)
                schema_createSignedRawTransaction) as [e|] eqn:Hw.
    { by rewrite (Joi_validate_error _ _ _ Hw). }
    exfalso. apply Joi_validate_None in Hw as [_ Hu].
    destruct (key_ok_string o "provider") as [pr Hpr].
    { apply Joi_validate_None in Hv as [Hk _]. apply Hk. in_schema. }
    assert ("provider" ∈ schema_createSignedRawTransaction.*1) as Hin.
    { apply Hu. rewrite lookup_insert_ne by done. eauto. }
    unfold schema_createSignedRawTransaction in Hin. simpl in Hin.
    repeat (apply elem_of_cons in Hin as [Hin|Hin]; [done|]).
    by apply elem_of_nil in Hin. }
  unfold forwarded. split; [by rewrite lookup_insert_eq|].
  split; [by rewrite lookup_insert_ne, lookup_delete_eq|].
  intros k Hw Hp. by rewrite lookup_insert_ne, lookup_delete_ne.
Qed.

Lemma with_default_value_valid o :
  Joi_validate o schema_createSignedRawTransaction = None →
  Joi_validate (with_default_value o) schema_createSignedRawTransaction
  = None.
Proof.
  intros Hv. unfold with_default_value, hasOwnProperty.
  destruct (o !! "value") eqn:E; [done|].
  rewrite Joi_validate_default;
    [done|in_schema|apply schema_value_rule|done].
Qed.

Lemma with_default_value_idem o :
  with_default_value (with_default_value o) = with_default_value o.
Proof.
  unfold with_default_value at 1. unfold hasOwnProperty.
  destruct (with_default_value_has o) as [v ->]. done.
Qed.

(** X7.  The default is assigned once: after a first run of
    [createSignedRawTransaction], the object still passes validation when
    it did before, and a second run on it leaves the store exactly as the
    first run left it. *)
Theorem createSignedRawTransaction_second_run st l :
  let st1 := (createSignedRawTransaction l st).2 in
  heap (createSignedRawTransaction l st1).2 = heap st1 ∧
  ∀ o, heap st !! l = Some o →
       Joi_validate o schema_createSignedRawTransaction = None →
       ∃ o1, heap st1 !! l = Some o1 ∧
             Joi_validate o1 schema_createSignedRawTransaction = None ∧
             is_Some (o1 !! "value").
Proof.
  intros st1.
  assert (heap st1
          = match heap st !! l with
            | Some o =>
                match Joi_validate o schema_createSignedRawTransaction with
                | None => <[l := with_default_value o]> (heap st)
                | Some _ => heap st
                end
            | None => heap st
            end) as Hst1 by apply createSignedRawTransaction_heap.
  split.
  - rewrite createSignedRawTransaction_heap, Hst1.
    destruct (heap st !! l) as [o|] eqn:Hl; [|by rewrite Hl].
    destruct (Joi_validate o schema_createSignedRawTransaction) eqn:Hv.
    { by rewrite Hl, Hv. }
    rewrite list_lookup_insert_eq by (by eapply lookup_lt_Some).
    rewrite with_default_value_valid by done.
    by rewrite with_default_value_idem, list_insert_insert_eq.
  - intros o Hl Hv. exists (with_default_value o). rewrite Hst1, Hl, Hv.
    split; [by apply list_lookup_insert_eq; eapply lookup_lt_Some|].
    split; [by apply with_default_value_valid|].
    apply with_default_value_has.
Qed.

(** The promise body ends unsettled only through an exception in a node
    callback: of the signing step, or of [estimateGas] on an address web3
    cannot format. *)
Lemma promise_unsettled_inv p st e :
  (createSignedRawTransaction_promise p st).1 = Unsettled e →
  ∃ pr d n g,
    web3 p = JWeb3 pr ∧
    payload (abi p) (functionName p) (functionArguments p) = Ok d ∧
    eth_getTransactionCount pr (from p) = Answered (Ok n) ∧
    eth_getGasPrice pr = Ok g ∧
    ((∃ gl,
        (gasLimit p = Some gl ∨
         (gasLimit p = None ∧
          ∃ res, eth_estimateGas pr (contractAddress p) d
                 = Answered (Ok res) ∧
                 gl = JNum res)) ∧
        sign_and_serialize p n d g gl = Err e ∧
        trace (createSignedRawTransaction_promise p st).2
        = trace st
          ++ [GetTransactionCount pr (from p); GetGasPrice pr]
          ++ match gasLimit p with
             | Some _ => []
             | None => [EstimateGas pr (contractAddress p) d]
             end) ∨
     (gasLimit p = None ∧
      eth_estimateGas pr (contractAddress p) d = Raised e ∧
      trace (createSignedRawTransaction_promise p st).2
      = trace st ++ [GetTransactionCount pr (from p); GetGasPrice pr])).
Proof.
  unfold createSignedRawTransaction_promise, emit.
  unfold mbind, M_bind, mret, M_ret; simpl.
  destruct (payload _ _ _) as [d|?]; simpl; [|done].
  destruct (web3 p) as [| | | |pr]; simpl; try done.
  destruct (eth_getTransactionCount _ _) as [?|[n|?]] eqn:Hn; simpl;
    try done.
  destruct (eth_getGasPrice _) as [g|?] eqn:Hg; simpl; [|done].
  destruct (gasLimit p) as [gl|] eqn:Hgl; simpl.
  - destruct (sign_and_serialize p n d g gl) as [?|e'] eqn:Hs; simpl;
      [done|]. intros [= ->]. exists pr, d, n, g.
    repeat (split; [done|]). left. exists gl.
    rewrite <- app_assoc. auto.
  - destruct (eth_estimateGas _ _ _) as [e'|[res|?]] eqn:Hest; simpl;
      try done.
    + intros [= ->]. exists pr, d, n, g. repeat (split; [done|]). right.
      rewrite <- app_assoc. auto.
    + destruct (sign_and_serialize p n d g (JNum res)) as [?|e'] eqn:Hs;
        simpl; [done|]. intros [= ->]. exists pr, d, n, g.
      repeat (split; [done|]). left. exists (JNum res).
      rewrite <- !app_assoc. split; [|done]. right. split; [done|].
      by exists res.
Qed.

(** X8.  The promise of [sendTransaction] is left unsettled only by an
    exception raised in a node callback: the object passed validation, the
    payload, the nonce and the gas price were there, and then either the
    gas limit was there too and the signing step raised the exception, or
    no gas limit was supplied and [estimateGas] raised it on the contract
    address before sending anything.  Nothing was broadcast. *)
Theorem sendTransaction_unsettled_only_in_callback st l e :
  (sendTransaction l st).1 = Unsettled e →
  ∃ o pr p d n g,
    heap st !! l = Some o ∧
    Joi_validate o schema_sendTransaction = None ∧
    o !! "provider" = Some (JStr pr) ∧
    read_params (with_default_value (forwarded o (JWeb3 pr))) = Some p ∧
    payload (abi p) (functionName p) (functionArguments p) = Ok d ∧
    eth_getTransactionCount pr (from p) = Answered (Ok n) ∧
    eth_getGasPrice pr = Ok g ∧
    ((∃ gl,
        (gasLimit p = Some gl ∨
         (gasLimit p = None ∧
          ∃ res, eth_estimateGas pr (contractAddress p) d
                 = Answered (Ok res) ∧
                 gl = JNum res)) ∧
        sign_and_serialize p n d g gl = Err e ∧
        trace (sendTransaction l st).2
        = trace st
          ++ [GetTransactionCount pr (from p); GetGasPrice pr]
          ++ match gasLimit p with
             | Some _ => []
             | None => [EstimateGas pr (contractAddress p) d]
             end) ∨
     (gasLimit p = None ∧
      eth_estimateGas pr (contractAddress p) d = Raised e ∧
      trace (sendTransaction l st).2
      = trace st ++ [GetTransactionCount pr (from p); GetGasPrice pr])).
Proof.
  destruct (heap st !! l) as [o|] eqn:Hl.
  2:{ exec. rewrite Hl. simpl. done. }
  destruct (Joi_validate o schema_sendTransaction) as [e'|] eqn:Hv.
  { exec. rewrite Hl, Hv. simpl. done. }
  destruct (sendTransaction_valid _ _ _ Hl Hv)
    as (pr & p & Hpr & Hp & Hw & ->).
  set (st1 := mkState _ _).
  pose proof (promise_unsettled_inv p st1) as Hinv.
  destruct (createSignedRawTransaction_promise p st1) as [r st2].
  destruct r as [e'|raw|e'|e']; simpl; try done.
  { unfold sendRawTransaction, emit. unfold mbind, M_bind, mret, M_ret.
    simpl. by destruct (eth_sendRawTransaction pr raw). }
  intros [= ->].
  destruct (Hinv e eq_refl) as (pr' & d & n & g & Hw' & Hpay & Hn & Hg & Hrest).
  assert (pr' = pr) as -> by congruence.
  exists o, pr, p, d, n, g. simpl in Hrest. repeat (split; [done|]). done.
Qed.

(** X9.  An exception thrown to the caller means that nothing happened:
    when [sendTransaction], [call] or [createSignedRawTransaction] throws,
    the store and the trace are what they were, and the exception is the
    error of the validation of the object. *)
Theorem thrown_means_nothing_happened st l e :
  ((sendTransaction l st).1 = Thrown e →
   (sendTransaction l st).2 = st ∧
   ∀ o, heap st !! l = Some o →
        Joi_validate o schema_sendTransaction = Some e) ∧
  ((call l st).1 = Thrown e →
   (call l st).2 = st ∧
   ∀ o, heap st !! l = Some o → Joi_validate o schema_call = Some e) ∧
  ((createSignedRawTransaction l st).1 = Thrown e →
   (createSignedRawTransaction l st).2 = st ∧
   ∀ o, heap st !! l = Some o →
        Joi_validate o schema_createSignedRawTransaction = Some e).
Proof.
  split; [|split].
  - destruct (heap st !! l) as [o|] eqn:Hl.
    2:{ exec. rewrite Hl. done. }
    destruct (Joi_validate o schema_sendTransaction) as [e'|] eqn:Hv.
    { exec. rewrite Hl, Hv. simpl. intros [= ->]. split; [done|].
      intros o' [= <-]. done. }
    destruct (sendTransaction_valid _ _ _ Hl Hv)
      as (pr & p & _ & _ & _ & ->).
    destruct (createSignedRawTransaction_promise p _) as [[?|raw|?|?] st2];
      simpl; try done.
    unfold sendRawTransaction, emit. unfold mbind, M_bind, mret, M_ret.
    simpl. by destruct (eth_sendRawTransaction pr raw).
  - exec. destruct (heap st !! l) as [o|]; simpl; [|done].
    destruct (Joi_validate o schema_call) as [e'|] eqn:Hv; simpl.
    { intros [= ->]. split; [done|]. by intros o' [= <-]. }
    destruct (read_call_params o); simpl; [|done].
    destruct (payload _ _ _); simpl; [|done].
    by destruct (eth_call _ _ _) as [?|[?|?]].
  - destruct (heap st !! l) as [o|] eqn:Hl.
    2:{ exec. rewrite Hl. done. }
    destruct (Joi_validate o schema_createSignedRawTransaction) as [e'|]
      eqn:Hv.
    { rewrite (createSignedRawTransaction_invalid _ _ _ _ Hl Hv). simpl.
      intros [= ->]. split; [done|]. by intros o' [= <-]. }
    destruct (createSignedRawTransaction_valid _ _ _ Hl Hv)
      as (p & _ & ->).
    unfold createSignedRawTransaction_promise, emit.
    unfold mbind, M_bind, mret, M_ret; simpl. unfold resolve_serialized.
    repeat (case_match; simpl; try done).
Qed.

(** X10.  The schema lets any value stand under [web3].  Given one that is
    not a Web3 instance, with the function found and the arguments encoded,
    [createSignedRawTransaction] rejects with a type error and makes no
    request. *)
Theorem assembly_without_web3_instance st l o w a n args d :
  heap st !! l = Some o →
  Joi_validate o schema_createSignedRawTransaction = None →
  o !! "web3" = Some w →
  (∀ pr, w ≠ JWeb3 pr) →
  o !! "abi" = Some a →
  o !! "functionName" = Some (JStr n) →
  o !! "functionArguments" = Some args →
  payload a n args = Ok d →
  ∃ st', createSignedRawTransaction l st = (Rejected TypeError, st') ∧
         trace st' = trace st.
Proof.
  intros Hl Hv Hw Hnot Ha Hn Hargs Hpay.
  destruct (createSignedRawTransaction_valid _ _ _ Hl Hv) as (p & Hp & ->).
  apply read_params_inv in Hp as (_ & _ & _ & Ha' & Hn' & Hargs' & Hw' & _).
  rewrite with_default_value_other in Ha', Hn', Hargs', Hw' by done.
  assert (abi p = a) as Ea by congruence.
  assert (functionName p = n) as En by congruence.
  assert (functionArguments p = args) as Eargs by congruence.
  assert (web3 p = w) as Ew by congruence.
  unfold createSignedRawTransaction_promise.
  rewrite Ea, En, Eargs, Hpay, Ew.
  destruct w as [| | | |pr]; try (eexists; split; [done|];
                                  by destruct (hasOwnProperty o "value")).
  by destruct (Hnot pr).
Qed.

(** X16.  When [web3.eth.getTransactionCount] raises on the sender
    address, with the function found and the arguments encoded, the
    assembly, on its own or inside [sendTransaction], rejects with that
    exception and makes no request. *)
Theorem invalid_sender_fails_before_network st l o a n args f pr d e :
  heap st !! l = Some o →
  o !! "abi" = Some a →
  o !! "functionName" = Some (JStr n) →
  o !! "functionArguments" = Some args →
  o !! "from" = Some (JStr f) →
  payload a n args = Ok d →
  eth_getTransactionCount pr f = Raised e →
  (Joi_validate o schema_createSignedRawTransaction = None →
   o !! "web3" = Some (JWeb3 pr) →
   ∃ st', createSignedRawTransaction l st = (Rejected e, st') ∧
          trace st' = trace st) ∧
  (Joi_validate o schema_sendTransaction = None →
   o !! "provider" = Some (JStr pr) →
   ∃ st', sendTransaction l st = (Rejected e, st') ∧
          trace st' = trace st).
Proof.
  intros Hl Ha Hn Hargs Hf Hpay Hraise.
  assert (∀ p st1,
            abi p = a → functionName p = n → functionArguments p = args →
            from p = f → web3 p = JWeb3 pr →
            createSignedRawTransaction_promise p st1 = (Rejected e, st1))
    as Hbody.
  { intros p st1 <- <- <- <- Hw.
    unfold createSignedRawTransaction_promise.
    by rewrite Hpay, Hw, Hraise. }
  split.
  - intros Hv Hw.
    destruct (createSignedRawTransaction_valid _ _ _ Hl Hv) as (p & Hp & ->).
    apply read_params_inv in Hp
      as (Hf' & _ & _ & Ha' & Hn' & Hargs' & Hw' & _).
    rewrite with_default_value_other in Hf', Ha', Hn', Hargs', Hw' by done.
    rewrite Hbody by congruence.
    eexists. split; [done|]. by destruct (hasOwnProperty o "value").
  - intros Hv Hpr.
    destruct (sendTransaction_valid _ _ _ Hl Hv)
      as (pr' & p & Hpr' & Hp & Hw & ->).
    assert (pr' = pr) as -> by congruence.
    apply read_params_inv in Hp as (Hf' & _ & _ & Ha' & Hn' & Hargs' & _).
    rewrite with_default_value_other in Hf', Ha', Hn', Hargs' by done.
    unfold forwarded in Hf', Ha', Hn', Hargs'.
    rewrite lookup_insert_ne, lookup_delete_ne in Hf', Ha', Hn', Hargs'
      by done.
    rewrite Hbody by congruence.
    eexists. split; done.
Qed.

End PipelineMore.

(** ** Further properties of the numerals and of validation *)

Section ValidationMore.
Context {JC : JoiConvert}.

(** Putting a value under an optional integer key of a validated object:
    the verdict is Joi's verdict on that value. *)
Lemma Joi_validate_integer o sc k v :
  (k, Joi_number_integer) ∈ sc →
  (∀ r, (k, r) ∈ sc → r = Joi_number_integer) →
  Joi_validate o sc = None →
  Joi_validate (<[k := v]> o) sc
  = if conforms TInteger v then None else Some ValidationError.
Proof.
  intros Hin Honly [Hk Hu]%Joi_validate_None.
  destruct (conforms TInteger v) eqn:Hc.
  - apply Joi_validate_None. split.
    + intros [k' r] Hkr. unfold key_ok; simpl.
      destruct (decide (k' = k)) as [->|Hne].
      * by rewrite lookup_insert_eq, (Honly r Hkr).
      * rewrite lookup_insert_ne by done. apply (Hk _ Hkr).
    + intros k' [v' Hs]. destruct (decide (k' = k)) as [->|Hne].
      * apply list_elem_of_fmap. by exists (k, Joi_number_integer).
      * apply Hu. rewrite lookup_insert_ne in Hs by done. eauto.
  - apply (Joi_validate_key_not_ok _ _ (k, Joi_number_integer) Hin).
    unfold key_ok; simpl. by rewrite lookup_insert_eq.
Qed.

Lemma schema_sendTransaction_integer_rule k r :
  k = "value" ∨ k = "gasLimit" →
  (k, r) ∈ schema_sendTransaction → r = Joi_number_integer.
Proof.
  intros Hk Hin.
  assert (Forall (λ kr, kr.1 = "value" ∨ kr.1 = "gasLimit" →
                        kr.2 = Joi_number_integer)
            schema_sendTransaction) as Hall.
  { unfold schema_sendTransaction.
    repeat (apply Forall_cons_2; [by intros [?|?]|]). apply Forall_nil_2. }
  rewrite Forall_forall in Hall. by apply (Hall _ Hin).
Qed.

(** X11.  Joi bounds [value] and [gasLimit] in size only: an object that
    passes validation passes it with any integer of at most 2^53 - 1 in
    size under either key, a negative one too, and is refused with a larger
    one.  A negative number then reaches the transaction object as ['-0x']
    and its digits; this is no hex numeral, the reader takes it as text,
    and the field stored is the bytes of these characters. *)
Theorem integers_are_bounded_in_size_only o z :
  Joi_validate o schema_sendTransaction = None →
  (∀ k, k = "value" ∨ k = "gasLimit" →
        Joi_validate (<[k := JNum z]> o) schema_sendTransaction
        = if (Z.abs z <=? 2 ^ 53 - 1)%Z then None
          else Some ValidationError) ∧
  ((- (2 ^ 53 - 1) ≤ z < 0)%Z →
   Number.toHex z = "-0x" +:+ Hex.toString16 (Z.to_N (- z)) ∧
   Hex.bytes_of_hex (Number.toHex z) = None ∧
   Tx.numeric (Number.toHex z)
   = [45; 48; 120]%N ++ Hex.utf8 (Hex.toString16 (Z.to_N (- z)))).
Proof.
  intros Hv. split.
  - intros k Hk.
    rewrite (Joi_validate_integer o schema_sendTransaction k (JNum z));
      [done| |intros r; by apply schema_sendTransaction_integer_rule|done].
    destruct Hk as [-> | ->]; in_schema.
  - intros Hz.
    assert (Number.toHex z = "-0x" +:+ Hex.toString16 (Z.to_N (- z))) as E.
    { rewrite NumberFacts.toHex_safe by lia. unfold Hex.toHex.
      by rewrite (proj2 (Z.ltb_lt z 0)) by lia. }
    rewrite E. split; [done|]. split; [done|]. done.
Qed.

End ValidationMore.

Lemma render_length ds : String.length (Hex.render ds) = length ds.
Proof. induction ds as [|d ds IH]; simpl; [done|]. by rewrite IH. Qed.

(** X12.  The text the assembly resolves with, ['0x'] followed by the
    serialized bytes in hex, reads back as exactly those bytes, and is two
    characters per byte and two for the prefix long. *)
Theorem resolved_text_decodes bs :
  Forall (λ b, (b < 256)%N) bs →
  Hex.bytes_of_hex ("0x" +:+ Hex.hex_of_bytes bs) = Some bs ∧
  String.length ("0x" +:+ Hex.hex_of_bytes bs) = 2 + 2 * length bs.
Proof.
  intros Hbs. unfold Hex.hex_of_bytes.
  set (ds := concat (map (λ b, [(b / 16)%N; (b mod 16)%N]) bs)).
  assert (Forall (λ d, (d < 16)%N) ds ∧ length ds = 2 * length bs ∧
          Hex.pair_up ds = bs) as (Hds & Hlen & Hpair).
  { unfold ds. clear ds. induction Hbs as [|b bs Hb _ (IH1 & IH2 & IH3)].
    { done. }
    simpl. split; [|split].
    - repeat constructor; [|apply N.mod_lt; lia|done].
      apply N.Div0.div_lt_upper_bound. lia.
    - lia.
    - rewrite IH3. f_equal. pose proof (N.div_mod b 16). lia. }
  split.
  - rewrite HexFacts.bytes_of_hex_render by done. f_equal.
    unfold Hex.padToEven. rewrite Hlen.
    assert (Nat.even (2 * length bs) = true) as ->.
    { apply Nat.even_spec. by exists (length bs). }
    done.
  - change ("0x" +:+ Hex.render ds)
      with (String "0" (String "x" (Hex.render ds))).
    simpl. rewrite render_length, Hlen. lia.
Qed.

(** [fromDecimal] gives different integers different numerals. *)
Lemma fromDecimal_injective a b : Hex.toHex a = Hex.toHex b → a = b.
Proof.
  assert (∀ x y, (0 ≤ x)%Z → (0 ≤ y)%Z →
                 Hex.toHex x = Hex.toHex y → x = y) as Hpos.
  { intros x y Hx Hy E.
    destruct (HexFacts.bytes_of_toHex x Hx) as (bx & Hbx & Vx & _).
    destruct (HexFacts.bytes_of_toHex y Hy) as (by_ & Hby & Vy & _).
    rewrite E, Hby in Hbx. injection Hbx as <-. lia. }
  unfold Hex.toHex at 1 2.
  destruct (a <? 0)%Z eqn:Ha, (b <? 0)%Z eqn:Hb.
  - apply Z.ltb_lt in Ha, Hb. intros E.
    assert (Hex.toHex (- a) = Hex.toHex (- b)) as E'.
    { unfold Hex.toHex.
      rewrite (proj2 (Z.ltb_ge (- a) 0)), (proj2 (Z.ltb_ge (- b) 0)) by lia.
      change (String "-" (String "0" (String "x"
                (Hex.toString16 (Z.to_N (- a)))))
              = String "-" (String "0" (String "x"
                  (Hex.toString16 (Z.to_N (- b)))))) in E.
      injection E as E. by rewrite E. }
    apply Hpos in E'; lia.
  - simpl. discriminate.
  - simpl. discriminate.
  - apply Z.ltb_ge in Ha, Hb. intros E. apply Hpos; [done..|].
    unfold Hex.toHex.
    by rewrite (proj2 (Z.ltb_ge a 0)), (proj2 (Z.ltb_ge b 0)).
Qed.

(** X13.  [web3.toHex] gives different numbers different numerals as long
    as they are safe integers: two such fields of a raw transaction that
    differ as numbers differ as text.  From 2^53 on it does not: the number
    2^64 is written as the integer 2^64 + 384 is. *)
Theorem toHex_injective_on_safe_integers a b :
  ((Z.abs a ≤ 2 ^ 53 - 1)%Z → (Z.abs b ≤ 2 ^ 53 - 1)%Z → a ≠ b →
   Number.toHex a ≠ Number.toHex b) ∧
  Number.toHex (2 ^ 64) = Hex.toHex (2 ^ 64 + 384).
Proof.
  split; [|by vm_compute].
  intros Ha Hb Hne E. apply Hne.
  rewrite !NumberFacts.toHex_safe in E by lia.
  by apply fromDecimal_injective.
Qed.

(** ** The first revision *)

Lemma value_in_base_le ds :
  (Hex.value_in 10 ds ≤ Hex.value_in 16 ds)%N.
Proof.
  induction ds as [|x ds IH] using rev_ind; [done|].
  rewrite !HexFacts.value_in_snoc. lia.
Qed.

Lemma value_in_base_lt d r :
  d ≠ 0%N → r ≠ [] →
  (Hex.value_in 10 (d :: r) < Hex.value_in 16 (d :: r))%N.
Proof.
  intros Hd Hr.
  destruct (exists_last Hr) as (r' & x & ->).
  change (d :: r' ++ [x]) with ((d :: r') ++ [x]).
  rewrite !HexFacts.value_in_snoc.
  pose proof (value_in_base_le (d :: r')) as Hle.
  pose proof (RLPFacts.value_in_lower_bound 16 (d :: r') ltac:(lia)
                ltac:(by exists d, r')) as Hlb.
  assert (1 ≤ 16 ^ (N.of_nat (length (d :: r')) - 1))%N as Hone.
  { assert (16 ^ (N.of_nat (length (d :: r')) - 1) ≠ 0)%N
      by (apply N.pow_nonzero; lia). lia. }
  lia.
Qed.

(** X14.  In the first revision the gas price is written ['0x' + gasPrice],
    which appends its decimal digits.  Read as the hex numeral it is handed
    over as, the field is the gas price only below ten; from ten on it
    denotes a larger number. *)
Theorem legacy_gasPrice_is_misread from contractAddress payloadData nonce
    gasPrice res :
  (0 ≤ gasPrice < 10 ^ 21)%Z →
  ∃ bs,
    Hex.bytes_of_hex
      (tx_gasPrice
         (Legacy.rawTx_of from contractAddress payloadData nonce gasPrice
            res))
    = Some bs ∧
    ((gasPrice < 10)%Z → Z.of_N (Hex.be_value bs) = gasPrice) ∧
    ((10 ≤ gasPrice)%Z → (gasPrice < Z.of_N (Hex.be_value bs))%Z).
Proof.
  intros [Hz _]. simpl. unfold Legacy.toString10.
  rewrite (proj2 (Z.ltb_ge gasPrice 0)) by done.
  destruct (HexFacts.digits_spec 10 (Z.to_N gasPrice) ltac:(lia))
    as (Hall & Hval & Hzero & Hpos).
  set (ds := Hex.digits 10 (Z.to_N gasPrice)) in *.
  assert (Forall (λ d, (d < 16)%N) ds) as Hall16.
  { eapply Forall_impl; [exact Hall|]. simpl. lia. }
  rewrite (HexFacts.bytes_of_hex_render _ Hall16). eexists. split; [done|].
  rewrite HexFacts.bytes_of_digits_value.
  destruct (decide (gasPrice = 0%Z)) as [->|Hne].
  { rewrite Hzero by done. split; [done|lia]. }
  destruct Hpos as (d & r & E & Hd); [lia|]. rewrite E in *.
  apply Forall_cons in Hall as [Hd10 _].
  destruct r as [|d' r'].
  - unfold Hex.value_in in *. simpl in *. lia.
  - pose proof (value_in_base_lt d (d' :: r') Hd ltac:(done)) as Hlt.
    pose proof (RLPFacts.value_in_lower_bound 10 (d :: d' :: r')
                  ltac:(lia) ltac:(by exists d, (d' :: r'))) as Hlb.
    assert (10 ≤ 10 ^ (N.of_nat (length (d :: d' :: r')) - 1))%N as Hten.
    { change 10%N with (10 ^ 1)%N at 1. apply N.pow_le_mono_r; simpl; lia. }
    lia.
Qed.

Section LegacyFacts.
Context {JC : JoiConvert} {AE : AbiEncoder} {CD : Codec} {ND : Node}.

(** X15.  [callContractFunction] of the first revision writes nothing to
    the store.  Its requests are the first few of nonce, gas price,
    estimate and broadcast, in this order; there is no way around the
    estimate: when it resolves, all four were made, and the hash is the
    answer of the node to the broadcast. *)
Theorem callContractFunction_requests st l :
  heap (Legacy.callContractFunction l st).2 = heap st ∧
  ∃ reads pr from to d raw,
    trace (Legacy.callContractFunction l st).2 = trace st ++ reads ∧
    reads `prefix_of` [GetTransactionCount pr from; GetGasPrice pr;
                       EstimateGas pr to d; SendRawTransaction pr raw] ∧
    ∀ hash, (Legacy.callContractFunction l st).1 = Resolved hash →
            reads = [GetTransactionCount pr from; GetGasPrice pr;
                     EstimateGas pr to d; SendRawTransaction pr raw] ∧
            eth_sendRawTransaction pr raw = Ok hash.
Proof.
  unfold Legacy.callContractFunction, Legacy.createSignedRawTransaction,
    Legacy.sign_serialized, sendRawTransaction, load, emit.
  unfold mbind, M_bind, mret, M_ret; simpl.
  assert (∀ tr : list rpc, tr = tr ++ []) as Hnil
    by (intros; by rewrite app_nil_r).
  destruct (heap st !! l) as [o|]; simpl.
  2:{ split; [done|]. exists [], "", "", "", "", "".
      split; [apply Hnil|]. split; [by eexists|done]. }
  destruct (Joi_validate o Legacy.schema); simpl.
  { split; [done|]. exists [], "", "", "", "", "".
    split; [apply Hnil|]. split; [by eexists|done]. }
  destruct (Legacy.read_legacy_params o) as [p|]; simpl.
  2:{ split; [done|]. exists [], "", "", "", "", "".
      split; [apply Hnil|]. split; [by eexists|done]. }
  destruct (payload _ _ _) as [d|]; simpl.
  2:{ split; [done|]. exists [], "", "", "", "", "".
      split; [apply Hnil|]. split; [by eexists|done]. }
  set (pr := Legacy.legacy_provider p).
  set (f := Legacy.legacy_from p).
  set (t := Legacy.legacy_contractAddress p).
  destruct (eth_getTransactionCount pr f) as [?|[?|?]]; simpl.
  { split; [done|]. exists [], "", "", "", "", "".
    split; [apply Hnil|]. split; [by eexists|done]. }
  2:{ split; [done|]. exists [GetTransactionCount pr f], pr, f, t, d, "".
      split; [done|]. split; [by eexists [_; _; _]|done]. }
  destruct (eth_getGasPrice pr); simpl.
  2:{ split; [done|].
      exists [GetTransactionCount pr f; GetGasPrice pr], pr, f, t, d, "".
      split; [by rewrite <- app_assoc|].
      split; [by eexists [_; _]|done]. }
  destruct (eth_estimateGas pr t d) as [?|[?|?]]; simpl.
  { split; [done|].
    exists [GetTransactionCount pr f; GetGasPrice pr], pr, f, t, d, "".
    split; [by rewrite <- app_assoc|].
    split; [by eexists [_; _]|done]. }
  2:{ split; [done|].
      exists [GetTransactionCount pr f; GetGasPrice pr; EstimateGas pr t d],
        pr, f, t, d, "".
      split; [by rewrite <- !app_assoc|].
      split; [by eexists [_]|done]. }
  destruct (EthereumTx _); simpl.
  2:{ split; [done|].
      exists [GetTransactionCount pr f; GetGasPrice pr; EstimateGas pr t d],
        pr, f, t, d, "".
      split; [by rewrite <- !app_assoc|].
      split; [by eexists [_]|done]. }
  destruct (tx_sign _ _) as [signed|]; simpl.
  2:{ split; [done|].
      exists [GetTransactionCount pr f; GetGasPrice pr; EstimateGas pr t d],
        pr, f, t, d, "".
      split; [by rewrite <- !app_assoc|].
      split; [by eexists [_]|done]. }
  set (raw := "0x" +:+ Hex.hex_of_bytes (tx_serialize signed)).
  split; [by destruct (eth_sendRawTransaction pr raw)|].
  exists [GetTransactionCount pr f; GetGasPrice pr; EstimateGas pr t d;
          SendRawTransaction pr raw], pr, f, t, d, raw.
  split; [destruct (eth_sendRawTransaction pr raw); simpl;
          by rewrite <- !app_assoc|].
  split; [by exists []|].
  intros hash Hhash. split; [done|].
  destruct (eth_sendRawTransaction pr raw); simpl in Hhash; congruence.
Qed.

End LegacyFacts.

(** ** The scripted environment at work *)

Import Hex Scripted.

Example toHex_256 : toHex 256 = "0x100".
Proof. reflexivity. Qed.

Example bytes_256 : bytes_of_hex (toHex 256) = Some [1; 0]%N.
Proof. reflexivity. Qed.

Example hex_of_bytes_ex : hex_of_bytes [1; 171; 0]%N = "01ab00".
Proof. reflexivity. Qed.

(** A number up to 2^53 is written as it is; 2^64 is written from its
    decimal text 18446744073709552000; beyond the doubles there is the
    name of the infinity. *)
Example Number_toHex_ex :
  Number.toHex 30000 = "0x7530" ∧
  Number.toHex (2 ^ 53) = "0x20000000000000" ∧
  Number.toHex (2 ^ 64) = "0x10000000000000180" ∧
  Number.toHex (2 ^ 1024) = "0xInfinity".
Proof. repeat split; by vm_compute. Qed.

(** What the reader of the transaction object makes of a numeral, of a
    negative numeral and of an address that is none. *)
Example toBuffer_ex :
  Tx.toBuffer "0x0" = [0%N] ∧
  Tx.numeric "0x0" = [] ∧
  Tx.toBuffer "-0x1" = [45; 48; 120; 49]%N ∧
  Tx.toBuffer "0x1234" = [18; 52]%N.
Proof. repeat split; by vm_compute. Qed.

(** The two tests of the suite: [ping] resolves to the encoded "pong",
    [double] to a hash of 66 characters. *)
Example test_call_ping :
  (call 0 (store_of params_ping)).1
  = Resolved
      ("0x000000000000000000000000000000000000000000000000"
       +:+ "000000000000002000000000000000000000000000000000000000000000000000"
       +:+ "00000000000004706f6e6700000000000000000000000000000000000000000000"
       +:+ "000000000000").
Proof. reflexivity. Qed.

Example test_sendTransaction_double :
  ∃ hash, (sendTransaction 0 (store_of (params_double 7))).1
          = Resolved hash ∧ String.length hash = 66.
Proof. eexists. split; reflexivity. Qed.

(** A contract address that is no address.  [call] is rejected by the
    exception of web3, before any request.  [sendTransaction] asks for the
    nonce and the gas price; then [estimateGas] raises in the callback, and
    the promise is left unsettled. *)
Example call_invalid_address :
  call 0 (store_of (<["contractAddress" := JStr "0x1234"]> params_ping))
  = (Rejected InvalidAddress,
     store_of (<["contractAddress" := JStr "0x1234"]> params_ping)).
Proof. by vm_compute. Qed.

Example sendTransaction_invalid_address :
  let o := <["contractAddress" := JStr "0x1234"]> (params_double 7) in
  (sendTransaction 0 (store_of o)).1 = Unsettled InvalidAddress ∧
  trace (sendTransaction 0 (store_of o)).2
  = [GetTransactionCount provider account; GetGasPrice provider].
Proof. split; by vm_compute. Qed.

(** Text that Joi converts to an array, under [abi]: validation passes,
    [_.find] finds no descriptor in it, and the promise is rejected before
    any request. *)
Example call_text_abi :
  call 0 (store_of (<["abi" := JStr "[]"]> params_ping))
  = (Rejected InterfaceLookupError,
     store_of (<["abi" := JStr "[]"]> params_ping)).
Proof. by vm_compute. Qed.

(** The fields stored for a first transaction without value: nothing for
    the value and the nonce, the bytes of the estimate and of the gas
    price. *)
Lemma numeric_fields_are_minimal_witness :
  let p := fields_of (<["value" := JNum 0]> (params_create 7)) in
  ∃ raw t,
    rawTx_of p 0 "0xeee97206" 20000000000 (JNum 30000) = Ok raw ∧
    EthereumTx raw = Ok t ∧
    Tx.value t = [] ∧ Tx.nonce t = [] ∧
    be_value (Tx.gasLimit t) = 30000%N ∧
    be_value (Tx.gasPrice t) = 20000000000%N.
Proof.
  intros p.
  destruct (rawTx_of p 0 "0xeee97206" 20000000000 (JNum 30000))
    as [raw|] eqn:Hraw; [|by vm_compute in Hraw].
  destruct (numeric_fields_are_minimal p 0 "0xeee97206" 20000000000
              (JNum 30000) raw Hraw)
    as (t & Ht & _ & Hv & Hn & Hgl & Hgp & _).
  exists raw, t. split; [done|]. split; [exact Ht|].
  destruct (Hv 0%Z eq_refl) as (_ & _ & Hv0); [unfold safe_natural; lia|].
  destruct Hn as (_ & _ & Hn0); [unfold safe_natural; lia|].
  destruct (Hgl 30000%Z eq_refl) as (_ & Hglv & _);
    [unfold safe_natural; lia|].
  destruct Hgp as (_ & Hgpv & _); [lia|].
  split; [by apply Hv0|]. split; [by apply Hn0|]. split; assumption.
Defined.

(** A gas limit of 0 is taken as it is: two requests, no estimate, and the
    numeral of zero in the literal. *)
Lemma gasLimit_resolution_witness :
  let o := <["gasLimit" := JNum 0]> (params_create 7) in
  ∃ p raw,
    read_params (with_default_value o) = Some p ∧
    gasLimit p = Some (JNum 0) ∧
    trace (createSignedRawTransaction 0 (store_of o)).2
    = [GetTransactionCount provider account; GetGasPrice provider] ∧
    tx_gasLimit raw = "0x0" ∧
    ∃ text, (createSignedRawTransaction 0 (store_of o)).1 = Resolved text.
Proof.
  assert (Joi_validate (<["gasLimit" := JNum 0]> (params_create 7))
            schema_createSignedRawTransaction = None) as Hvalid
    by (vm_compute; reflexivity).
  destruct (gasLimit_resolution
              (store_of (<["gasLimit" := JNum 0]> (params_create 7))) 0
              (<["gasLimit" := JNum 0]> (params_create 7))
              eq_refl Hvalid) as (p & Hp & _ & Hsup & _).
  assert (p = fields_of (with_default_value
                           (<["gasLimit" := JNum 0]> (params_create 7))))
    as ->.
  { unfold fields_of. by rewrite Hp. }
  destruct (rawTx_of
              (fields_of (with_default_value
                            (<["gasLimit" := JNum 0]> (params_create 7))))
              0
              "0xeee972060000000000000000000000000000000000000000000000000000000000000007"
              20000000000 (JNum 0)) as [raw|] eqn:Hraw;
    [|by vm_compute in Hraw].
  destruct (Hsup 0%Z provider
              "0xeee972060000000000000000000000000000000000000000000000000000000000000007"
              0%Z 20000000000%Z raw eq_refl ltac:(lia) eq_refl eq_refl
              eq_refl eq_refl Hraw)
    as (Htrace & Htext & _ & Hout).
  eexists _, raw. split; [exact Hp|]. split; [reflexivity|].
  split; [exact Htrace|]. split; [exact Htext|].
  eexists. vm_compute. reflexivity.
Defined.

(** The contract has no [triple]: rejected, and no request was made. *)
Lemma unknown_function_fails_before_network_witness :
  let o := <["functionName" := JStr "triple"]> (params_double 7) in
  ∃ st', sendTransaction 0 (store_of o)
         = (Rejected InterfaceLookupError, st') ∧
         trace st' = [].
Proof.
  destruct (unknown_function_fails_before_network
              (store_of (<["functionName" := JStr "triple"]>
                           (params_double 7))) 0
              (<["functionName" := JStr "triple"]> (params_double 7))
              parkour_abi "triple")
    as (_ & _ & Hsend); try (vm_compute; reflexivity).
  - intros d Hd.
    repeat (apply elem_of_cons in Hd as [->|Hd]; [reflexivity|]).
    by apply elem_of_nil in Hd.
  - apply Hsend. vm_compute. reflexivity.
Defined.

(** The signed [double(7)] decodes to the value and the gas limit it was
    made from. *)
Lemma serialized_transaction_round_trip_witness :
  ∃ serializedTx dt,
    sign_and_serialize (fields_of (<["value" := JNum 0]> (params_create 7)))
      0 "0xeee97206" 20000000000 (JNum 30000) = Ok serializedTx ∧
    Tx.decode serializedTx = Some dt ∧
    be_value (Tx.value dt) = 0%N ∧
    be_value (Tx.gasLimit dt) = 30000%N.
Proof.
  destruct (serialized_transaction_round_trip
              (fields_of (<["value" := JNum 0]> (params_create 7)))
              0 0 "0xeee97206" 20000000000 30000
              [19; 171; 97; 157; 167; 25; 121; 106; 167; 169; 123; 240;
               70; 165; 21; 40; 172; 17; 189; 15]%N
              [238; 233; 114; 6]%N)
    as (raw & t & Hraw & Ht & _ & Hround);
    [reflexivity
    |unfold safe_natural; lia
    |unfold safe_natural; lia
    |vm_compute; split; [discriminate|reflexivity]
    |unfold safe_natural; lia
    |reflexivity|simpl; lia|reflexivity|reflexivity|].
  assert (t = Tx.read raw) as ->.
  { simpl in Ht. unfold Tx.create in Ht. by injection Ht as <-. }
  assert (raw = {| tx_to := "0x13ab619da719796aa7a97bf046a51528ac11bd0f";
                   tx_data := "0xeee97206"; tx_value := "0x0";
                   tx_from := account; tx_nonce := "0x0";
                   tx_gasLimit := "0x7530";
                   tx_gasPrice := "0x4a817c800" |}) as ->.
  { vm_compute in Hraw. by injection Hraw as <-. }
  destruct (Hround [27%N] (repeat 17%N 32) (repeat 34%N 32))
    as (bytes & dt & Hs & Hd & _ & _ & Hv & _ & Hgl & _);
    [reflexivity|simpl; lia..|].
  exists bytes, dt. repeat split; assumption.
Defined.

(** Counterexample to C5 as stated: the text ['5'] under [value] is a field
    of another type than the integer asked for, yet [sendTransaction] does
    not raise a validation error: Joi converts the text, the pipeline goes
    on with it, and the transaction is broadcast. *)
Lemma text_value_passes_validation :
  let o := <["value" := JStr "5"]> (params_double 7) in
  wrong_shape schema_sendTransaction o ∧
  Joi_validate o schema_sendTransaction = None ∧
  (sendTransaction 0 (store_of o)).1 = Resolved txHash ∧
  length (trace (sendTransaction 0 (store_of o)).2) = 4.
Proof.
  split.
  { exists "value", Joi_number_integer, (JStr "5").
    split; [in_schema|]. split; by vm_compute. }
  repeat split; by vm_compute.
Qed.

(** Without [from], [sendTransaction] raises and leaves the state alone. *)
Lemma validation_failure_is_local_witness :
  let o := delete "from" (params_double 7) in
  sendTransaction 0 (store_of o) = (Thrown ValidationError, store_of o).
Proof.
  apply (validation_failure_is_local
           (store_of (delete "from" (params_double 7))) 0
           (delete "from" (params_double 7))); [reflexivity|].
  left. exists "from", Joi_string_required.
  split; [repeat constructor|]. split; vm_compute; reflexivity.
Defined.

(** The test parameters, which have no [value], against the same with
    [value] 0; what the run resolves with is made of a literal whose value
    is ['0x0']. *)
Lemma value_defaults_to_zero_witness :
  (createSignedRawTransaction 0 (store_of (params_create 7))).1
  = (createSignedRawTransaction 0
       (store_of (<["value" := JNum 0]> (params_create 7)))).1 ∧
  ∃ text raw,
    (createSignedRawTransaction 0 (store_of (params_create 7))).1
    = Resolved text ∧
    tx_value raw = "0x0" ∧
    ∃ t signed,
      EthereumTx raw = Ok t ∧
      tx_sign t (Buffer_from_hex key) = Ok signed ∧
      text = "0x" +:+ hex_of_bytes (tx_serialize signed).
Proof.
  destruct (value_defaults_to_zero (store_of (params_create 7)) 0
              (params_create 7) eq_refl eq_refl) as (Hsame & _ & Hval).
  split; [exact Hsame|].
  destruct Hval as (_ & p & Hp & _ & _ & Hres); [by vm_compute|].
  assert (∃ text,
            (createSignedRawTransaction 0 (store_of (params_create 7))).1
            = Resolved text) as [text Hrun]
    by (eexists; vm_compute; reflexivity).
  destruct (Hres text Hrun)
    as (n & d & g & gl & raw & t & signed & _ & Hzero & Ht & Hs & Htext).
  assert (privateKey p = key) as Hkey.
  { vm_compute in Hp. by injection Hp as <-. }
  rewrite Hkey in Hs.
  exists text, raw. split; [exact Hrun|]. split; [exact Hzero|].
  exists t, signed. repeat split; assumption.
Defined.

(** Of two descriptors named [double], the first is taken. *)
Lemma lookup_takes_first_match_witness :
  ∃ pre post,
    overloaded_abi = pre ++ descriptor "double" ["uint256"] :: post ∧
    find_descriptor overloaded_abi "double"
    = Some (descriptor "double" ["uint256"]).
Proof.
  destruct (lookup_takes_first_match overloaded_abi "double")
    as (pre & d & post & Habi & _ & _ & _ & Hfind & _).
  - vm_compute. lia.
  - exists pre, post.
    assert (d = descriptor "double" ["uint256"]) as ->.
    { assert (find_descriptor overloaded_abi "double"
              = Some (descriptor "double" ["uint256"])) as E by reflexivity.
      congruence. }
    split; assumption.
Defined.

(** Counterexample to C9 as stated: [createSignedRawTransaction] called
    on an object without [value] leaves the object with [value] set. *)
Lemma createSignedRawTransaction_mutates_params :
  let st := store_of (params_create 7) in
  heap st !! 0 = Some (params_create 7) ∧
  params_create 7 !! "value" = None ∧
  (heap (createSignedRawTransaction 0 st).2 !! 0) ≫= (.!! "value")
  = Some (JNum 0) ∧
  heap (createSignedRawTransaction 0 st).2 !! 0 ≠ heap st !! 0.
Proof.
  repeat split; try reflexivity.
  intros E. apply (f_equal (λ o, o ≫= (.!! "value"))) in E.
  vm_compute in E. discriminate.
Qed.

(** A key of two bytes: the curve library raises, and the promise of the
    assembly is left unsettled. *)
Lemma signing_failure_in_assembly_witness :
  (createSignedRawTransaction 0
     (store_of (short_key (params_create 7)))).1
  = Unsettled (SigningError "private key length is invalid").
Proof.
  apply (signing_failure_in_assembly
           (store_of (short_key (params_create 7))) 0
           (short_key (params_create 7))
           (fields_of (with_default_value (short_key (params_create 7))))
           provider
           "0xeee972060000000000000000000000000000000000000000000000000000000000000007"
           0 20000000000 (JNum 30000));
    try (vm_compute; reflexivity).
  right. split; [vm_compute; reflexivity|].
  exists 30000%Z. split; vm_compute; reflexivity.
Defined.

(** The same key given to [sendTransaction]. *)
Lemma signing_failure_in_sendTransaction_witness :
  (sendTransaction 0 (store_of (short_key (params_double 7)))).1
  = Unsettled (SigningError "private key length is invalid").
Proof.
  apply (signing_failure_in_sendTransaction
           (store_of (short_key (params_double 7))) 0
           (short_key (params_double 7)) provider
           (fields_of (with_default_value
                         (forwarded (short_key (params_double 7))
                            (JWeb3 provider))))
           "0xeee972060000000000000000000000000000000000000000000000000000000000000007"
           0 20000000000 (JNum 30000));
    try (vm_compute; reflexivity).
  right. split; [vm_compute; reflexivity|].
  exists 30000%Z. split; vm_compute; reflexivity.
Defined.

(** ** The scripted environment, further *)

(** The test [double] with every stage answering: four requests and the
    hash of the node. *)
Lemma sendTransaction_success_witness :
  (sendTransaction 0 (store_of (params_double 7))).1 = Resolved txHash ∧
  length (trace (sendTransaction 0 (store_of (params_double 7))).2) = 4.
Proof.
  destruct (sendTransaction_success
              (store_of (params_double 7)) 0 (params_double 7) provider
              (fields_of (with_default_value
                            (forwarded (params_double 7) (JWeb3 provider))))
              "0xeee972060000000000000000000000000000000000000000000000000000000000000007"
              0 20000000000 (JNum 30000)
              (default [] (match sign_and_serialize
                                   (fields_of
                                      (with_default_value
                                         (forwarded (params_double 7)
                                            (JWeb3 provider))))
                                   0
                                   "0xeee972060000000000000000000000000000000000000000000000000000000000000007"
                                   20000000000 (JNum 30000) with
                           | Ok b => Some b
                           | Err _ => None
                           end))
              txHash) as (Hres & Htr & _);
    try (vm_compute; reflexivity).
  - right. split; [vm_compute; reflexivity|].
    exists 30000%Z. split; vm_compute; reflexivity.
  - split; [exact Hres|]. rewrite Htr. reflexivity.
Defined.

(** The test [ping]: one message call, answered with the encoded "pong". *)
Lemma call_returns_node_answer_witness :
  call 0 (store_of params_ping)
  = (Resolved pongInHex,
     mkState [params_ping]
       [EthCall provider "0x13ab619da719796aa7a97bf046a51528ac11bd0f"
          "0x5c36b186"]).
Proof.
  etrans.
  - apply (call_returns_node_answer (store_of params_ping) 0 params_ping
             "0x13ab619da719796aa7a97bf046a51528ac11bd0f" (JArr parkour_abi)
             "ping" (JArr []) provider "0x5c36b186");
      vm_compute; reflexivity.
  - reflexivity.
Defined.

(** [double] without its argument: the encoder raises, no request. *)
Lemma encoding_error_fails_before_network_witness :
  let o := <["functionArguments" := JArr []]> (params_double 7) in
  ∃ st', sendTransaction 0 (store_of o)
         = (Rejected (EncodingError "Invalid number of arguments"), st') ∧
         trace st' = [].
Proof.
  destruct (encoding_error_fails_before_network
              (store_of (<["functionArguments" := JArr []]>
                           (params_double 7))) 0
              (<["functionArguments" := JArr []]> (params_double 7))
              parkour_abi "double" (JArr [])
              (descriptor "double" ["uint256"])
              (EncodingError "Invalid number of arguments"))
    as (_ & _ & Hsend); try (vm_compute; reflexivity).
  apply Hsend. vm_compute. reflexivity.
Defined.

(** The copy made of the test parameters. *)
Lemma forwarded_copy_passes_validation_witness :
  Joi_validate (forwarded (params_double 7) (JWeb3 provider))
    schema_createSignedRawTransaction = None ∧
  Joi_validate (<["web3" := JWeb3 provider]> (params_double 7))
    schema_createSignedRawTransaction = Some ValidationError.
Proof.
  destruct (forwarded_copy_passes_validation (params_double 7)
              (JWeb3 provider)) as (H1 & H2 & _).
  - vm_compute. reflexivity.
  - split; assumption.
Defined.

(** A contract address that is no address, and no gas limit: unsettled,
    by [estimateGas], after the two requests. *)
Lemma sendTransaction_unsettled_only_in_callback_witness :
  let o := <["contractAddress" := JStr "0x1234"]> (params_double 7) in
  ∃ d,
    eth_estimateGas provider "0x1234" d = Raised InvalidAddress ∧
    trace (sendTransaction 0 (store_of o)).2
    = [GetTransactionCount provider account; GetGasPrice provider].
Proof.
  destruct (sendTransaction_unsettled_only_in_callback
              (store_of (<["contractAddress" := JStr "0x1234"]>
                           (params_double 7))) 0 InvalidAddress)
    as (o & pr & p & d & n & g & Hl & _ & Hpr & Hp & _ & _ & _ & Hcase).
  - vm_compute. reflexivity.
  - injection Hl as <-.
    assert (pr = provider) as ->.
    { vm_compute in Hpr. by injection Hpr as <-. }
    assert (contractAddress p = "0x1234" ∧ from p = account ∧
            gasLimit p = None) as (Hc & Hf & Hg).
    { vm_compute in Hp. by injection Hp as <-. }
    rewrite Hc, Hf in Hcase. exists d.
    destruct Hcase as [(gl & Hgl & _)|(_ & Hest & Htr)].
    + exfalso. destruct Hgl as [Hgl|(_ & res & Hest & _)].
      * congruence.
      * vm_compute in Hest. discriminate Hest.
    + split; assumption.
Defined.

(** A sender that is no address: rejected by the exception of web3, and
    no request was made. *)
Lemma invalid_sender_fails_before_network_witness :
  let o := <["from" := JStr "me"]> (params_double 7) in
  ∃ st', sendTransaction 0 (store_of o) = (Rejected InvalidAddress, st') ∧
         trace st' = [].
Proof.
  destruct (invalid_sender_fails_before_network
              (store_of (<["from" := JStr "me"]> (params_double 7))) 0
              (<["from" := JStr "me"]> (params_double 7))
              (JArr parkour_abi) "double" (JArr [JNum 7]) "me" provider
              "0xeee972060000000000000000000000000000000000000000000000000000000000000007"
              InvalidAddress)
    as (_ & Hsend); try (vm_compute; reflexivity).
  apply Hsend; vm_compute; reflexivity.
Defined.

(** A string in the place of the Web3 instance. *)
Lemma assembly_without_web3_instance_witness :
  let o := <["web3" := JStr "web3"]> (params_create 7) in
  ∃ st', createSignedRawTransaction 0 (store_of o)
         = (Rejected TypeError, st') ∧ trace st' = [].
Proof.
  apply (assembly_without_web3_instance
           (store_of (<["web3" := JStr "web3"]> (params_create 7))) 0
           (<["web3" := JStr "web3"]> (params_create 7)) (JStr "web3")
           (JArr parkour_abi) "double" (JArr [JNum 7])
           "0xeee972060000000000000000000000000000000000000000000000000000000000000007");
    try (vm_compute; reflexivity).
  intros pr. discriminate.
Defined.

(** A value of -1 on the test parameters passes validation and is stored
    as the text of its numeral; 2^53 does not pass. *)
Lemma integers_are_bounded_in_size_only_witness :
  Joi_validate (<["value" := JNum (-1)]> (params_double 7))
    schema_sendTransaction = None ∧
  Tx.numeric (Number.toHex (-1)) = [45; 48; 120; 49]%N.
Proof.
  destruct (integers_are_bounded_in_size_only (params_double 7) (-1))
    as (Hk & Hneg); [vm_compute; reflexivity|].
  split.
  - apply (Hk "value"). by left.
  - destruct Hneg as (_ & _ & Hbytes); [lia|]. exact Hbytes.
Defined.

(** Three bytes and their text. *)
Lemma resolved_text_decodes_witness :
  bytes_of_hex ("0x" +:+ hex_of_bytes [1; 171; 0]%N) = Some [1; 171; 0]%N.
Proof.
  apply (resolved_text_decodes [1; 171; 0]%N).
  repeat constructor.
Defined.

(** Two numbers next to each other, two numerals. *)
Lemma toHex_injective_on_safe_integers_witness :
  Number.toHex 255 ≠ Number.toHex 256.
Proof.
  apply (proj1 (toHex_injective_on_safe_integers 255 256)); lia.
Defined.

(** Twenty gwei in the first revision: read back as a far larger price. *)
Lemma legacy_gasPrice_is_misread_witness :
  ∃ bs,
    bytes_of_hex
      (tx_gasPrice (Legacy.rawTx_of account "" "" 0 20000000000 30000))
    = Some bs ∧
    (20000000000 < Z.of_N (be_value bs))%Z.
Proof.
  destruct (legacy_gasPrice_is_misread account "" "" 0 20000000000 30000)
    as (bs & Hbs & _ & Hbig).
  - vm_compute. split; [discriminate|reflexivity].
  - exists bs. split; [exact Hbs|]. apply Hbig. vm_compute. discriminate.
Defined.
